(** * Booking API of the KBL Clean Pro backend: availability, capacity and
    payment confirmation

    Shallow embedding of the booking core of [src/index.ts] (the Express
    handlers for the Stripe webhook, the payment verification call, the
    available-dates query and the public booking request, together with
    [getNthWeekdayOfMonth]) and of the prepared statements of [database.ts]
    they run; then of what surrounds that core: the checkout that opens
    the Stripe session, and the back-office routes that set the
    configuration, change the status of a booking, list the calendar,
    create cities and services and erase the data of a client.

    Conventions of the embedding:
    - a JavaScript [Date] is its time value, an integer number of
      milliseconds since the epoch; the calendar functions are those of
      ECMA-262 (Day, DayFromYear, YearFromTime, MonthFromTime, DateFromTime,
      WeekDay, MakeDay).  The local time zone is a fixed offset [LocalTZA]
      (no daylight saving), and time values stay inside the range on which
      TimeClip is the identity;
    - the SQLite tables are lists of rows in rowid order; the timestamp
      columns (created_at, updated_at, consent_date) are left out, and so
      is what SQLite's column affinity does to a text that reads as a
      number: the dates are taken as written YYYY-MM-DD, the capacity of a
      service as an integer, and the integer of an INTEGER column is kept
      as its decimal text;
    - a handler is a function from the store to a new store and an outcome:
      the response sent, an exception that escapes the handler, or
      divergence of one of its [while] loops;
    - the SELECT and UPDATE statements always succeed; [insertBooking]
      fails as better-sqlite3 and SQLite do: on a wrong number of bound
      values, on an [undefined] value, on a NULL in a NOT NULL column and
      on a duplicate (preferred_date, preferred_time) pair;
    - a back-office route or the checkout answers with a [reply]: the
      payload of its [ok: true] answer, or the status code and the error
      text.  What these routes read outside the store of the booking core
      is a parameter: the rowid SQLite gives an inserted city or service,
      the number SQLite reads in a text id, and, for the checkout, the
      record [Billing]. *)

From Stdlib Require Import ZArith Lia List Bool String Ascii DecimalString DecimalPos.
Import ListNotations.
Open Scope string_scope.
Open Scope Z_scope.

(** Division and remainder by literals are handed to [lia] as their
    Euclidean equations. *)
Ltac Zify.zify_post_hook ::= Z.to_euclidean_division_equations.

(* ================================================================== *)
(** ** ECMA-262 calendar arithmetic on day numbers *)

Module ESDate.

Definition msPerDay : Z := 86400000.

(** [Day(t)] and [TimeWithinDay(t)]. *)
Definition Day (t : Z) : Z := t / msPerDay.
Definition TimeWithinDay (t : Z) : Z := t mod msPerDay.

(** [DayFromYear(y)]: day number of the first of January of year [y]. *)
Definition DayFromYear (y : Z) : Z :=
  365 * (y - 1970) + (y - 1969) / 4 - (y - 1901) / 100 + (y - 1601) / 400.

Definition isLeapYear (y : Z) : bool :=
  ((y mod 4 =? 0) && negb (y mod 100 =? 0)) || (y mod 400 =? 0).

Definition DaysInYear (y : Z) : Z := if isLeapYear y then 366 else 365.

(** The year containing day [d]: the largest [y] with [DayFromYear y <= d].
    The estimate from the mean Gregorian year is off by at most one. *)
Definition YearFromDay (d : Z) : Z :=
  let y0 := 1970 + (400 * d) / 146097 in
  if DayFromYear (y0 + 1) <=? d then y0 + 1
  else if DayFromYear y0 <=? d then y0
  else y0 - 1.

Definition DayWithinYear (d : Z) : Z := d - DayFromYear (YearFromDay d).

Definition leapDays (y : Z) : Z := if isLeapYear y then 1 else 0.

(** Number of days of the year before month [m] (0 = January, 12 = the
    whole year). *)
Definition daysBeforeMonth (leap m : Z) : Z :=
  match m with
  | 0 => 0
  | 1 => 31
  | 2 => 59 + leap
  | 3 => 90 + leap
  | 4 => 120 + leap
  | 5 => 151 + leap
  | 6 => 181 + leap
  | 7 => 212 + leap
  | 8 => 243 + leap
  | 9 => 273 + leap
  | 10 => 304 + leap
  | 11 => 334 + leap
  | _ => 365 + leap
  end.

(** The table of [MonthFromTime]. *)
Definition MonthFromDay (d : Z) : Z :=
  let w := DayWithinYear d in
  let l := leapDays (YearFromDay d) in
  if w <? 31 then 0
  else if w <? 59 + l then 1
  else if w <? 90 + l then 2
  else if w <? 120 + l then 3
  else if w <? 151 + l then 4
  else if w <? 181 + l then 5
  else if w <? 212 + l then 6
  else if w <? 243 + l then 7
  else if w <? 273 + l then 8
  else if w <? 304 + l then 9
  else if w <? 334 + l then 10
  else 11.

(** [DateFromTime]: day of the month, from 1. *)
Definition DateFromDay (d : Z) : Z :=
  DayWithinYear d - daysBeforeMonth (leapDays (YearFromDay d)) (MonthFromDay d) + 1.

(** [WeekDay]: 0 = Sunday; the epoch was a Thursday. *)
Definition WeekDayOfDay (d : Z) : Z := (d + 4) mod 7.

(** [MakeDay(year, month, date)]: months outside 0..11 carry into the year,
    dates outside the month carry into the neighbouring months. *)
Definition MakeDay (year month date : Z) : Z :=
  let ym := year + month / 12 in
  let mn := month mod 12 in
  DayFromYear ym + daysBeforeMonth (leapDays ym) mn + date - 1.

Definition DaysInMonth (y m : Z) : Z :=
  daysBeforeMonth (leapDays y) (m + 1) - daysBeforeMonth (leapDays y) m.

End ESDate.

(* ================================================================== *)
(** ** JavaScript values used by the handlers *)

Module JS.

(** A JavaScript number that is either an integer or NaN. *)
Inductive number : Type :=
| NaN
| Int (z : Z).

(** [a >= b] on numbers: false as soon as one side is NaN. *)
Definition ge (a b : number) : bool :=
  match a, b with
  | Int x, Int y => y <=? x
  | _, _ => false
  end.

Definition gt (a b : number) : bool :=
  match a, b with
  | Int x, Int y => y <? x
  | _, _ => false
  end.

Definition le (a b : number) : bool := ge b a.

(** Truthiness of a value that is a string or undefined. *)
Definition truthy (v : option string) : bool :=
  match v with
  | Some s => negb (String.eqb s "")
  | None => false
  end.

(** [v || d] for a string-or-undefined [v]. *)
Definition orElse (v : option string) (d : string) : string :=
  match v with
  | Some s => if String.eqb s "" then d else s
  | None => d
  end.

Definition isDigit (c : ascii) : bool :=
  let n := Z.of_nat (nat_of_ascii c) in (48 <=? n) && (n <=? 57).

Definition digitVal (c : ascii) : Z := Z.of_nat (nat_of_ascii c) - 48.

Definition isSpace (c : ascii) : bool :=
  let n := nat_of_ascii c in
  (Nat.eqb n 32 || Nat.eqb n 9 || Nat.eqb n 10 || Nat.eqb n 11 ||
   Nat.eqb n 12 || Nat.eqb n 13)%bool.

Fixpoint skipSpaces (s : string) : string :=
  match s with
  | String c r => if isSpace c then skipSpaces r else s
  | EmptyString => s
  end.

(** Value of the longest prefix of decimal digits, [None] when it is empty. *)
Fixpoint digitsPrefix (acc : option Z) (s : string) : option Z :=
  match s with
  | String c r =>
      if isDigit c
      then digitsPrefix (Some (10 * match acc with Some a => a | None => 0 end
                               + digitVal c)) r
      else acc
  | EmptyString => acc
  end.

(** [parseInt(s, 10)]: leading white space, an optional sign, then the
    longest run of digits; NaN when there is no digit. *)
Definition parseInt (s : string) : number :=
  let body := skipSpaces s in
  let signed :=
    match body with
    | String "-" r => (-1, r)
    | String "+" r => (1, r)
    | _ => (1, body)
    end in
  match digitsPrefix None (snd signed) with
  | Some v => Int (fst signed * v)
  | None => NaN
  end.

(** [String(n).padStart(2, '0')] and [String(n)] for integers. *)
Definition ofZ (z : Z) : string := NilZero.string_of_int (Z.to_int z).

Definition padStart2 (s : string) : string :=
  match s with
  | EmptyString => "00"
  | String c EmptyString => String "0" s
  | _ => s
  end.

End JS.

(* ================================================================== *)
(** ** The store: rows of the SQLite tables of [database.ts] *)

(** A value bound to a [?] placeholder of a prepared statement. *)
Inductive bindval : Type :=
| BUndefined
| BNull
| BText (s : string)
| BNum (n : JS.number).

(** The exceptions the handlers can meet. [code] is what the handlers read
    from [err.code]. *)
Inductive exn : Type :=
| RangeError (msg : string)
| TypeError (msg : string)
| SqliteError (code : string)
| TransportError
| StripeError.

Record Booking : Type := mkBooking {
  id : Z;
  name : string;
  email : string;
  phone : string;
  city : string;
  address : option string;
  postal_code : option string;
  service_type : string;
  bin_count : option string;
  preferred_date : string;
  preferred_time : string;
  message : option string;
  status : string;
  stripe_payment_intent_id : option string;
  stripe_session_id : option string;
  payment_status : option string;
  rgpd_consent : option string;
  marketing_consent : option string;
  consent_ip : option string;
  variant_id : option string;
  subscription_contract_consent : option string
}.

Record Service : Type := mkService {
  service_id : string;
  service_name : string;
  s_passage1_week : option Z;
  s_passage1_day : option Z;
  s_passage2_week : option Z;
  s_passage2_day : option Z;
  max_bookings_per_day : option Z
}.

Record ServiceCity : Type := mkCity {
  city_name : string;
  c_passage1_week : option Z;
  c_passage1_day : option Z;
  c_passage2_week : option Z;
  c_passage2_day : option Z;
  enabled : bool;
  cutoff_date : option string
}.

Record Quote : Type := mkQuote {
  quote_id : Z;
  q_stripe_payment_intent_id : option string;
  q_stripe_session_id : option string;
  q_payment_status : option string
}.

Record AuditLog : Type := mkAudit {
  action : string;
  entity_type : string;
  entity_id : option string;
  description : string
}.

Record Email : Type := mkEmail {
  mail_from : option string;
  mail_to : option string;
  replyTo : option string;
  subject : string;
  text : string
}.

(** The database file together with the operator mailbox. *)
Record Store : Type := mkStore {
  bookings : list Booking;
  bookings_seq : Z;            (* sqlite_sequence of AUTOINCREMENT *)
  services : list Service;
  service_cities : list ServiceCity;
  config : list (string * string);
  quotes : list Quote;
  audit_logs : list AuditLog;
  outbox : list Email
}.

Definition set_bookings (st : Store) (bs : list Booking) (seq : Z) : Store :=
  mkStore bs seq (services st) (service_cities st) (config st) (quotes st)
          (audit_logs st) (outbox st).

Definition set_quotes (st : Store) (qs : list Quote) : Store :=
  mkStore (bookings st) (bookings_seq st) (services st) (service_cities st)
          (config st) qs (audit_logs st) (outbox st).

Definition add_audit (st : Store) (a : AuditLog) : Store :=
  mkStore (bookings st) (bookings_seq st) (services st) (service_cities st)
          (config st) (quotes st) (audit_logs st ++ [a]) (outbox st).

Definition add_mail (st : Store) (m : Email) : Store :=
  mkStore (bookings st) (bookings_seq st) (services st) (service_cities st)
          (config st) (quotes st) (audit_logs st) (outbox st ++ [m]).

Definition opt_eqb (a : option string) (s : string) : bool :=
  match a with Some x => String.eqb x s | None => false end.

Module dbQueries.

(** [SELECT value FROM config WHERE key = ?] *)
Fixpoint getConfig (cfg : list (string * string)) (key : string) : option string :=
  match cfg with
  | [] => None
  | (k, v) :: r => if String.eqb k key then Some v else getConfig r key
  end.

(** [SELECT * FROM services WHERE service_id = ?] *)
Definition getServiceByServiceId (st : Store) (sid : string) : option Service :=
  find (fun s => String.eqb (service_id s) sid) (services st).

(** [SELECT * FROM service_cities WHERE city_name = ? AND enabled = 1] *)
Definition checkServiceCity (st : Store) (c : string) : option ServiceCity :=
  find (fun x => String.eqb (city_name x) c && enabled x) (service_cities st).

Definition idIs (n : JS.number) (b : Booking) : bool :=
  match n with JS.Int z => id b =? z | JS.NaN => false end.

(** [SELECT * FROM bookings WHERE id = ?] *)
Definition getBookingById (st : Store) (n : JS.number) : option Booking :=
  find (idIs n) (bookings st).

Definition notCancelled (b : Booking) : bool :=
  negb (String.eqb (status b) "cancelled").

Definition isPaid (b : Booking) : bool := opt_eqb (payment_status b) "paid".

(** [SELECT COUNT( * ) ... WHERE preferred_date = ? AND status != 'cancelled'
    AND payment_status = 'paid'] *)
Definition countPaidBookingsByDate (st : Store) (d : string) : Z :=
  Z.of_nat (List.length (filter (fun b =>
    String.eqb (preferred_date b) d && notCancelled b && isPaid b) (bookings st))).

(** The same with [AND service_type = ?]. *)
Definition countPaidBookingsByDateAndService (st : Store) (d svc : string) : Z :=
  Z.of_nat (List.length (filter (fun b =>
    String.eqb (preferred_date b) d && String.eqb (service_type b) svc &&
    notCancelled b && isPaid b) (bookings st))).

(** [GROUP BY preferred_date] with [COUNT( * )]: one row per distinct date of
    the selected rows (SQL leaves the order of the groups open; here it is
    the order of first appearance). *)
Fixpoint distinct (seen ds : list string) : list string :=
  match ds with
  | [] => []
  | d :: r =>
      if existsb (String.eqb d) seen then distinct seen r
      else d :: distinct (d :: seen) r
  end.

Definition groupCount (ds : list string) : list (string * Z) :=
  map (fun d => (d, Z.of_nat (List.length (filter (String.eqb d) ds))))
      (distinct [] ds).

(** [preferred_date >= ? AND preferred_date <= ?] on TEXT values compares
    the strings byte by byte. *)
Definition inRange (lo hi d : string) : bool :=
  String.leb lo d && String.leb d hi.

(** [getPaidBookingsByDateRange] *)
Definition getPaidBookingsByDateRange (st : Store) (lo hi : string)
  : list (string * Z) :=
  groupCount (map preferred_date (filter (fun b =>
    inRange lo hi (preferred_date b) && notCancelled b && isPaid b) (bookings st))).

(** [getPaidBookingsByDateRangeAndService] *)
Definition getPaidBookingsByDateRangeAndService (st : Store) (lo hi svc : string)
  : list (string * Z) :=
  groupCount (map preferred_date (filter (fun b =>
    inRange lo hi (preferred_date b) && String.eqb (service_type b) svc &&
    notCancelled b && isPaid b) (bookings st))).

(** [SELECT * FROM bookings WHERE preferred_date = ? AND preferred_time = ?
    AND status != 'cancelled'] *)
Definition checkBookingConflict (st : Store) (d t : string) : option Booking :=
  find (fun b => String.eqb (preferred_date b) d &&
                 String.eqb (preferred_time b) t && notCancelled b) (bookings st).

(** [UPDATE bookings SET status = ? WHERE id = ?] *)
Definition updateBookingStatus (st : Store) (s : string) (n : JS.number) : Store :=
  set_bookings st
    (map (fun b => if idIs n b then
       mkBooking (id b) (name b) (email b) (phone b) (city b) (address b)
         (postal_code b) (service_type b) (bin_count b) (preferred_date b)
         (preferred_time b) (message b) s (stripe_payment_intent_id b)
         (stripe_session_id b) (payment_status b) (rgpd_consent b)
         (marketing_consent b) (consent_ip b) (variant_id b)
         (subscription_contract_consent b)
     else b) (bookings st))
    (bookings_seq st).

(** [UPDATE bookings SET stripe_payment_intent_id = ?, stripe_session_id = ?,
    payment_status = ? WHERE id = ?] *)
Definition updateBookingPayment (st : Store) (pi : option string)
    (sess : string) (ps : string) (n : JS.number) : Store :=
  set_bookings st
    (map (fun b => if idIs n b then
       mkBooking (id b) (name b) (email b) (phone b) (city b) (address b)
         (postal_code b) (service_type b) (bin_count b) (preferred_date b)
         (preferred_time b) (message b) (status b) pi (Some sess) (Some ps)
         (rgpd_consent b) (marketing_consent b) (consent_ip b) (variant_id b)
         (subscription_contract_consent b)
     else b) (bookings st))
    (bookings_seq st).

(** [UPDATE quotes SET stripe_payment_intent_id = ?, stripe_session_id = ?,
    payment_status = ? WHERE id = ?] *)
Definition updateQuotePayment (st : Store) (pi : option string)
    (sess : string) (ps : string) (n : JS.number) : Store :=
  set_quotes st
    (map (fun q =>
       if match n with JS.Int z => quote_id q =? z | JS.NaN => false end
       then mkQuote (quote_id q) pi (Some sess) (Some ps) else q) (quotes st)).

Definition getQuoteById (st : Store) (n : JS.number) : option Quote :=
  find (fun q => match n with JS.Int z => quote_id q =? z | JS.NaN => false end)
       (quotes st).

(** What SQLite stores for a bound value: NULL, or the value as text. *)
Definition stored (v : bindval) : option string :=
  match v with
  | BText s => Some s
  | BNum (JS.Int z) => Some (JS.ofZ z)
  | _ => None
  end.

(** [INSERT INTO bookings (name, email, phone, city, address, postal_code,
    service_type, bin_count, preferred_date, preferred_time, message,
    stripe_session_id, payment_status, rgpd_consent, marketing_consent,
    consent_date, consent_ip, variant_id, subscription_contract_consent,
    subscription_contract_date) VALUES (?, ... twenty times)].

    better-sqlite3 first binds: the number of values must be the number of
    placeholders, and [undefined] is bound as NULL.  Then the row is checked
    against NOT NULL and UNIQUE(preferred_date, preferred_time), which ranges
    over every row, cancelled or not.  [status] takes its column default. *)
Definition insertBooking (st : Store) (params : list bindval)
  : exn + (Store * Z) :=
  if (Nat.ltb (List.length params) 20) then
    inl (RangeError "Too few parameter values were provided")
  else if (Nat.ltb 20 (List.length params)) then
    inl (RangeError "Too many parameter values were provided")
  else
    let col i := stored (nth i params BNull) in
    match col 0%nat, col 1%nat, col 2%nat, col 3%nat, col 6%nat, col 8%nat, col 9%nat with
    | Some nm, Some em, Some ph, Some ci, Some sv, Some pd, Some pt =>
        if existsb (fun b => String.eqb (preferred_date b) pd &&
                             String.eqb (preferred_time b) pt) (bookings st)
        then inl (SqliteError "SQLITE_CONSTRAINT_UNIQUE")
        else
          let rowid := bookings_seq st + 1 in
          inr (set_bookings st
                 (bookings st ++
                  [mkBooking rowid nm em ph ci (col 4%nat) (col 5%nat) sv
                     (col 7%nat) pd pt (col 10%nat) "pending" None (col 11%nat)
                     (col 12%nat) (col 13%nat) (col 14%nat) (col 16%nat)
                     (col 17%nat) (col 18%nat)])
                 rowid,
               rowid)
    | _, _, _, _, _, _, _ => inl (SqliteError "SQLITE_CONSTRAINT_NOTNULL")
    end.

End dbQueries.

(* ================================================================== *)
(** ** Requests, Stripe objects, responses *)

(** [session.metadata]: Stripe metadata values are strings; a missing key
    reads as [undefined]. *)
Record Metadata : Type := mkMetadata {
  md_type : option string;
  bookingId : option string;
  bookingName : option string;
  bookingEmail : option string;
  bookingPhone : option string;
  bookingCity : option string;
  bookingAddress : option string;
  bookingPostalCode : option string;
  bookingServiceType : option string;
  bookingBinCount : option string;
  bookingPreferredDate : option string;
  bookingPreferredTime : option string;
  bookingMessage : option string;
  bookingRgpdConsent : option string;
  bookingMarketingConsent : option string;
  variantId : option string;
  bookingSubscriptionContractConsent : option string;
  quoteId : option string
}.

Record Session : Type := mkSession {
  session_id : string;
  payment_intent : option string;
  livemode : bool;
  metadata : option Metadata;
  session_payment_status : option string;
  session_status : option string
}.

Record Event : Type := mkEvent {
  event_type : string;
  event_object : Session
}.

(** Body of [POST /api/booking]. *)
Record BookingRequest : Type := mkBookingRequest {
  rq_name : option string;
  rq_email : option string;
  rq_phone : option string;
  rq_city : option string;
  rq_address : option string;
  rq_postalCode : option string;
  rq_serviceType : option string;
  rq_binCount : option string;
  rq_preferredDate : option string;
  rq_preferredTime : option string;
  rq_message : option string;
  rq_rgpdConsent : bool;
  rq_marketingConsent : bool;
  rq_ip : option string
}.

(** Query string of [GET /api/bookings/available-dates]. *)
Record DatesQuery : Type := mkDatesQuery {
  startDate : option string;
  endDate : option string;
  q_city : option string;
  q_serviceType : option string
}.

(** JSON bodies: an object of scalars, string arrays and flat objects. *)
Inductive jatom : Type :=
| JNull
| JBool (b : bool)
| JNum (n : JS.number)
| JStr (s : string).

Inductive jval : Type :=
| JAtom (a : jatom)
| JStrings (l : list string)
| JSub (fields : list (string * jatom)).

Definition json : Type := list (string * jval).

Coercion JAtom : jatom >-> jval.

Definition optStr (v : option string) : jatom :=
  match v with Some s => JStr s | None => JNull end.

(** What a handler run ends in. *)
Inductive outcome : Type :=
| Responded (code : Z) (body : json)
| Threw (e : exn)
| Diverged.

(** Process environment and external collaborators. *)
Record Runtime : Type := mkRuntime {
  LocalTZA : Z;                          (* local time minus UTC, in ms *)
  DateParse : string -> JS.number;       (* time value of [new Date(string)] *)
  nowISO : string;                       (* [new Date().toISOString()] *)
  stripe : option (string -> option Session);
                                         (* [stripe.checkout.sessions.retrieve] *)
  stripeWebhookSecret : option string;
  smtpUser : option string;
  smtpPass : option string;
  SMTP_FROM : option string;
  SMTP_TO : option string;
  transportOk : bool                     (* whether [sendMail] resolves *)
}.

Definition smtpFrom (rt : Runtime) : option string :=
  if JS.truthy (SMTP_FROM rt) then SMTP_FROM rt else smtpUser rt.

Definition smtpTo (rt : Runtime) : option string :=
  if JS.truthy (SMTP_TO rt) then SMTP_TO rt else smtpUser rt.

Definition smtpConfigured (rt : Runtime) : bool :=
  JS.truthy (smtpUser rt) && JS.truthy (smtpPass rt).

(** [await transporter.sendMail(...)] *)
Definition sendMail (rt : Runtime) (st : Store) (m : Email) : exn + Store :=
  if transportOk rt then inr (add_mail st m) else inl TransportError.

(** A truthy string, or nothing. *)
Definition truthyVal (v : option string) : option string :=
  if JS.truthy v then v else None.

(** [x] bound as it is, and [x || null]. *)
Definition bindRaw (v : option string) : bindval :=
  match v with Some s => BText s | None => BUndefined end.

Definition bindOrNull (v : option string) : bindval :=
  match truthyVal v with Some s => BText s | None => BNull end.

Definition bindFlag (b : bool) : bindval :=
  BNum (JS.Int (if b then 1 else 0)).

(** A template literal prints [undefined] for a missing value. *)
Definition tpl (v : option string) : string :=
  match v with Some s => s | None => "undefined" end.

Fixpoint joinLines (l : list string) : string :=
  match l with
  | [] => ""
  | [x] => x
  | x :: r => x ++ String (ascii_of_nat 10) (joinLines r)
  end.

(** [.filter(Boolean)] on an array of strings and [undefined]s. *)
Fixpoint filterBoolean (l : list (option string)) : list string :=
  match l with
  | [] => []
  | v :: r =>
      match truthyVal v with
      | Some s => s :: filterBoolean r
      | None => filterBoolean r
      end
  end.

(** [createAuditLog]: the insert is wrapped in its own try/catch. *)
Definition createAuditLog (st : Store) (a : AuditLog) : Store := add_audit st a.

(* ================================================================== *)
(** ** [Date] objects in local time *)

Section DateObject.

Variable tza : Z.

Definition LocalTime (t : Z) : Z := t + tza.
Definition UTC (t : Z) : Z := t - tza.

(** [new Date(year, month, date)]: a year in 0..99 means 1900 + year. *)
Definition fullYear (year : Z) : Z :=
  if (0 <=? year) && (year <=? 99) then 1900 + year else year.

Definition newDate (year month date : Z) : Z :=
  UTC (ESDate.MakeDay (fullYear year) month date * ESDate.msPerDay).

Definition getFullYear (t : Z) : Z := ESDate.YearFromDay (ESDate.Day (LocalTime t)).
Definition getMonth (t : Z) : Z := ESDate.MonthFromDay (ESDate.Day (LocalTime t)).
Definition getDate (t : Z) : Z := ESDate.DateFromDay (ESDate.Day (LocalTime t)).
Definition getDay (t : Z) : Z := ESDate.WeekDayOfDay (ESDate.Day (LocalTime t)).

(** [date.setDate(dt)] and [date.setMonth(m)] keep the local time of day. *)
Definition setDate (t dt : Z) : Z :=
  let lt := LocalTime t in
  UTC (ESDate.MakeDay (ESDate.YearFromDay (ESDate.Day lt))
                      (ESDate.MonthFromDay (ESDate.Day lt)) dt * ESDate.msPerDay
       + ESDate.TimeWithinDay lt).

Definition setMonth (t m : Z) : Z :=
  let lt := LocalTime t in
  UTC (ESDate.MakeDay (ESDate.YearFromDay (ESDate.Day lt)) m
                      (ESDate.DateFromDay (ESDate.Day lt)) * ESDate.msPerDay
       + ESDate.TimeWithinDay lt).

(** [`${y}-${m}-${day}`] with month and day padded to two characters. *)
Definition formatDate (t : Z) : string :=
  JS.ofZ (getFullYear t) ++ "-" ++ JS.padStart2 (JS.ofZ (getMonth t + 1))
    ++ "-" ++ JS.padStart2 (JS.ofZ (getDate t)).

(** [toLocaleDateString('fr-FR')]: day/month/year. *)
Definition toLocaleDateString_frFR (t : Z) : string :=
  JS.padStart2 (JS.ofZ (getDate t)) ++ "/" ++ JS.padStart2 (JS.ofZ (getMonth t + 1))
    ++ "/" ++ JS.ofZ (getFullYear t).

(** [while (date.getDay() !== weekday) date.setDate(date.getDate() + step)].
    The week days met repeat with period seven, so seven tests decide the
    loop: [None] is a loop that never ends. *)
Fixpoint seekWeekday (fuel : nat) (step weekday date : Z) : option Z :=
  match fuel with
  | O => None
  | S f =>
      if getDay date =? weekday then Some date
      else seekWeekday f step weekday (setDate date (getDate date + step))
  end.

(** [while (date.getMonth() === month) { dates.push(new Date(date));
    date.setDate(date.getDate() + 7) }] *)
Fixpoint collectWeekly (fuel : nat) (month date : Z) (dates : list Z)
  : option (list Z) :=
  match fuel with
  | O => None
  | S f =>
      if getMonth date =? month
      then collectWeekly f month (setDate date (getDate date + 7)) (dates ++ [date])
      else Some dates
  end.

(** [getNthWeekdayOfMonth(year, month, weekNumber, weekday)];
    [None] when a loop does not terminate. *)
Definition getNthWeekdayOfMonth (year month weekNumber weekday : Z)
  : option (list Z) :=
  if weekNumber =? 0 then
    match seekWeekday 7 1 weekday (newDate year month 1) with
    | Some date => collectWeekly 6 month date []
    | None => None
    end
  else if weekNumber =? 5 then
    match seekWeekday 7 (-1) weekday (newDate year (month + 1) 0) with
    | Some date => Some [date]
    | None => None
    end
  else
    match seekWeekday 7 1 weekday (newDate year month 1) with
    | Some first =>
        let date := setDate first (getDate first + (weekNumber - 1) * 7) in
        if negb (getMonth date =? month) then Some [] else Some [date]
    | None => None
    end.

(** The local midnight that begins day number [D]. *)
Definition midnight (D : Z) : Z := UTC (D * ESDate.msPerDay).

(** First day of the local month of a date, and the length of that month. *)
Definition monthStart (t : Z) : Z :=
  ESDate.MakeDay (getFullYear t) (getMonth t) 1.

Definition monthLength (t : Z) : Z :=
  ESDate.DaysInMonth (getFullYear t) (getMonth t).



End DateObject.

(** The first day of a month, as the [Date] constructor reads the year. *)
Definition firstDay (year month : Z) : Z := ESDate.MakeDay (fullYear year) month 1.

(** Offset of the first occurrence of a week day from the first of the
    month, and of the last one from the last day, counted backwards. *)
Definition firstOffset (year month weekday : Z) : Z :=
  (weekday - ESDate.WeekDayOfDay (firstDay year month)) mod 7.

Definition lastOffset (year month weekday : Z) : Z :=
  (ESDate.WeekDayOfDay (firstDay year month
                        + ESDate.DaysInMonth (fullYear year) month - 1)
   - weekday) mod 7.

(** The week-day search on week days alone: the number of steps taken from
    a date that falls on week day [g]. *)
Fixpoint seekSteps (fuel : nat) (step weekday g i : Z) : option Z :=
  match fuel with
  | O => None
  | S f =>
      if (g + i * step) mod 7 =? weekday then Some i
      else seekSteps f step weekday g (i + 1)
  end.


(* ================================================================== *)
(** ** Capacity resolution, shared by the four handlers *)

Import dbQueries.

(** [parseInt(maxBookingsConfig?.value || "5", 10)], overridden by the
    service's own [max_bookings_per_day] when [serviceType] names a service
    that has one.  Returns [(maxBookingsPerDay, useServiceLimit)]. *)
Definition resolveCapacity (st : Store) (serviceType : option string)
  : JS.number * bool :=
  let maxBookingsPerDay :=
    JS.parseInt (JS.orElse (getConfig (config st) "max_bookings_per_day") "5") in
  match truthyVal serviceType with
  | Some svc =>
      match getServiceByServiceId st svc with
      | Some serviceData =>
          match max_bookings_per_day serviceData with
          | Some m => (JS.Int m, true)
          | None => (maxBookingsPerDay, false)
          end
      | None => (maxBookingsPerDay, false)
      end
  | None => (maxBookingsPerDay, false)
  end.

(** [bookingsCount?.count || 0] for the query chosen by [useServiceLimit]. *)
Definition paidCount (st : Store) (useServiceLimit : bool) (date : string)
    (serviceType : option string) : Z :=
  if useServiceLimit then
    match serviceType with
    | Some svc => countPaidBookingsByDateAndService st date svc
    | None => 0
    end
  else countPaidBookingsByDate st date.

(** [err.message].  For a constraint that SQLite refuses the embedding gives
    the error code in the place of the message, and for a failure of the
    transport or of Stripe a fixed word: these texts are part of some
    answers, and no statement below depends on them. *)
Definition exnMessage (e : exn) : string :=
  match e with
  | RangeError m => m
  | TypeError m => m
  | SqliteError c => c
  | TransportError => "transport"
  | StripeError => "stripe"
  end.

Definition exnCode (e : exn) : option string :=
  match e with
  | SqliteError c => Some c
  | _ => None
  end.

Definition numToString (n : JS.number) : string :=
  match n with JS.Int z => JS.ofZ z | JS.NaN => "NaN" end.

(** The mail sent, failures of the transport being logged and dropped. *)
Definition trySendMail (rt : Runtime) (st : Store) (m : Email) : Store :=
  if smtpConfigured rt then
    match sendMail rt st m with
    | inr st' => st'
    | inl _ => st
    end
  else st.

(** The confirmation mail. The webhook hides the default time 09:00 as well
    as 00:00, the verification call only 00:00. *)
Definition confirmationMail (rt : Runtime) (hideDefaultTime : bool)
    (booking : Booking) (session : Session) : Email :=
  let pt := preferred_time booking in
  let showTime :=
    negb (String.eqb pt "") &&
    (if hideDefaultTime then negb (String.eqb pt "09:00") else true) &&
    negb (String.eqb pt "00:00") in
  let timeStr := if showTime then " à " ++ pt else "" in
  let line (label : string) (v : option string) :=
    match truthyVal v with Some x => Some (label ++ x) | None => None end in
  mkEmail (smtpFrom rt) (smtpTo rt) (Some (email booking))
    ("✅ RÉSERVATION CONFIRMÉE – " ++ name booking ++ " – "
       ++ preferred_date booking ++ timeStr)
    (joinLines (filterBoolean
       [ Some "Type: RÉSERVATION CONFIRMÉE (Paiement reçu)";
         Some ("Nom: " ++ name booking);
         Some ("Email: " ++ email booking);
         Some ("Téléphone: " ++ phone booking);
         Some ("Ville: " ++ city booking);
         line "Adresse: " (address booking);
         line "Code postal: " (postal_code booking);
         Some ("Service: " ++ service_type booking);
         line "Nombre de bacs: " (bin_count booking);
         Some ("Date: " ++ preferred_date booking);
         (if showTime then Some ("Heure: " ++ pt) else None);
         Some "";
         Some "---";
         Some "✅ Paiement reçu et réservation confirmée.";
         Some ("Session Stripe: " ++ session_id session) ])).

(** The mail of the webhook when the date is full. *)
Definition dateFullMail (rt : Runtime) (md : Metadata) : Email :=
  mkEmail (smtpFrom rt) (smtpTo rt) (bookingEmail md)
    "⚠️ Réservation annulée - Date complète"
    ("La réservation de " ++ tpl (bookingName md) ++ " pour le "
       ++ tpl (bookingPreferredDate md)
       ++ " n'a pas pu être créée car la date est complète. Le paiement sera remboursé.").

(** The twenty values the webhook and the verification call bind. *)
Definition paidBookingParams (rt : Runtime) (session : Session) (md : Metadata)
  : list bindval :=
  [ bindRaw (bookingName md);
    bindRaw (bookingEmail md);
    bindRaw (bookingPhone md);
    bindRaw (bookingCity md);
    bindOrNull (bookingAddress md);
    bindOrNull (bookingPostalCode md);
    bindRaw (bookingServiceType md);
    bindOrNull (bookingBinCount md);
    bindRaw (bookingPreferredDate md);
    BText (JS.orElse (bookingPreferredTime md) "09:00");
    bindOrNull (bookingMessage md);
    BText (session_id session);
    BText "paid";
    bindFlag (opt_eqb (bookingRgpdConsent md) "true");
    bindFlag (opt_eqb (bookingMarketingConsent md) "true");
    BText (nowISO rt);
    BNull;
    match truthyVal (variantId md) with
    | Some v => BNum (JS.parseInt v)
    | None => BNull
    end;
    bindFlag (opt_eqb (bookingSubscriptionContractConsent md) "true");
    (if opt_eqb (bookingSubscriptionContractConsent md) "true"
     then BText (nowISO rt) else BNull) ].

Definition hasConflict (st : Store) (date : string) (time : option string) : bool :=
  match truthyVal time with
  | Some t =>
      match checkBookingConflict st date t with
      | Some _ => true
      | None => false
      end
  | None => false
  end.

(* ================================================================== *)
(** ** [POST /api/stripe/webhook] *)

Definition received : json := [("received", JAtom (JBool true))].

Definition receivedError (msg : string) : json :=
  [("received", JAtom (JBool true)); ("error", JAtom (JStr msg))].

(** Lines 348-401 and 418: re-read the booking, send the confirmation mail,
    acknowledge. [booking] is the row read before the updates in the
    existing-booking flow, after them in the create-after-payment flow. *)
Definition webhookNotify (rt : Runtime) (st : Store) (session : Session)
    (booking : option Booking) (bid : JS.number) : Store * outcome :=
  match getBookingById st bid with
  | None =>
      (st, Threw (TypeError "Cannot read properties of undefined (reading 'status')"))
  | Some updatedBooking =>
      let st1 :=
        match booking with
        | Some b => trySendMail rt st (confirmationMail rt true b session)
        | None => st
        end in
      (st1, Responded 200 received)
  end.

(** Lines 203-342: the booking is created once the payment is in. *)
Definition webhookCreate (rt : Runtime) (st : Store) (session : Session)
    (md : Metadata) (pd : string) : Store * outcome :=
  let '(maxBookingsPerDay, useServiceLimit) :=
    resolveCapacity st (bookingServiceType md) in
  let currentCount := paidCount st useServiceLimit pd (bookingServiceType md) in
  if JS.ge (JS.Int currentCount) maxBookingsPerDay then
    (trySendMail rt st (dateFullMail rt md),
     Responded 200 (receivedError "Date complète, réservation non créée"))
  else if hasConflict st pd (bookingPreferredTime md) then
    (st, Responded 200 (receivedError "Conflit de réservation détecté"))
  else
    match insertBooking st (paidBookingParams rt session md) with
    | inl dbErr =>
        (st, Responded 200 (receivedError
           ("Erreur lors de la création de la réservation: " ++ exnMessage dbErr)))
    | inr (st1, newBookingId) =>
        let st2 := createAuditLog st1
          (mkAudit "STATUS_CHANGE" "booking"
             (if newBookingId =? 0 then None else Some (JS.ofZ newBookingId))
             ("Paiement confirmé pour réservation: " ++ tpl (bookingName md)
                ++ " - " ++ tpl (bookingCity md))) in
        let st3 := updateBookingStatus st2 "pending" (JS.Int newBookingId) in
        let st4 := updateBookingPayment st3 (truthyVal (payment_intent session))
                     (session_id session) "paid" (JS.Int newBookingId) in
        webhookNotify rt st4 session
          (getBookingById st4 (JS.Int newBookingId)) (JS.Int newBookingId)
    end.

(** Lines 170-202: the booking exists already. *)
Definition webhookExisting (rt : Runtime) (st : Store) (session : Session)
    (bid : string) : Store * outcome :=
  let bookingId := JS.parseInt bid in
  match getBookingById st bookingId with
  | None =>
      (st, Responded 200
         (receivedError ("Réservation " ++ numToString bookingId ++ " introuvable")))
  | Some booking =>
      let st1 := updateBookingPayment st (truthyVal (payment_intent session))
                   (session_id session) "paid" bookingId in
      let st2 := updateBookingStatus st1 "pending" bookingId in
      webhookNotify rt st2 session (Some booking) bookingId
  end.

(** [constructEvent] is the outcome of the signature verification: the
    event, or nothing when [stripe.webhooks.constructEvent] throws. *)
Definition webhook (rt : Runtime) (st : Store) (constructEvent : option Event)
  : Store * outcome :=
  match stripe rt, truthyVal (stripeWebhookSecret rt) with
  | Some _, Some _ =>
      match constructEvent with
      | None => (st, Responded 400 [("text", JAtom (JStr "Webhook Error"))])
      | Some event =>
          if String.eqb (event_type event) "checkout.session.completed" then
            let session := event_object event in
            let isTestMode := negb (livemode session) in
            let testModeEnabled :=
              opt_eqb (getConfig (config st) "test_mode_enabled") "true" in
            if isTestMode && negb testModeEnabled then
              (st, Responded 200
                 [("received", JAtom (JBool true)); ("ignored", JAtom (JBool true));
                  ("reason", JAtom (JStr "test_mode_disabled"))])
            else
              match metadata session with
              | Some md =>
                  if opt_eqb (md_type md) "booking" then
                    match truthyVal (bookingId md) with
                    | Some bid => webhookExisting rt st session bid
                    | None =>
                        match truthyVal (bookingName md),
                              truthyVal (bookingPreferredDate md) with
                        | Some _, Some pd => webhookCreate rt st session md pd
                        | _, _ =>
                            (st, Responded 200
                               (receivedError "Métadonnées de réservation incomplètes"))
                        end
                    end
                  else if opt_eqb (md_type md) "quote" && JS.truthy (quoteId md) then
                    let qid := JS.parseInt (tpl (quoteId md)) in
                    match getQuoteById st qid with
                    | Some _ =>
                        (updateQuotePayment st (truthyVal (payment_intent session))
                           (session_id session) "paid" qid,
                         Responded 200 received)
                    | None => (st, Responded 200 received)
                    end
                  else (st, Responded 200 received)
              | None => (st, Responded 200 received)
              end
          else (st, Responded 200 received)
      end
  | _, _ => (st, Responded 503 [("error", JAtom (JStr "Stripe non configuré"))])
  end.

(* ================================================================== *)
(** ** [POST /api/stripe/verify-payment] *)

Definition okFalse (msg : string) : json :=
  [("ok", JAtom (JBool false)); ("error", JAtom (JStr msg))].

(** Lines 588-667: validate the booking unless it is paid already. *)
Definition verifyFinish (rt : Runtime) (st : Store) (session : Session)
    (booking : option Booking) (finalBookingId : JS.number) : Store * outcome :=
  match booking with
  | None =>
      (st, Responded 500
         (okFalse "Cannot read properties of undefined (reading 'payment_status')"))
  | Some b =>
      if negb (opt_eqb (payment_status b) "paid") then
        let st1 := updateBookingPayment st (truthyVal (payment_intent session))
                     (session_id session) "paid" finalBookingId in
        let st2 := if String.eqb (status b) "awaiting_payment"
                   then updateBookingStatus st1 "pending" finalBookingId
                   else st1 in
        let st3 := trySendMail rt st2 (confirmationMail rt false b session) in
        (st3, Responded 200
           [("ok", JAtom (JBool true));
            ("message", JAtom (JStr "Paiement vérifié et réservation validée"));
            ("bookingId", JAtom (JNum finalBookingId));
            ("testMode", JAtom (JBool (negb (livemode session))))])
      else
        (st, Responded 200
           [("ok", JAtom (JBool true));
            ("message", JAtom (JStr "Paiement déjà validé"));
            ("bookingId", JAtom (JNum finalBookingId))])
  end.

(** Lines 497-583. *)
Definition verifyCreate (rt : Runtime) (st : Store) (session : Session)
    (md : Metadata) (pd : string) : Store * outcome :=
  let '(maxBookingsPerDay, useServiceLimit) :=
    resolveCapacity st (bookingServiceType md) in
  let currentCount := paidCount st useServiceLimit pd (bookingServiceType md) in
  if JS.ge (JS.Int currentCount) maxBookingsPerDay then
    (st, Responded 200
       [("ok", JAtom (JBool false));
        ("error", JAtom (JStr "Date complète, réservation non créée"));
        ("details", JAtom (JStr
           "La date sélectionnée est complète. Veuillez contacter le support pour un remboursement."))])
  else if hasConflict st pd (bookingPreferredTime md) then
    (st, Responded 200 (okFalse "Conflit de réservation détecté"))
  else
    match insertBooking st (paidBookingParams rt session md) with
    | inl dbErr =>
        (st, Responded 500 (okFalse
           ("Erreur lors de la création de la réservation: " ++ exnMessage dbErr)))
    | inr (st1, rowid) =>
        let finalBookingId := JS.Int rowid in
        let st2 := updateBookingStatus st1 "pending" finalBookingId in
        let st3 := updateBookingPayment st2 (truthyVal (payment_intent session))
                     (session_id session) "paid" finalBookingId in
        verifyFinish rt st3 session (getBookingById st3 finalBookingId) finalBookingId
    end.

Definition verifyPayment (rt : Runtime) (st : Store) (sessionId : option string)
  : Store * outcome :=
  match truthyVal sessionId with
  | None => (st, Responded 400 (okFalse "sessionId est requis"))
  | Some sid =>
      match stripe rt with
      | None => (st, Responded 503 (okFalse "Stripe non configuré"))
      | Some retrieve =>
          match retrieve sid with
          | None => (st, Responded 500 (okFalse (exnMessage StripeError)))
          | Some session =>
              let isTestMode := negb (livemode session) in
              let testModeEnabled :=
                opt_eqb (getConfig (config st) "test_mode_enabled") "true" in
              if isTestMode && negb testModeEnabled then
                (st, Responded 200
                   [("ok", JAtom (JBool false));
                    ("error", JAtom (JStr
                       "Mode test désactivé. Les paiements de test ne sont pas acceptés."));
                    ("sessionStatus", JAtom (optStr (session_payment_status session)))])
              else
                let isPaid := opt_eqb (session_payment_status session) "paid"
                              || opt_eqb (session_status session) "complete" in
                if isPaid then
                  let md := metadata session in
                  match truthyVal (match md with Some m => bookingId m | None => None end) with
                  | Some bid =>
                      let finalBookingId := JS.parseInt bid in
                      match getBookingById st finalBookingId with
                      | None => (st, Responded 404 (okFalse "Réservation non trouvée"))
                      | Some booking =>
                          verifyFinish rt st session (Some booking) finalBookingId
                      end
                  | None =>
                      match md with
                      | Some m =>
                          match truthyVal (bookingName m),
                                truthyVal (bookingPreferredDate m) with
                          | Some _, Some pd => verifyCreate rt st session m pd
                          | _, _ =>
                              (st, Responded 400
                                 (okFalse "Métadonnées de réservation incomplètes"))
                          end
                      | None =>
                          (st, Responded 400
                             (okFalse "Métadonnées de réservation incomplètes"))
                      end
                  end
                else
                  (st, Responded 200
                     [("ok", JAtom (JBool false));
                      ("error", JAtom (JStr "Paiement non complété"));
                      ("sessionStatus", JAtom (optStr (session_payment_status session)));
                      ("sessionComplete",
                       JAtom (JBool (opt_eqb (session_status session) "complete")));
                      ("details", JSub
                         [("payment_status", optStr (session_payment_status session));
                          ("status", optStr (session_status session));
                          ("livemode", JBool (livemode session))])])
          end
      end
  end.

(* ================================================================== *)
(** ** [POST /api/booking] *)

Inductive cityVerdict : Type :=
| CityRejected (code : Z) (body : json)
| CityPassed.

(** Lines 1211-1233.  A missing [city] is bound as NULL, which is the name
    of no city. *)
Definition checkCity (rt : Runtime) (st : Store) (rq : BookingRequest) : cityVerdict :=
  match rq_city rq with
  | None => CityRejected 400 (okFalse "Nous n'intervenons pas encore dans cette ville")
  | Some c =>
      match checkServiceCity st c with
      | None =>
          CityRejected 400 (okFalse "Nous n'intervenons pas encore dans cette ville")
      | Some cityCheck =>
          match truthyVal (cutoff_date cityCheck), truthyVal (rq_preferredDate rq) with
          | Some cutoff, Some preferredDate =>
              let cutoffDate := DateParse rt cutoff in
              let requestedDate := DateParse rt preferredDate in
              if JS.gt requestedDate cutoffDate then
                CityRejected 400 (okFalse
                  ("Les réservations pour " ++ c ++ " sont fermées au-delà du "
                     ++ match cutoffDate with
                        | JS.Int t => toLocaleDateString_frFR (LocalTZA rt) t
                        | JS.NaN => "Invalid Date"
                        end))
              else CityPassed
          | _, _ => CityPassed
          end
      end
  end.

(** The eighteen values [POST /api/booking] binds to [insertBooking]. *)
Definition unpaidBookingParams (rt : Runtime) (rq : BookingRequest) : list bindval :=
  [ bindRaw (rq_name rq);
    bindRaw (rq_email rq);
    bindRaw (rq_phone rq);
    bindRaw (rq_city rq);
    bindOrNull (rq_address rq);
    bindOrNull (rq_postalCode rq);
    bindRaw (rq_serviceType rq);
    bindOrNull (rq_binCount rq);
    bindRaw (rq_preferredDate rq);
    BText (JS.orElse (rq_preferredTime rq) "09:00");
    bindOrNull (rq_message rq);
    BNull;
    BText "unpaid";
    bindFlag (rq_rgpdConsent rq);
    bindFlag (rq_marketingConsent rq);
    BText (nowISO rt);
    bindOrNull (rq_ip rq);
    BNull ].

Definition bookingPost (rt : Runtime) (st : Store) (rq : BookingRequest)
  : Store * outcome :=
  match checkCity rt st rq with
  | CityRejected code body => (st, Responded code body)
  | CityPassed =>
      let timeSelectionEnabled :=
        negb (opt_eqb (getConfig (config st) "time_selection_enabled") "false") in
      if negb (JS.truthy (rq_name rq)) || negb (JS.truthy (rq_email rq))
         || negb (JS.truthy (rq_phone rq)) || negb (JS.truthy (rq_city rq))
         || negb (JS.truthy (rq_serviceType rq))
         || negb (JS.truthy (rq_preferredDate rq))
         || (timeSelectionEnabled && negb (JS.truthy (rq_preferredTime rq)))
      then (st, Responded 400 (okFalse "Missing required fields"))
      else
        let preferredDate := tpl (rq_preferredDate rq) in
        let '(maxBookingsPerDay, useServiceLimit) :=
          resolveCapacity st (rq_serviceType rq) in
        let currentCount :=
          paidCount st useServiceLimit preferredDate (rq_serviceType rq) in
        if JS.ge (JS.Int currentCount) maxBookingsPerDay then
          (st, Responded 409 (okFalse
             "Désolé, cette date est complète. Veuillez choisir une autre date pour votre réservation."))
        else if hasConflict st preferredDate (rq_preferredTime rq) then
          (st, Responded 409 (okFalse "Cette date et heure sont déjà réservées"))
        else
          match insertBooking st (unpaidBookingParams rt rq) with
          | inr (st1, bookingId) =>
              let st2 := createAuditLog st1
                (mkAudit "CREATE" "booking"
                   (if bookingId =? 0 then None else Some (JS.ofZ bookingId))
                   ("Nouvelle réservation créée: " ++ tpl (rq_name rq) ++ " - "
                      ++ tpl (rq_city rq) ++ " le " ++ preferredDate)) in
              let st3 := updateBookingStatus st2 "awaiting_payment" (JS.Int bookingId) in
              (st3, Responded 200
                 [("ok", JAtom (JBool true));
                  ("bookingId", JAtom (JNum (JS.Int bookingId)));
                  ("message", JAtom (JStr "Réservation créée avec succès"))])
          | inl dbErr =>
              if opt_eqb (exnCode dbErr) "SQLITE_CONSTRAINT_UNIQUE" then
                (st, Responded 409 (okFalse "Cette date et heure sont déjà réservées"))
              else
                (st, Responded 500 (okFalse
                   "Erreur lors de l'enregistrement de la réservation. L'email a été envoyé mais la réservation n'a pas été sauvegardée."))
          end
  end.

(* ================================================================== *)
(** ** [GET /api/bookings/available-dates] *)

Record PassageConfig : Type := mkPassage {
  passage1_week : option Z;
  passage1_day : option Z;
  passage2_week : option Z;
  passage2_day : option Z
}.

Definition isSome {A : Type} (v : option A) : bool :=
  match v with Some _ => true | None => false end.

(** Lines 871-941: the service's passages when it has any, else those of the
    enabled city, else none. *)
Definition resolvePassage (st : Store) (q : DatesQuery) : option PassageConfig :=
  let fromService :=
    match truthyVal (q_serviceType q) with
    | Some svc =>
        match getServiceByServiceId st svc with
        | Some serviceData =>
            let hasPassage1 := isSome (s_passage1_week serviceData) in
            let hasPassage2 := isSome (s_passage2_week serviceData) in
            if hasPassage1 || hasPassage2 then
              Some (mkPassage (s_passage1_week serviceData) (s_passage1_day serviceData)
                              (s_passage2_week serviceData) (s_passage2_day serviceData))
            else None
        | None => None
        end
    | None => None
    end in
  match fromService with
  | Some cfg => Some cfg
  | None =>
      match truthyVal (q_city q) with
      | Some c =>
          match checkServiceCity st c with
          | Some cityData =>
              if enabled cityData then
                Some (mkPassage (c_passage1_week cityData) (c_passage1_day cityData)
                                (c_passage2_week cityData) (c_passage2_day cityData))
              else None
          | None => None
          end
      | None => None
      end
  end.

(** Lines 852-864. *)
Definition fullDatesOf (st : Store) (q : DatesQuery) (lo hi : string) : list string :=
  let '(maxBookingsPerDay, useServiceLimit) := resolveCapacity st (q_serviceType q) in
  let paidBookingsByDate :=
    if useServiceLimit then
      match q_serviceType q with
      | Some svc => getPaidBookingsByDateRangeAndService st lo hi svc
      | None => []
      end
    else getPaidBookingsByDateRange st lo hi in
  map fst (filter (fun b => JS.ge (JS.Int (snd b)) maxBookingsPerDay) paidBookingsByDate).

Section MonthLoop.

Variable tza : Z.
Variables start end_ : Z.

(** [if (date >= start && date <= end) { ...
    if (!allowedDates.includes(dateStr)) allowedDates.push(dateStr) }] *)
Definition pushDate (allowedDates : list string) (date : Z) : list string :=
  if (start <=? date) && (date <=? end_) then
    let dateStr := formatDate tza date in
    if existsb (String.eqb dateStr) allowedDates then allowedDates
    else (allowedDates ++ [dateStr])%list
  else allowedDates.

(** [for (const date of dates) ...] *)
Definition pushDates (dates : list Z) (allowedDates : list string) : list string :=
  fold_left pushDate dates allowedDates.

(** One passage of one month; [None] when [getNthWeekdayOfMonth] diverges. *)
Definition passageStep (week day : option Z) (year month : Z)
    (allowedDates : list string) : option (list string) :=
  match week, day with
  | Some w, Some d =>
      match getNthWeekdayOfMonth tza year month w d with
      | Some dates => Some (pushDates dates allowedDates)
      | None => None
      end
  | _, _ => Some allowedDates
  end.

(** [while (current <= end) { ...; current.setMonth(current.getMonth() + 1);
    current.setDate(1) }] *)
Fixpoint monthLoop (fuel : nat) (cfg : PassageConfig) (current : Z)
    (allowedDates : list string) : option (list string) :=
  match fuel with
  | O => None
  | S f =>
      if current <=? end_ then
        let year := getFullYear tza current in
        let month := getMonth tza current in
        match passageStep (passage1_week cfg) (passage1_day cfg) year month allowedDates with
        | Some a1 =>
            match passageStep (passage2_week cfg) (passage2_day cfg) year month a1 with
            | Some a2 =>
                monthLoop f cfg
                  (setDate tza (setMonth tza current (getMonth tza current + 1)) 1) a2
            | None => None
            end
        | None => None
        end
      else Some allowedDates
  end.

(** Every turn but the first moves [current] by a whole month, so this many
    turns exhaust the range. *)
Definition monthFuel : nat :=
  S (Z.to_nat ((end_ - start) / (28 * ESDate.msPerDay) + 2)).

End MonthLoop.

(** Lines 946-1011; [None] when a loop diverges. *)
Definition allowedDatesOf (rt : Runtime) (cfg : option PassageConfig)
    (startDate endDate : string) : option (list string) :=
  match cfg with
  | Some passageConfig =>
      match DateParse rt startDate, DateParse rt endDate with
      | JS.Int start, JS.Int end_ =>
          monthLoop (LocalTZA rt) start end_ (monthFuel start end_) passageConfig start []
      | _, _ => Some []
      end
  | None => Some []
  end.

Definition availableDates (rt : Runtime) (st : Store) (q : DatesQuery) : outcome :=
  match truthyVal (startDate q), truthyVal (endDate q) with
  | Some lo, Some hi =>
      let fullDates := fullDatesOf st q lo hi in
      match allowedDatesOf rt (resolvePassage st q) lo hi with
      | Some allowedDates =>
          Responded 200
            [("ok", JAtom (JBool true));
             ("fullDates", JStrings fullDates);
             ("allowedDates",
              match allowedDates with
              | [] => JAtom JNull
              | _ => JStrings allowedDates
              end)]
      | None => Diverged
      end
  | _, _ => Responded 400 (okFalse "startDate et endDate sont requis")
  end.

(** The passages a configuration defines, the dates they yield, and the
    configurations whose week numbers and week days are in range. *)
Definition passageOf (cfg : PassageConfig) (w d : Z) : Prop :=
  (passage1_week cfg = Some w /\ passage1_day cfg = Some d) \/
  (passage2_week cfg = Some w /\ passage2_day cfg = Some d).

Definition validPassages (cfg : PassageConfig) : Prop :=
  forall w d, passageOf cfg w d -> 0 <= w <= 5 /\ 0 <= d <= 6.

Definition isPassageDate (tza : Z) (cfg : PassageConfig) (date : Z) : Prop :=
  exists year month w d dates,
    0 <= month <= 11 /\ passageOf cfg w d /\
    getNthWeekdayOfMonth tza year month w d = Some dates /\ In date dates.

(** What the allowed dates are made of: the formatted passage dates between
    [start] and [end_]. *)
Definition allowedString (tza start end_ : Z) (cfg : PassageConfig) (s : string)
  : Prop :=
  exists date, isPassageDate tza cfg date /\ start <= date <= end_
               /\ s = formatDate tza date.

(* ================================================================== *)
(** ** Configuration: [setConfig] and the seeding of the defaults *)

Definition set_config (st : Store) (cfg : list (string * string)) : Store :=
  mkStore (bookings st) (bookings_seq st) (services st) (service_cities st)
          cfg (quotes st) (audit_logs st) (outbox st).

(** [INSERT INTO config (key, value) VALUES (?, ?)
    ON CONFLICT(key) DO UPDATE SET value = excluded.value] *)
Fixpoint setConfig (cfg : list (string * string)) (key value : string)
  : list (string * string) :=
  match cfg with
  | [] => [(key, value)]
  | (k, v) :: r =>
      if String.eqb k key then (k, value) :: r else (k, v) :: setConfig r key value
  end.

(** [INSERT OR IGNORE INTO config (key, value) VALUES (?, ?)] *)
Definition insertConfig (cfg : list (string * string)) (key value : string)
  : list (string * string) :=
  match getConfig cfg key with
  | Some _ => cfg
  | None => (cfg ++ [(key, value)])%list
  end.

(** The end of [initializeDatabase]: the four default values. *)
Definition initializeConfig (cfg : list (string * string)) : list (string * string) :=
  let cfg1 := insertConfig cfg "quotes_enabled" "false" in
  let cfg2 := insertConfig cfg1 "max_bookings_per_day" "25" in
  let cfg3 := insertConfig cfg2 "time_selection_enabled" "false" in
  insertConfig cfg3 "languages_enabled" "false".

(* ================================================================== *)
(** ** The administration routes *)

(** The two shapes of their answers: [res.json({ ok: true, ...payload })]
    and [res.status(code).json({ ok: false, error })]. *)
Inductive reply (A : Type) : Type :=
| Ok (payload : A)
| Failed (code : Z) (error : string).

Arguments Ok {A} payload.
Arguments Failed {A} code error.

(** The decoded token that [authenticateToken] leaves in [req.user]. *)
Record User : Type := mkUser {
  username : string;
  role : option string;
  userId : Z
}.

(** [authHeader.split(" ")]: the pieces between single spaces. *)
Fixpoint splitSpaces (piece : string) (s : string) : list string :=
  match s with
  | EmptyString => [piece]
  | String c r =>
      if Ascii.eqb c " " then piece :: splitSpaces "" r
      else splitSpaces (piece ++ String c "") r
  end.

(** [authenticateToken]; [jwtVerify] is [jwt.verify(token, JWT_SECRET)],
    nothing when it throws. *)
Definition authenticateToken (jwtVerify : string -> option User)
    (authorization : option string) : reply User :=
  let token :=
    match truthyVal authorization with
    | Some authHeader => nth_error (splitSpaces "" authHeader) 1
    | None => None
    end in
  match truthyVal token with
  | None => Failed 401 "Token manquant"
  | Some t =>
      match jwtVerify t with
      | Some decoded => Ok decoded
      | None => Failed 403 "Token invalide"
      end
  end.

Definition requireAdmin (user : User) : reply User :=
  if negb (opt_eqb (role user) "admin") && negb (opt_eqb (role user) "manager")
     && negb (opt_eqb (role user) "superadmin")
  then Failed 403 "Accès refusé. Droits administrateur requis."
  else Ok user.

(** A route: the middlewares in turn, then the handler. *)
Definition route {A : Type} (gates : list (User -> reply User))
    (jwtVerify : string -> option User) (authorization : option string)
    (handler : Store -> Store * reply A) (st : Store) : Store * reply A :=
  match authenticateToken jwtVerify authorization with
  | Failed code error => (st, Failed code error)
  | Ok user =>
      match fold_left (fun r gate =>
                         match r with Ok u => gate u | Failed c e => Failed c e end)
                      gates (Ok user) with
      | Failed code error => (st, Failed code error)
      | Ok _ => handler st
      end
  end.

(** [createAuditLog] as the routes call it that pass [adminId:
    user?.userId].  The column [audit_logs.admin_id] references
    [admins(id)]: when the id of the token names no account (any more),
    the insert fails on the foreign key, the catch of [createAuditLog]
    logs the error and no entry is written.  [adminKnown] tells whether
    the token carries no id or the id of a row of [admins].  (The other
    routes pass [user?.id], which the token does not have: the column is
    NULL and the entry is always written.) *)
Definition createAuditLogBy (adminKnown : bool) (st : Store) (a : AuditLog) : Store :=
  if adminKnown then createAuditLog st a else st.

(** [PUT /api/admin/config/quotes], lines 2532-2562. *)
Definition adminConfigQuotes (adminKnown : bool) (enabled : option jatom)
    (st : Store) : Store * reply bool :=
  match enabled with
  | Some (JBool b) =>
      let st1 := set_config st
        (setConfig (config st) "quotes_enabled" (if b then "true" else "false")) in
      (createAuditLogBy adminKnown st1
         (mkAudit "CONFIG_CHANGE" "config" (Some "quotes_enabled")
            ("Modification config: Devis " ++ (if b then "activés" else "désactivés"))),
       Ok b)
  | _ => (st, Failed 400 "Le paramètre 'enabled' doit être un booléen")
  end.

(** [PUT /api/admin/config/test-mode], lines 2627-2656. *)
Definition adminConfigTestMode (enabled : option jatom) (st : Store)
  : Store * reply bool :=
  match enabled with
  | Some (JBool b) =>
      let st1 := set_config st
        (setConfig (config st) "test_mode_enabled" (if b then "true" else "false")) in
      (createAuditLog st1
         (mkAudit "CONFIG_CHANGE" "config" (Some "test_mode_enabled")
            ("Mode test Stripe " ++ (if b then "activé" else "désactivé"))),
       Ok b)
  | _ => (st, Failed 400 "Le paramètre 'enabled' doit être un booléen")
  end.

(** The value of [maxBookingsPerDay] in a body.  Of a value that is neither
    missing, null nor a string the handler uses [isNaN(v)], [v < 1] and
    [v.toString()] and nothing else: [Other] carries these three, for the
    booleans, the numbers that are not integers JavaScript holds exactly
    (2.5, 1e23), the arrays and the objects.  [Whole n] is the number [n],
    an integer of magnitude at most 2^53, which [toString] prints in
    decimal. *)
Inductive bodyValue : Type :=
| Missing                                   (* undefined, or null *)
| Text (s : string)
| Whole (n : Z)
| Other (asNaN below1 : bool) (text : string).


(** [PUT /api/admin/config/max-bookings], lines 2659-2698.  A string is read
    with [parseInt]; any other value is kept as it is and passes when it is
    neither NaN nor below 1 as a number: so do [true], 2.5 and [[7]].  What
    is stored is [numValue.toString()]. *)
Definition adminConfigMaxBookings (maxBookingsPerDay : bodyValue) (st : Store)
  : Store * reply bodyValue :=
  let invalid :=
    (st, Failed 400 "Le paramètre 'maxBookingsPerDay' doit être un nombre positif") in
  let accept (numValue : bodyValue) (text : string) :=
    let st1 := set_config st (setConfig (config st) "max_bookings_per_day" text) in
    (createAuditLog st1
       (mkAudit "CONFIG_CHANGE" "config" (Some "max_bookings_per_day")
          ("Limite de réservations par jour définie à " ++ text)),
     Ok numValue) in
  match maxBookingsPerDay with
  | Missing => (st, Failed 400 "Le paramètre 'maxBookingsPerDay' est requis")
  | Text s =>
      match JS.parseInt s with
      | JS.Int n => if n <? 1 then invalid else accept (Whole n) (JS.ofZ n)
      | JS.NaN => invalid
      end
  | Whole n => if n <? 1 then invalid else accept (Whole n) (JS.ofZ n)
  | Other asNaN below1 text =>
      if asNaN || below1 then invalid else accept maxBookingsPerDay text
  end.

(** The three routes as they are registered: the first behind
    [authenticateToken, requireAdmin], the other two behind
    [authenticateToken] alone. *)
Definition routeConfigQuotes (jwtVerify : string -> option User)
    (authorization : option string) (adminKnown : bool) (enabled : option jatom)
  : Store -> Store * reply bool :=
  route [requireAdmin] jwtVerify authorization (adminConfigQuotes adminKnown enabled).

Definition routeConfigTestMode (jwtVerify : string -> option User)
    (authorization : option string) (enabled : option jatom)
  : Store -> Store * reply bool :=
  route [] jwtVerify authorization (adminConfigTestMode enabled).

Definition routeConfigMaxBookings (jwtVerify : string -> option User)
    (authorization : option string) (maxBookingsPerDay : bodyValue)
  : Store -> Store * reply bodyValue :=
  route [] jwtVerify authorization (adminConfigMaxBookings maxBookingsPerDay).

Definition validBookingStatuses : list string :=
  ["pending"; "confirmed"; "completed"; "cancelled"; "awaiting_payment"].

(** [oldBooking?.status] *)
Definition statusOf (b : option Booking) : option string := option_map status b.

Section RouteParameters.

(** A route parameter is text.  Compared with the INTEGER PRIMARY KEY in
    [WHERE id = ?] it is first given numeric affinity: [rowidOfParam] is the
    integer SQLite reads in it, NaN when it reads none and no row matches. *)
Variable rowidOfParam : string -> JS.number.

(** [PUT /api/admin/bookings/:id/status], lines 2445-2480. *)
Definition adminBookingStatus (adminKnown : bool) (id : string)
    (status : option jatom) (st : Store) : Store * reply (option Booking) :=
  match status with
  | Some (JStr s) =>
      if existsb (String.eqb s) validBookingStatuses then
        let oldBooking := getBookingById st (rowidOfParam id) in
        let oldStatus := statusOf oldBooking in
        let st1 := updateBookingStatus st s (rowidOfParam id) in
        let booking := getBookingById st1 (rowidOfParam id) in
        (createAuditLogBy adminKnown st1
           (mkAudit "STATUS_CHANGE" "booking" (truthyVal (Some id))
              ("Changement de statut de réservation: " ++ tpl oldStatus
                 ++ " → " ++ s)),
         Ok booking)
      else (st, Failed 400 "Statut invalide")
  | _ => (st, Failed 400 "Statut invalide")
  end.

End RouteParameters.

(* ================================================================== *)
(** ** [GET /api/admin/bookings/calendar] *)

(** [getBookingsByDateRange] and [getBookingsByDateRangeAndService]: as the
    paid ones, without [payment_status = 'paid']. *)
Definition getBookingsByDateRange (st : Store) (lo hi : string) : list (string * Z) :=
  groupCount (map preferred_date (filter (fun b =>
    inRange lo hi (preferred_date b) && notCancelled b) (bookings st))).

Definition getBookingsByDateRangeAndService (st : Store) (lo hi svc : string)
  : list (string * Z) :=
  groupCount (map preferred_date (filter (fun b =>
    inRange lo hi (preferred_date b) && String.eqb (service_type b) svc &&
    notCancelled b) (bookings st))).

Record CalendarQuery : Type := mkCalendarQuery {
  cq_startDate : option string;
  cq_endDate : option string;
  cq_serviceType : option string
}.

Record CalendarEntry : Type := mkCalendarEntry {
  cal_date : string;
  cal_count : Z;
  cal_paidCount : Z
}.

(** A [Map] from strings to numbers, in insertion order. *)
Fixpoint mapSet (m : list (string * Z)) (k : string) (v : Z) : list (string * Z) :=
  match m with
  | [] => [(k, v)]
  | (k', v') :: r =>
      if String.eqb k' k then (k', v) :: r else (k', v') :: mapSet r k v
  end.

Fixpoint mapGet (m : list (string * Z)) (k : string) : option Z :=
  match m with
  | [] => None
  | (k', v') :: r => if String.eqb k' k then Some v' else mapGet r k
  end.

(** Lines 2732-2816. *)
Definition adminBookingsCalendar (q : CalendarQuery) (st : Store)
  : reply (list CalendarEntry) :=
  match truthyVal (cq_startDate q), truthyVal (cq_endDate q) with
  | Some startDate, Some endDate =>
      let '(allBookingsInPeriod, paidBookingsInPeriod) :=
        match truthyVal (cq_serviceType q) with
        | Some serviceType =>
            if negb (String.eqb serviceType "all") then
              (getBookingsByDateRangeAndService st startDate endDate serviceType,
               getPaidBookingsByDateRangeAndService st startDate endDate serviceType)
            else
              (getBookingsByDateRange st startDate endDate,
               getPaidBookingsByDateRange st startDate endDate)
        | None =>
            (getBookingsByDateRange st startDate endDate,
             getPaidBookingsByDateRange st startDate endDate)
        end in
      let paidCountsByDate :=
        fold_left (fun m b => mapSet m (fst b) (snd b)) paidBookingsInPeriod [] in
      let formattedBookings :=
        map (fun b =>
               mkCalendarEntry (fst b) (snd b)
                 match mapGet paidCountsByDate (fst b) with
                 | Some paidCount => paidCount
                 | None => 0
                 end)
            allBookingsInPeriod in
      Ok (fold_left
            (fun formatted entry =>
               if existsb (fun b => String.eqb (cal_date b) (fst entry)) formatted
               then formatted
               else (formatted ++ [mkCalendarEntry (fst entry) 0 (snd entry)])%list)
            paidCountsByDate formattedBookings)
  | _, _ => Failed 400 "startDate et endDate sont requis"
  end.

(** The bookings a calendar query looks at: those of the service asked for,
    or all of them. *)
Definition inCalendarScope (q : CalendarQuery) (b : Booking) : bool :=
  match truthyVal (cq_serviceType q) with
  | Some serviceType =>
      if negb (String.eqb serviceType "all")
      then String.eqb (service_type b) serviceType
      else true
  | None => true
  end.

(* ================================================================== *)
(** ** [POST /api/admin/cities] and [POST /api/admin/services] *)

Definition set_service_cities (st : Store) (cs : list ServiceCity) : Store :=
  mkStore (bookings st) (bookings_seq st) (services st) cs (config st)
          (quotes st) (audit_logs st) (outbox st).

Definition set_services (st : Store) (ss : list Service) : Store :=
  mkStore (bookings st) (bookings_seq st) ss (service_cities st) (config st)
          (quotes st) (audit_logs st) (outbox st).

(** [INSERT INTO service_cities (city_name, postal_code, passage1_week,
    passage1_day, passage2_week, passage2_day, enabled, cutoff_date)
    VALUES (?, ... eight times)], with [city_name TEXT UNIQUE NOT NULL].
    The row is given by its columns; [postal_code] and the rowid are not
    part of [ServiceCity]. *)
Definition addServiceCity (st : Store) (row : ServiceCity) : exn + Store :=
  if existsb (fun c => String.eqb (city_name c) (city_name row)) (service_cities st)
  then inl (SqliteError "SQLITE_CONSTRAINT_UNIQUE")
  else inr (set_service_cities st (service_cities st ++ [row])).

(** [INSERT INTO services (service_id, name, translation_key,
    stripe_product_id, price, enabled, display_order, passage1_week,
    passage1_day, passage2_week, passage2_day, max_bookings_per_day,
    is_subscription, information, contract_url) VALUES (?, ... fifteen
    times)], with [service_id TEXT UNIQUE NOT NULL]. *)
Definition insertService (st : Store) (row : Service) : exn + Store :=
  if existsb (fun s => String.eqb (service_id s) (service_id row)) (services st)
  then inl (SqliteError "SQLITE_CONSTRAINT_UNIQUE")
  else inr (set_services st (services st ++ [row])).

(** Body of [POST /api/admin/cities]: a field is missing or has the type the
    form sends ([null] reads as missing, except for [enabled], whose
    default [true] stands for a missing field only). *)
Record CityBody : Type := mkCityBody {
  cb_cityName : option string;
  cb_postalCode : option string;
  cb_passage1Week : option Z;
  cb_passage1Day : option Z;
  cb_passage2Week : option Z;
  cb_passage2Day : option Z;
  cb_enabled : option bool;
  cb_cutoffDate : option string
}.

(** [n || null] for a number. *)
Definition numberOrNull (v : option Z) : option Z :=
  match v with
  | Some 0 => None
  | _ => v
  end.

(** [entityId ? String(entityId) : null] for [Number(result.lastInsertRowid)]. *)
Definition entityOfRowid (rowid : Z) : option string :=
  if rowid =? 0 then None else Some (JS.ofZ rowid).

(** Lines 2819-2858.  [lastInsertRowid] is the rowid SQLite gives the new
    row. *)
Definition adminCitiesPost (adminKnown : bool) (lastInsertRowid : Z)
    (body : CityBody) (st : Store) : Store * reply unit :=
  match truthyVal (cb_cityName body) with
  | None => (st, Failed 400 "Le nom de la ville est requis")
  | Some cityName =>
      let enabled := match cb_enabled body with Some b => b | None => true end in
      match addServiceCity st
              (mkCity cityName
                 (numberOrNull (cb_passage1Week body))
                 (numberOrNull (cb_passage1Day body))
                 (numberOrNull (cb_passage2Week body))
                 (numberOrNull (cb_passage2Day body))
                 enabled
                 (truthyVal (cb_cutoffDate body))) with
      | inr st1 =>
          (createAuditLogBy adminKnown st1
             (mkAudit "CREATE" "city" (entityOfRowid lastInsertRowid)
                ("Ajout de la ville: " ++ cityName)),
           Ok tt)
      | inl err =>
          if opt_eqb (exnCode err) "SQLITE_CONSTRAINT_UNIQUE"
          then (st, Failed 409 "Cette ville existe déjà")
          else (st, Failed 500 "Erreur serveur")
      end
  end.

(** Body of [POST /api/admin/services]. *)
Record ServiceBody : Type := mkServiceBody {
  sb_serviceId : option string;
  sb_name : option string;
  sb_translationKey : option string;
  sb_stripeProductId : option string;
  sb_price : option Z;
  sb_enabled : option bool;
  sb_order : option Z;
  sb_passage1Week : option Z;
  sb_passage1Day : option Z;
  sb_passage2Week : option Z;
  sb_passage2Day : option Z;
  sb_maxBookingsPerDay : option Z;
  sb_isSubscription : option bool;
  sb_information : option string;
  sb_contractUrl : option string
}.

(** The [service] object of the answer. *)
Record ServiceCreated : Type := mkServiceCreated {
  sc_id : Z;
  sc_serviceId : string;
  sc_name : string;
  sc_translationKey : option string;
  sc_stripeProductId : option string;
  sc_price : Z;
  sc_enabled : bool;
  sc_order : Z;
  sc_passage1Week : option Z;
  sc_passage1Day : option Z;
  sc_passage2Week : option Z;
  sc_passage2Day : option Z
}.

(** Lines 2991-3054. *)
Definition adminServicesPost (adminKnown : bool) (lastInsertRowid : Z)
    (body : ServiceBody) (st : Store) : Store * reply ServiceCreated :=
  match truthyVal (sb_serviceId body), truthyVal (sb_name body) with
  | Some serviceId, Some name =>
      match getServiceByServiceId st serviceId with
      | Some existing => (st, Failed 409 "Un service avec cet ID existe déjà")
      | None =>
          let price := match sb_price body with Some p => p | None => 0 end in
          let enabled := match sb_enabled body with Some b => b | None => true end in
          let order := match sb_order body with Some o => o | None => 0 end in
          match insertService st
                  (mkService serviceId name (sb_passage1Week body)
                     (sb_passage1Day body) (sb_passage2Week body)
                     (sb_passage2Day body) (sb_maxBookingsPerDay body)) with
          | inr st1 =>
              (createAuditLogBy adminKnown st1
                 (mkAudit "CREATE" "service" (entityOfRowid lastInsertRowid)
                    ("Création du service: " ++ name)),
               Ok (mkServiceCreated lastInsertRowid serviceId name
                     (truthyVal (sb_translationKey body))
                     (truthyVal (sb_stripeProductId body))
                     price enabled order (sb_passage1Week body)
                     (sb_passage1Day body) (sb_passage2Week body)
                     (sb_passage2Day body)))
          | inl err =>
              if opt_eqb (exnCode err) "SQLITE_CONSTRAINT_UNIQUE"
              then (st, Failed 409 "Un service avec cet ID existe déjà")
              else (st, Failed 500 "Erreur serveur")
          end
      end
  | _, _ => (st, Failed 400 "serviceId et name sont requis")
  end.

(* ================================================================== *)
(** ** [POST /api/stripe/create-checkout-session] *)

(** Scalars of a request body, as JavaScript reads them. *)
Definition atomTruthy (a : jatom) : bool :=
  match a with
  | JNull => false
  | JBool b => b
  | JNum JS.NaN => false
  | JNum (JS.Int z) => negb (z =? 0)
  | JStr s => negb (String.eqb s "")
  end.

(** [String(a)], which is [a.toString()] for numbers and strings. *)
Definition atomString (a : jatom) : string :=
  match a with
  | JNull => "null"
  | JBool true => "true"
  | JBool false => "false"
  | JNum n => numToString n
  | JStr s => s
  end.

Definition truthyAtom (v : option jatom) : option jatom :=
  match v with
  | Some a => if atomTruthy a then Some a else None
  | None => None
  end.

(** [String(v || d)] *)
Definition stringOr (v : option jatom) (d : string) : string :=
  match truthyAtom v with
  | Some a => atomString a
  | None => d
  end.

(** [bookingData]: the fields of the booking form. *)
Record BookingData : Type := mkBookingData {
  bd_name : option string;
  bd_email : option string;
  bd_phone : option string;
  bd_city : option string;
  bd_address : option string;
  bd_postalCode : option string;
  bd_serviceType : option string;
  bd_binCount : option jatom;
  bd_preferredDate : option string;
  bd_preferredTime : option string;
  bd_message : option string;
  bd_rgpdConsent : option bool;
  bd_marketingConsent : option bool;
  bd_subscriptionContractConsent : option bool
}.

Record CheckoutBody : Type := mkCheckoutBody {
  ck_type : option string;
  ck_id : option jatom;
  ck_serviceId : option string;
  ck_variantId : option jatom;
  ck_bookingData : option BookingData
}.

(** A row of [service_variants], by the columns the checkout reads. *)
Record Variant : Type := mkVariant {
  variant_service : Z;                   (* service_id, a rowid of services *)
  price_modifier : option Z
}.

(** The one element of [line_items], of quantity 1: a price of its own in
    euro cents, or a price of the Stripe product. *)
Inductive LineItem : Type :=
| PriceData (product : string) (unit_amount : Z)
| Price (priceId : string).

(** What is sent to [stripe.checkout.sessions.create], the payment method
    (card) and the mode (payment) being constant.  The [serviceId] key of
    the metadata, which no handler reads back, is kept beside the record of
    the keys they read. *)
Record SessionConfig : Type := mkSessionConfig {
  success_url : string;
  cancel_url : string;
  customer_email : option string;
  sc_metadata : Metadata;
  sc_metadata_serviceId : string;
  line_item : LineItem
}.

(** What the checkout reads outside the store of the booking core: the
    remaining columns of [services] and [quotes], the variants, the Stripe
    API and the base URL of the site. *)
Record Billing : Type := mkBilling {
  rowidOfText : string -> JS.number;     (* numeric affinity on a text id *)
  service_rowid : Service -> Z;          (* services.id *)
  stripe_product_id : Service -> option string;
  service_price : Service -> option Z;
  getVariantById : jatom -> option Variant;
  quote_email : Quote -> option string;
  pricesList : string -> option (list string);
                                         (* ids of [stripe.prices.list(...).data] *)
  sessionsCreate : SessionConfig -> option (string * option string);
                                         (* [session.id] and [session.url] *)
  baseUrl : string
}.

(** [String(b || "false")] for a consent flag. *)
Definition consentText (v : option bool) : string :=
  match v with
  | Some true => "true"
  | _ => "false"
  end.

(** Lines 3545-3575. *)
Definition checkoutMetadata (type : string) (id variantId : option jatom)
    (bookingData : option BookingData) : Metadata :=
  let variant := option_map atomString (truthyAtom variantId) in
  match bookingData with
  | Some bd =>
      if String.eqb type "booking" then
        mkMetadata (Some type) None
          (Some (JS.orElse (bd_name bd) ""))
          (Some (JS.orElse (bd_email bd) ""))
          (Some (JS.orElse (bd_phone bd) ""))
          (Some (JS.orElse (bd_city bd) ""))
          (Some (JS.orElse (bd_address bd) ""))
          (Some (JS.orElse (bd_postalCode bd) ""))
          (Some (JS.orElse (bd_serviceType bd) ""))
          (Some (stringOr (bd_binCount bd) ""))
          (Some (JS.orElse (bd_preferredDate bd) ""))
          (Some (JS.orElse (bd_preferredTime bd) ""))
          (Some (JS.orElse (bd_message bd) ""))
          (Some (consentText (bd_rgpdConsent bd)))
          (Some (consentText (bd_marketingConsent bd)))
          variant
          (Some (consentText (bd_subscriptionContractConsent bd)))
          None
      else
        mkMetadata (Some type) None None None None None None None None None None
          None None None None variant None
          (if String.eqb type "quote"
           then option_map atomString (truthyAtom id) else None)
  | None =>
      mkMetadata (Some type)
        (if String.eqb type "booking"
         then option_map atomString (truthyAtom id) else None)
        None None None None None None None None None None None None None
        variant None
        (if String.eqb type "quote"
         then option_map atomString (truthyAtom id) else None)
  end.

(** The value bound for [id]: a number, or a text under numeric affinity;
    a boolean cannot be bound. *)
Definition boundId (env : Billing) (a : jatom) : option JS.number :=
  match a with
  | JNum n => Some n
  | JStr s => Some (rowidOfText env s)
  | _ => None
  end.

Definition bindError : string :=
  "SQLite3 can only bind numbers, strings, bigints, buffers, and null".

(** [customerInfo] *)
Inductive Customer : Type :=
| FromData (bd : BookingData)
| FromBooking (b : Booking)
| FromQuote (q : Quote).

Definition customerEmail (env : Billing) (c : Customer) : option string :=
  match c with
  | FromData bd => bd_email bd
  | FromBooking b => Some (email b)
  | FromQuote q => quote_email env q
  end.

(** Lines 3490-3513. *)
Definition checkoutCustomer (env : Billing) (st : Store) (type : string)
    (body : CheckoutBody) : reply Customer :=
  if String.eqb type "booking" then
    match ck_bookingData body with
    | Some bd => Ok (FromData bd)
    | None =>
        match truthyAtom (ck_id body) with
        | Some id =>
            match boundId env id with
            | Some n =>
                match getBookingById st n with
                | Some b => Ok (FromBooking b)
                | None => Failed 404 "Réservation non trouvée"
                end
            | None => Failed 500 bindError
            end
        | None => Failed 400 "id ou bookingData requis pour type=booking"
        end
    end
  else if String.eqb type "quote" then
    match truthyAtom (ck_id body) with
    | Some id =>
        match boundId env id with
        | Some n =>
            match getQuoteById st n with
            | Some q => Ok (FromQuote q)
            | None => Failed 404 "Devis non trouvé"
            end
        | None => Failed 500 bindError
        end
    | None => Failed 400 "id requis pour type=quote"
    end
  else Failed 400 "Type invalide".

(** Lines 3516-3529: the cutoff date of the city; [None] when the request
    may go on. *)
Definition checkoutCutoff (rt : Runtime) (st : Store) (c : Customer)
  : option string :=
  match c with
  | FromData bd =>
      match truthyVal (bd_city bd), truthyVal (bd_preferredDate bd) with
      | Some city, Some preferredDate =>
          match checkServiceCity st city with
          | Some cityData =>
              match truthyVal (cutoff_date cityData) with
              | Some cutoff =>
                  let cutoffDate := DateParse rt cutoff in
                  let requestedDate := DateParse rt preferredDate in
                  if JS.gt requestedDate cutoffDate then
                    Some ("Les réservations pour " ++ city
                            ++ " sont fermées au-delà du "
                            ++ match cutoffDate with
                               | JS.Int t => toLocaleDateString_frFR (LocalTZA rt) t
                               | JS.NaN => "Invalid Date"
                               end)
                  else None
              | None => None
              end
          | None => None
          end
      | _, _ => None
      end
  | _ => None
  end.

(** Lines 3454-3628. *)
Definition createCheckoutSession (rt : Runtime) (env : Billing)
    (body : CheckoutBody) (st : Store) : Store * reply (string * option string) :=
  match stripe rt with
  | None => (st, Failed 503 "Stripe non configuré")
  | Some _ =>
  match truthyVal (ck_type body), truthyVal (ck_serviceId body) with
  | Some type, Some serviceId =>
  match getServiceByServiceId st serviceId with
  | None => (st, Failed 400 "Service non trouvé ou non configuré pour Stripe")
  | Some service =>
  match truthyVal (stripe_product_id env service) with
  | None => (st, Failed 400 "Service non trouvé ou non configuré pour Stripe")
  | Some product =>
  let basePrice := match service_price env service with Some p => p | None => 0 end in
  let variantRow :=
    match truthyAtom (ck_variantId body) with
    | Some (JBool _) => Failed 500 bindError
    | Some variantId =>
        match getVariantById env variantId with
        | Some variant =>
            if variant_service variant =? service_rowid env service
            then Ok (Some variant)
            else Failed 400 "Variante non trouvée ou ne correspond pas au service"
        | None => Failed 400 "Variante non trouvée ou ne correspond pas au service"
        end
    | None => Ok None
    end in
  match variantRow with
  | Failed code error => (st, Failed code error)
  | Ok variant =>
  let modifier :=
    match variant with
    | Some v => match price_modifier v with Some m => m | None => 0 end
    | None => 0
    end in
  let totalPrice := basePrice + modifier in
  match checkoutCustomer env st type body with
  | Failed code error => (st, Failed code error)
  | Ok customerInfo =>
  match checkoutCutoff rt st customerInfo with
  | Some error => (st, Failed 400 error)
  | None =>
  match pricesList env product with
  | None => (st, Failed 500 (exnMessage StripeError))
  | Some [] => (st, Failed 400 "Aucun prix configuré pour ce produit dans Stripe")
  | Some (priceId :: _) =>
  let sessionConfig :=
    mkSessionConfig
      (baseUrl env ++ "/paiement-reussi?session_id={CHECKOUT_SESSION_ID}")
      (baseUrl env ++ "/paiement-annule")
      (customerEmail env customerInfo)
      (checkoutMetadata type (ck_id body) (ck_variantId body) (ck_bookingData body))
      serviceId
      (if negb (modifier =? 0) then PriceData product totalPrice else Price priceId) in
  match sessionsCreate env sessionConfig with
  | None => (st, Failed 500 (exnMessage StripeError))
  | Some (sessionId, url) =>
      let updated :=
        match truthyAtom (ck_id body) with
        | Some id =>
            match boundId env id with
            | Some n =>
                if String.eqb type "booking" && negb (isSome (ck_bookingData body))
                then Ok (updateBookingPayment st None sessionId "unpaid" n)
                else if String.eqb type "quote"
                then Ok (updateQuotePayment st None sessionId "unpaid" n)
                else Ok st
            | None =>
                if (String.eqb type "booking" && negb (isSome (ck_bookingData body)))
                   || String.eqb type "quote"
                then Failed 500 bindError
                else Ok st
            end
        | None => Ok st
        end in
      match updated with
      | Ok st1 => (st1, Ok (sessionId, url))
      | Failed code error => (st, Failed code error)
      end
  end end end end end end end
  | _, _ => (st, Failed 400 "type et serviceId sont requis")
  end end.

(* ================================================================== *)
(** ** [DELETE /api/admin/rgpd/delete] *)

(** Lines 3714-3757: [DELETE FROM bookings WHERE email = ?], the same on
    [quotes], after counting the rows.  The answer carries the two counts. *)
Definition rgpdDelete (env : Billing) (email_ : option string) (st : Store)
  : Store * reply (Z * Z) :=
  match truthyVal email_ with
  | None => (st, Failed 400 "Email requis")
  | Some e =>
      let ofClient (b : Booking) := String.eqb (email b) e in
      let quoteOfClient (q : Quote) := opt_eqb (quote_email env q) e in
      let bookingsCount := Z.of_nat (List.length (filter ofClient (bookings st))) in
      let quotesCount := Z.of_nat (List.length (filter quoteOfClient (quotes st))) in
      let st1 := set_bookings st (filter (fun b => negb (ofClient b)) (bookings st))
                   (bookings_seq st) in
      let st2 := set_quotes st1 (filter (fun q => negb (quoteOfClient q)) (quotes st1)) in
      (createAuditLog st2
         (mkAudit "DELETE" "rgpd" (Some e)
            ("Suppression RGPD de toutes les données de " ++ e ++ " ("
               ++ JS.ofZ bookingsCount ++ " réservations, "
               ++ JS.ofZ quotesCount ++ " devis supprimés)")),
       Ok (bookingsCount, quotesCount))
  end.

(* ================================================================== *)
(** ** Sample data for the examples *)

Module Sample.

(** [new Date(s)] for a date-only string [YYYY-MM-DD]: midnight UTC of that
    day.  Every other string reads as an invalid date here. *)
Definition field (s : string) (from len : nat) : option Z :=
  let f := substring from len s in
  if forallb JS.isDigit (list_ascii_of_string f) then JS.digitsPrefix None f else None.

Definition isoDate (s : string) : JS.number :=
  if negb (Nat.eqb (String.length s) 10) then JS.NaN
  else if negb (String.eqb (substring 4 1 s) "-" && String.eqb (substring 7 1 s) "-")
  then JS.NaN
  else
    match field s 0 4, field s 5 2, field s 8 2 with
    | Some y, Some m, Some d =>
        if (1 <=? m) && (m <=? 12) && (1 <=? d) && (d <=? ESDate.DaysInMonth y (m - 1))
        then JS.Int (ESDate.MakeDay y (m - 1) d * ESDate.msPerDay)
        else JS.NaN
    | _, _, _ => JS.NaN
    end.

(** A server on UTC with Stripe and SMTP configured and a working transport. *)
Definition rt (retrieve : string -> option Session) : Runtime :=
  mkRuntime 0 isoDate "2025-01-01T00:00:00.000Z" (Some retrieve) (Some "whsec_1")
            (Some "ops@kbl.example") (Some "smtp-secret") None None true.

Definition noSession (_ : string) : option Session := None.

Definition booking (i : Z) (date time svc st pay : string) : Booking :=
  mkBooking i "Ada" "ada@example.org" "0600000000" "Lyon" None None svc None
            date time None st None None (Some pay) (Some "1") (Some "0") None None
            (Some "0").

Definition store (bs : list Booking) (svcs : list Service)
    (cities : list ServiceCity) (cfg : list (string * string)) : Store :=
  mkStore bs (Z.of_nat (List.length bs)) svcs cities cfg [] [] [].

Definition lyon (cutoff : option string) : ServiceCity :=
  mkCity "Lyon" None None None None true cutoff.

Definition cleaning (maxPerDay : option Z) : Service :=
  mkService "cleaning" "Nettoyage" (Some 3) (Some 3) None None maxPerDay.

(** Metadata of the create-after-payment flow. *)
Definition newBookingMetadata (date : string) (time : option string) : Metadata :=
  mkMetadata (Some "booking") None (Some "Bob") (Some "bob@example.org")
             (Some "0611111111") (Some "Lyon") None None (Some "cleaning") None
             (Some date) time None (Some "true") None None None None.

(** Metadata of the existing-booking flow. *)
Definition existingBookingMetadata (bid : string) : Metadata :=
  mkMetadata (Some "booking") (Some bid) None None None None None None None None
             None None None None None None None None.

Definition paidSession (sid : string) (md : Metadata) : Session :=
  mkSession sid (Some "pi_1") true (Some md) (Some "paid") (Some "complete").

Definition completed (s : Session) : Event :=
  mkEvent "checkout.session.completed" s.

Definition request (date : string) (time : option string) : BookingRequest :=
  mkBookingRequest (Some "Bob") (Some "bob@example.org") (Some "0611111111")
                   (Some "Lyon") None None (Some "cleaning") None (Some date) time
                   None true false (Some "203.0.113.7").

(** One paid booking on 18 June 2025 for a service limited to one booking
    a day, and one booking of the same day still awaiting its payment. *)
Definition fullDay : Store :=
  store [ booking 1 "2025-06-18" "10:00" "cleaning" "pending" "paid";
          booking 2 "2025-06-18" "11:00" "cleaning" "awaiting_payment" "unpaid" ]
        [cleaning (Some 1)] [lyon (Some "2025-06-30")]
        [("time_selection_enabled", "false")].

(** A booking that was confirmed already. *)
Definition confirmed : Store :=
  store [ booking 1 "2025-06-18" "10:00" "cleaning" "pending" "paid" ]
        [cleaning None] [lyon None] [("time_selection_enabled", "false")].

(** A booking stored without a time of its own, hence at 09:00. *)
Definition defaultTime : Store :=
  store [ booking 1 "2025-06-20" "09:00" "cleaning" "pending" "paid" ]
        [cleaning None] [lyon None] [("time_selection_enabled", "false")].

(** A service that takes no booking at all. *)
Definition closedService : Store :=
  store [] [cleaning (Some 0)] [lyon None] [].

Definition newSession : Session :=
  paidSession "cs_2" (newBookingMetadata "2025-06-18" None).

Definition existingSession (bid : string) : Session :=
  paidSession "cs_1" (existingBookingMetadata bid).

End Sample.

(* ================================================================== *)
(** ** Sample data for the back office and the checkout *)

Module Examples.

(** A session paid with a Stripe test key. *)
Definition testSession : Session :=
  mkSession "cs_test_1" (Some "pi_test_1") false
            (Some (Sample.newBookingMetadata "2025-06-18" None))
            (Some "paid") (Some "complete").

Definition retrieveTest (sid : string) : option Session :=
  if String.eqb sid "cs_test_1" then Some testSession else None.

(** One valid token, of an account without an administration role. *)
Definition viewer : User := mkUser "eve" (Some "viewer") 7.

Definition jwtVerify (token : string) : option User :=
  if String.eqb token "t0k3n" then Some viewer else None.

(** Numeric affinity on a text: the integer of a decimal numeral. *)
Definition rowid (s : string) : JS.number :=
  match JS.parseInt s with
  | JS.Int z => if String.eqb (JS.ofZ z) s then JS.Int z else JS.NaN
  | JS.NaN => JS.NaN
  end.

(** Every service is the first row of its table, sold 25 euros as the
    Stripe product prod_1 with the one price price_1; there are no variants
    and Stripe always opens the session cs_new. *)
Definition billing : Billing :=
  mkBilling rowid (fun _ => 1) (fun _ => Some "prod_1") (fun _ => Some 2500)
            (fun _ => None) (fun _ => None) (fun _ => Some ["price_1"])
            (fun _ => Some ("cs_new", Some "https://checkout.stripe.example/cs_new"))
            "https://kbl.example".

(** One paid booking on a day with room for two. *)
Definition roomLeft : Store :=
  Sample.store [ Sample.booking 1 "2025-06-18" "10:00" "cleaning" "pending" "paid" ]
               [Sample.cleaning (Some 2)] [Sample.lyon None] [].

(** Lyon is known but no longer served. *)
Definition lyonClosed : Store :=
  Sample.store [] [Sample.cleaning None]
               [mkCity "Lyon" None None None None false None] [].

Definition testModeOn : Store :=
  Sample.store [] [Sample.cleaning None] [Sample.lyon None]
               [("test_mode_enabled", "true")].

Definition june : CalendarQuery :=
  mkCalendarQuery (Some "2025-06-01") (Some "2025-06-30") None.

(** A city served every week, on Wednesdays. *)
Definition paris : CityBody :=
  mkCityBody (Some "Paris") (Some "75001") (Some 0) (Some 3) None None None None.

Definition parisDates : DatesQuery :=
  mkDatesQuery (Some "2025-06-01") (Some "2025-06-30") (Some "Paris") None.

Definition windows (passage1Day maxBookingsPerDay : option Z) : ServiceBody :=
  mkServiceBody (Some "windows") (Some "Vitres") None (Some "prod_2") (Some 4000)
                None None (Some 1) passage1Day None None maxBookingsPerDay
                None None None.

Definition windowsMetadata : Metadata :=
  mkMetadata (Some "booking") None (Some "Bob") (Some "bob@example.org")
             (Some "0611111111") (Some "Lyon") None None (Some "windows") None
             (Some "2025-07-01") None None (Some "true") None None None None.

Definition windowsDates : DatesQuery :=
  mkDatesQuery (Some "2025-06-01") (Some "2025-06-30") None (Some "windows").

(** The booking form, as the checkout receives it. *)
Definition form (date : string) : BookingData :=
  mkBookingData (Some "Bob") (Some "bob@example.org") (Some "0611111111")
                (Some "Lyon") None (Some "69001") (Some "cleaning")
                (Some (JNum (JS.Int 2))) (Some date) None None
                (Some true) None (Some true).

Definition checkoutOfForm (date : string) : CheckoutBody :=
  mkCheckoutBody (Some "booking") None (Some "cleaning") None (Some (form date)).

Definition checkoutOfBooking (bookingId : string) : CheckoutBody :=
  mkCheckoutBody (Some "booking") (Some (JStr bookingId)) (Some "cleaning") None None.

(** The server of [Sample.rt], where Stripe knows no session, in the time
    zone of offset [tza]. *)
Definition rtAt (tza : Z) : Runtime :=
  mkRuntime tza Sample.isoDate "2025-01-01T00:00:00.000Z" (Some Sample.noSession)
            (Some "whsec_1") (Some "ops@kbl.example") (Some "smtp-secret")
            None None true.

End Examples.

(* ================================================================== *)
(** ** Predicates used in the statements *)

(** The acknowledgment of the webhook: status 200 and [received: true]. *)
Definition acknowledged (o : outcome) : Prop :=
  exists body, o = Responded 200 body /\ In ("received", JAtom (JBool true)) body.

(** The pair constrained by [UNIQUE(preferred_date, preferred_time)]. *)
Definition slot (b : Booking) : string * string := (preferred_date b, preferred_time b).

(** [TimeClip]: a [Date] is valid when its time value is at most 8.64e15
    ms away from the epoch.  [new Date] and [setDate] give an invalid date
    beyond, which the embedding leaves out. *)
Definition maxTime : Z := 8640000000000000.

Definition validTime (t : Z) : Prop := - maxTime <= t <= maxTime.

(** The years all of whose months lie inside that range, six weeks after
    their first day included, whatever the time zone; and the offsets of
    the time zones, which are less than a day. *)
Definition dateYear (year : Z) : Prop := -271820 <= year <= 275759.

Definition zoneOffset (tza : Z) : Prop :=
  - ESDate.msPerDay < tza < ESDate.msPerDay.

(** A calendar date as [toLocaleDateString('fr-FR')] prints it, day/month/year,
    the month counted from 0 as [Date] counts it; and the same for the date
    of a day number. *)
Definition frenchDate (year month date : Z) : string :=
  JS.padStart2 (JS.ofZ date) ++ "/" ++ JS.padStart2 (JS.ofZ (month + 1))
    ++ "/" ++ JS.ofZ year.

Definition frenchDateOfDay (D : Z) : string :=
  frenchDate (ESDate.YearFromDay D) (ESDate.MonthFromDay D) (ESDate.DateFromDay D).

(** A date written YYYY-MM-DD.  [preferred_date] is a DATE column, to which
    SQLite gives NUMERIC affinity: a text that reads as a number is stored
    and compared as that number, below every text.  A text of this shape
    reads as no number (a digit is followed by a hyphen), so that it is
    stored as it is and two of them are compared as texts, byte by byte. *)
Definition isoDateText (s : string) : bool :=
  match list_ascii_of_string s with
  | [y1; y2; y3; y4; h1; m1; m2; h2; d1; d2] =>
      forallb JS.isDigit [y1; y2; y3; y4; m1; m2; d1; d2]
      && Ascii.eqb h1 "-" && Ascii.eqb h2 "-"
  | _ => false
  end.

(** Every stored id was issued by the AUTOINCREMENT sequence. *)
Definition rowidsIssued (st : Store) : Prop :=
  forall b, In b (bookings st) -> id b <= bookings_seq st.

(** The two updates of a confirmation, row by row: [updateBookingPayment]
    with payment status paid, then [updateBookingStatus] with pending. *)
Definition markPaid (pi : option string) (sess : string) (n : JS.number)
    (b : Booking) : Booking :=
  if idIs n b then
    mkBooking (id b) (name b) (email b) (phone b) (city b) (address b)
      (postal_code b) (service_type b) (bin_count b) (preferred_date b)
      (preferred_time b) (message b) "pending" pi (Some sess) (Some "paid")
      (rgpd_consent b) (marketing_consent b) (consent_ip b) (variant_id b)
      (subscription_contract_consent b)
  else b.

(* ================================================================== *)
(** * Properties *)

Example third_wednesday_of_june_2025 :
  option_map (map (formatDate 0)) (getNthWeekdayOfMonth 0 2025 5 3 3)
    = Some ["2025-06-18"] /\
  option_map (map (formatDate 3600000)) (getNthWeekdayOfMonth 3600000 2025 5 5 1)
    = Some ["2025-06-30"] /\
  option_map (map (formatDate 0)) (getNthWeekdayOfMonth 0 2025 5 0 1)
    = Some ["2025-06-02"; "2025-06-09"; "2025-06-16"; "2025-06-23"; "2025-06-30"] /\
  getNthWeekdayOfMonth 0 2025 5 1 7 = None.
Proof. repeat split; vm_compute; reflexivity. Qed.

(** ** Calendar arithmetic *)

Import ESDate.

Lemma step4 y : (y + 1 - 1969) / 4 = (y - 1969) / 4 + (if y mod 4 =? 0 then 1 else 0).
Proof. destruct (Z.eqb_spec (y mod 4) 0); lia. Qed.
Lemma step100 y : (y + 1 - 1901) / 100 = (y - 1901) / 100 + (if y mod 100 =? 0 then 1 else 0).
Proof. destruct (Z.eqb_spec (y mod 100) 0); lia. Qed.
Lemma step400 y : (y + 1 - 1601) / 400 = (y - 1601) / 400 + (if y mod 400 =? 0 then 1 else 0).
Proof. destruct (Z.eqb_spec (y mod 400) 0); lia. Qed.

Lemma DayFromYear_succ y : DayFromYear (y + 1) = DayFromYear y + DaysInYear y.
Proof.
  unfold DayFromYear, DaysInYear, isLeapYear.
  rewrite step4, step100, step400.
  assert (H1 : y mod 100 = 0 -> y mod 4 = 0) by lia.
  assert (H2 : y mod 400 = 0 -> y mod 100 = 0) by lia.
  destruct (Z.eqb_spec (y mod 4) 0); destruct (Z.eqb_spec (y mod 100) 0);
  destruct (Z.eqb_spec (y mod 400) 0); cbn [andb orb negb]; lia.
Qed.

Lemma DaysInYear_bounds y : 365 <= DaysInYear y <= 366.
Proof. unfold DaysInYear. destruct (isLeapYear y); lia. Qed.

Lemma DayFromYear_lt y1 y2 : y1 < y2 -> DayFromYear y1 < DayFromYear y2.
Proof. unfold DayFromYear. lia. Qed.

Lemma YearFromDay_spec d :
  DayFromYear (YearFromDay d) <= d < DayFromYear (YearFromDay d + 1).
Proof.
  unfold YearFromDay.
  set (y0 := 1970 + (400 * d) / 146097).
  assert (H1 : DayFromYear (y0 - 1) <= d) by (unfold DayFromYear, y0; lia).
  assert (H2 : d < DayFromYear (y0 + 2)) by (unfold DayFromYear, y0; lia).
  destruct (Z.leb_spec (DayFromYear (y0 + 1)) d).
  - replace (y0 + 1 + 1) with (y0 + 2) by lia. lia.
  - destruct (Z.leb_spec (DayFromYear y0) d).
    + lia.
    + replace (y0 - 1 + 1) with y0 by lia. lia.
Qed.

Lemma YearFromDay_unique d y :
  DayFromYear y <= d < DayFromYear (y + 1) -> YearFromDay d = y.
Proof.
  intros H. pose proof (YearFromDay_spec d) as S.
  destruct (Z.lt_trichotomy (YearFromDay d) y) as [L|[E|G]]; [|exact E|].
  - assert (YearFromDay d + 1 <= y) by lia.
    assert (DayFromYear (YearFromDay d + 1) <= DayFromYear y).
    { destruct (Z.eq_dec (YearFromDay d + 1) y) as [->|]; [lia|].
      apply Z.lt_le_incl, DayFromYear_lt. lia. }
    lia.
  - assert (DayFromYear (y + 1) <= DayFromYear (YearFromDay d)).
    { destruct (Z.eq_dec (y + 1) (YearFromDay d)) as [->|]; [lia|].
      apply Z.lt_le_incl, DayFromYear_lt. lia. }
    lia.
Qed.

Lemma leapDays_DaysInYear y : DaysInYear y = 365 + leapDays y.
Proof. unfold DaysInYear, leapDays. destruct (isLeapYear y); reflexivity. Qed.

Lemma leapDays_bounds y : 0 <= leapDays y <= 1.
Proof. unfold leapDays. destruct (isLeapYear y); lia. Qed.

Ltac split_ifs :=
  repeat match goal with
  | |- context [?a <=? ?b] => destruct (Z.leb_spec a b); try lia
  | |- context [?a <? ?b] => destruct (Z.ltb_spec a b); try lia
  | |- context [?a =? ?b] => destruct (Z.eqb_spec a b); try lia
  end.

Ltac month_cases m :=
  assert (m = 0 \/ m = 1 \/ m = 2 \/ m = 3 \/ m = 4 \/ m = 5 \/ m = 6 \/
          m = 7 \/ m = 8 \/ m = 9 \/ m = 10 \/ m = 11) as Hmonth_cases by lia;
  repeat (destruct Hmonth_cases as [Hmonth_cases|Hmonth_cases]; [subst m|]);
  [..|subst m];
  repeat match goal with
  | |- context [Z.pos ?p + 1] =>
      let v := eval vm_compute in (Z.pos p + 1) in change (Z.pos p + 1) with v
  | |- context [0 + 1] => change (0 + 1) with 1
  | H : context [Z.pos ?p + 1] |- _ =>
      let v := eval vm_compute in (Z.pos p + 1) in change (Z.pos p + 1) with v in H
  | H : context [0 + 1] |- _ => change (0 + 1) with 1 in H
  end;
  cbn [daysBeforeMonth] in *.

Lemma DaysInMonth_bounds y m : 0 <= m <= 11 -> 28 <= DaysInMonth y m <= 31.
Proof.
  intros H. pose proof (leapDays_bounds y). unfold DaysInMonth.
  month_cases m; lia.
Qed.

Lemma MakeDay_first y m : 0 <= m <= 11 ->
  MakeDay y m 1 = DayFromYear y + daysBeforeMonth (leapDays y) m.
Proof.
  intros H. unfold MakeDay.
  replace (m / 12) with 0 by lia. replace (m mod 12) with m by lia.
  replace (y + 0) with y by lia. lia.
Qed.

Lemma MakeDay_date y m d : MakeDay y m d = MakeDay y m 1 + d - 1.
Proof. unfold MakeDay. lia. Qed.

Lemma MakeDay_next_month y m : 0 <= m <= 11 ->
  MakeDay y (m + 1) 1 = MakeDay y m 1 + DaysInMonth y m.
Proof.
  intros H. destruct (Z.eq_dec m 11) as [->|Hne].
  - unfold MakeDay, DaysInMonth.
    replace ((11 + 1) / 12) with 1 by reflexivity.
    replace ((11 + 1) mod 12) with 0 by reflexivity.
    replace (11 / 12) with 0 by reflexivity.
    replace (11 mod 12) with 11 by reflexivity.
    replace (y + 0) with y by lia.
    rewrite DayFromYear_succ, leapDays_DaysInYear.
    change (11 + 1) with 12. cbn [daysBeforeMonth]. lia.
  - rewrite !MakeDay_first by lia. unfold DaysInMonth. lia.
Qed.

(** The civil date of a day of month [m] of year [y]. *)
Lemma civil_of_month_day y m j :
  0 <= m <= 11 -> 0 <= j < DaysInMonth y m ->
  YearFromDay (MakeDay y m 1 + j) = y /\
  MonthFromDay (MakeDay y m 1 + j) = m /\
  DateFromDay (MakeDay y m 1 + j) = j + 1.
Proof.
  intros Hm Hj. rewrite MakeDay_first by lia.
  pose proof (leapDays_bounds y) as Hl.
  assert (Hy : YearFromDay (DayFromYear y + daysBeforeMonth (leapDays y) m + j) = y).
  { apply YearFromDay_unique. rewrite DayFromYear_succ, leapDays_DaysInYear.
    unfold DaysInMonth in Hj. month_cases m; lia. }
  split; [exact Hy|].
  unfold DateFromDay, MonthFromDay, DayWithinYear. rewrite Hy.
  unfold DaysInMonth in Hj.
  set (w := DayFromYear y + daysBeforeMonth (leapDays y) m + j - DayFromYear y).
  assert (Hw : w = daysBeforeMonth (leapDays y) m + j) by (unfold w; lia).
  clearbody w. subst w. clear Hy. revert Hj Hl. generalize (leapDays y).
  intros l Hj Hl.
  month_cases m; split_ifs; cbn [daysBeforeMonth]; lia.
Qed.

Lemma MonthFromDay_range d : 0 <= MonthFromDay d <= 11.
Proof.
  unfold MonthFromDay.
  repeat match goal with
  | |- context [?a <? ?b] => destruct (a <? b)
  end; lia.
Qed.

Lemma MakeDay_roundtrip d :
  MakeDay (YearFromDay d) (MonthFromDay d) (DateFromDay d) = d.
Proof.
  pose proof (MonthFromDay_range d) as Hm.
  rewrite MakeDay_date, MakeDay_first by exact Hm.
  unfold DateFromDay, DayWithinYear. lia.
Qed.

Section DateFacts.
Variable tza : Z.

Lemma Day_add t k : Day (t + k * msPerDay) = Day t + k.
Proof. unfold Day, msPerDay. lia. Qed.

Lemma TimeWithinDay_add t k : TimeWithinDay (t + k * msPerDay) = TimeWithinDay t.
Proof. unfold TimeWithinDay, msPerDay. lia. Qed.

Lemma Day_local_midnight D : Day (LocalTime tza (UTC tza (D * msPerDay))) = D.
Proof. unfold LocalTime, UTC, Day, msPerDay. lia. Qed.

Lemma LocalTime_add t k :
  LocalTime tza (t + k * msPerDay) = LocalTime tza t + k * msPerDay.
Proof. unfold LocalTime. lia. Qed.

Lemma time_split t : t = Day t * msPerDay + TimeWithinDay t.
Proof. unfold Day, TimeWithinDay, msPerDay. lia. Qed.

Lemma setDate_add t k : setDate tza t (getDate tza t + k) = t + k * msPerDay.
Proof.
  unfold setDate, getDate.
  set (lt := LocalTime tza t).
  rewrite MakeDay_date.
  pose proof (MakeDay_roundtrip (Day lt)) as R. rewrite MakeDay_date in R.
  replace (MakeDay (YearFromDay (Day lt)) (MonthFromDay (Day lt)) 1
           + (DateFromDay (Day lt) + k) - 1) with (Day lt + k) by lia.
  pose proof (time_split lt) as S.
  unfold UTC. unfold lt, LocalTime in *. lia.
Qed.

Lemma getDay_add t k : getDay tza (t + k * msPerDay) = (getDay tza t + k) mod 7.
Proof.
  unfold getDay. rewrite LocalTime_add, Day_add. unfold WeekDayOfDay. lia.
Qed.

Lemma getDay_range t : 0 <= getDay tza t <= 6.
Proof. unfold getDay, WeekDayOfDay. lia. Qed.

Lemma seekWeekday_S fuel step weekday date :
  seekWeekday tza (S fuel) step weekday date =
    if getDay tza date =? weekday then Some date
    else seekWeekday tza fuel step weekday (date + step * msPerDay).
Proof. cbn [seekWeekday]. rewrite setDate_add. reflexivity. Qed.

Lemma seekWeekday_steps fuel step weekday t i :
  seekWeekday tza fuel step weekday (t + i * step * msPerDay) =
  option_map (fun j => t + j * step * msPerDay)
             (seekSteps fuel step weekday (getDay tza t) i).
Proof.
  revert i. induction fuel as [|f IH]; intros i; [reflexivity|].
  rewrite seekWeekday_S. cbn [seekSteps].
  replace (t + i * step * msPerDay) with (t + (i * step) * msPerDay) by lia.
  rewrite getDay_add.
  destruct ((getDay tza t + i * step) mod 7 =? weekday); [reflexivity|].
  replace (t + i * step * msPerDay + step * msPerDay)
    with (t + (i + 1) * step * msPerDay) by lia.
  apply IH.
Qed.

Ltac weekday_cases g :=
  assert (g = 0 \/ g = 1 \/ g = 2 \/ g = 3 \/ g = 4 \/ g = 5 \/ g = 6)
    as Hweekday_cases by lia;
  repeat (destruct Hweekday_cases as [Hweekday_cases|Hweekday_cases]; [subst g|]);
  [..|subst g].

Lemma seekSteps_forward g weekday :
  0 <= g <= 6 -> 0 <= weekday <= 6 ->
  seekSteps 7 1 weekday g 0 = Some ((weekday - g) mod 7).
Proof. intros Hg Hw. weekday_cases g; weekday_cases weekday; reflexivity. Qed.

Lemma seekSteps_backward g weekday :
  0 <= g <= 6 -> 0 <= weekday <= 6 ->
  seekSteps 7 (-1) weekday g 0 = Some ((g - weekday) mod 7).
Proof. intros Hg Hw. weekday_cases g; weekday_cases weekday; reflexivity. Qed.

Lemma seekWeekday_forward weekday t :
  0 <= weekday <= 6 ->
  seekWeekday tza 7 1 weekday t =
    Some (t + ((weekday - getDay tza t) mod 7) * msPerDay).
Proof.
  intros Hw. pose proof (seekWeekday_steps 7 1 weekday t 0) as H.
  replace (t + 0 * 1 * msPerDay) with t in H by lia. rewrite H.
  rewrite seekSteps_forward by (auto using getDay_range).
  cbn [option_map]. f_equal. lia.
Qed.

Lemma seekWeekday_backward weekday t :
  0 <= weekday <= 6 ->
  seekWeekday tza 7 (-1) weekday t =
    Some (t - ((getDay tza t - weekday) mod 7) * msPerDay).
Proof.
  intros Hw. pose proof (seekWeekday_steps 7 (-1) weekday t 0) as H.
  replace (t + 0 * -1 * msPerDay) with t in H by lia. rewrite H.
  rewrite seekSteps_backward by (auto using getDay_range).
  cbn [option_map]. f_equal. lia.
Qed.

End DateFacts.

Lemma DayWithinYear_range d :
  0 <= DayWithinYear d < 365 + leapDays (YearFromDay d).
Proof.
  unfold DayWithinYear. pose proof (YearFromDay_spec d) as H.
  rewrite DayFromYear_succ, leapDays_DaysInYear in H. lia.
Qed.

Lemma DateFromDay_range d :
  1 <= DateFromDay d <= DaysInMonth (YearFromDay d) (MonthFromDay d).
Proof.
  pose proof (DayWithinYear_range d) as Hw.
  pose proof (leapDays_bounds (YearFromDay d)) as Hl.
  unfold DateFromDay, DaysInMonth, MonthFromDay.
  revert Hw Hl. generalize (DayWithinYear d) (leapDays (YearFromDay d)).
  intros w l Hw Hl.
  repeat match goal with
  | |- context [?a <? ?b] => destruct (Z.ltb_spec a b)
  end;
  repeat match goal with
  | |- context [Z.pos ?p + 1] =>
      let v := eval vm_compute in (Z.pos p + 1) in change (Z.pos p + 1) with v
  | |- context [0 + 1] => change (0 + 1) with 1
  end; cbn [daysBeforeMonth]; lia.
Qed.

(** ** Date objects and months *)

Section MonthFacts.
Variable tza : Z.

Lemma newDate_midnight year month date :
  newDate tza year month date = midnight tza (MakeDay (fullYear year) month 1 + date - 1).
Proof. unfold newDate, midnight. rewrite MakeDay_date. reflexivity. Qed.

Lemma midnight_add D k : midnight tza D + k * msPerDay = midnight tza (D + k).
Proof. unfold midnight, UTC. lia. Qed.

Lemma getDay_midnight D : getDay tza (midnight tza D) = WeekDayOfDay D.
Proof. unfold getDay, midnight. rewrite Day_local_midnight. reflexivity. Qed.

Lemma civil_of_midnight y m j :
  0 <= m <= 11 -> 0 <= j < DaysInMonth y m ->
  getFullYear tza (midnight tza (MakeDay y m 1 + j)) = y /\
  getMonth tza (midnight tza (MakeDay y m 1 + j)) = m /\
  getDate tza (midnight tza (MakeDay y m 1 + j)) = j + 1.
Proof.
  intros Hm Hj. unfold getFullYear, getMonth, getDate, midnight.
  rewrite Day_local_midnight. apply civil_of_month_day; assumption.
Qed.

(** A date whose local year and month are [y] and [m] is a day of that
    month, at the place its day of the month says. *)
Lemma day_of_local_date t :
  Day (LocalTime tza t) =
    MakeDay (getFullYear tza t) (getMonth tza t) 1 + getDate tza t - 1 /\
  1 <= getDate tza t <= DaysInMonth (getFullYear tza t) (getMonth tza t).
Proof.
  unfold getFullYear, getMonth, getDate.
  set (D := Day (LocalTime tza t)). split.
  - pose proof (MakeDay_roundtrip D) as R. rewrite MakeDay_date in R. lia.
  - apply DateFromDay_range.
Qed.

Lemma getMonth_range t : 0 <= getMonth tza t <= 11.
Proof. apply MonthFromDay_range. Qed.

End MonthFacts.

Section MonthSteps.
Variable tza : Z.


Lemma Day_of_sum X tod :
  0 <= tod < msPerDay ->
  Day (X * msPerDay + tod) = X /\ TimeWithinDay (X * msPerDay + tod) = tod.
Proof. unfold Day, TimeWithinDay, msPerDay. lia. Qed.

Lemma TimeWithinDay_range t : 0 <= TimeWithinDay t < msPerDay.
Proof. unfold TimeWithinDay, msPerDay. lia. Qed.

Lemma LocalTime_UTC x : LocalTime tza (UTC tza x) = x.
Proof. unfold LocalTime, UTC. lia. Qed.

Lemma local_decomposition t :
  t = UTC tza ((monthStart tza t + getDate tza t - 1) * msPerDay
               + TimeWithinDay (LocalTime tza t)).
Proof.
  destruct (day_of_local_date tza t) as [HD _]. unfold monthStart.
  rewrite <- HD. pose proof (time_split (LocalTime tza t)).
  unfold UTC, LocalTime in *. lia.
Qed.

Lemma month_overflow Y M :
  0 <= M <= 11 ->
  exists Y' M', 0 <= M' <= 11 /\ MakeDay Y (M + 1) 1 = MakeDay Y' M' 1.
Proof.
  intros HM. destruct (Z.eq_dec M 11) as [->|Hne].
  - exists (Y + 1), 0. split; [lia|].
    unfold MakeDay; change ((11 + 1) / 12) with 1;
      change ((11 + 1) mod 12) with 0; change (0 / 12) with 0;
      change (0 mod 12) with 0; replace (Y + 1 + 0) with (Y + 1) by lia;
      reflexivity.
  - exists Y, (M + 1). split; [lia | reflexivity].
Qed.

(** The local date of a time given by its day of a month and time of day. *)
Lemma civil_of_time Y M j tod :
  0 <= M <= 11 -> 0 <= j < DaysInMonth Y M -> 0 <= tod < msPerDay ->
  let t := UTC tza ((MakeDay Y M 1 + j) * msPerDay + tod) in
  getFullYear tza t = Y /\ getMonth tza t = M /\ getDate tza t = j + 1 /\
  TimeWithinDay (LocalTime tza t) = tod.
Proof.
  intros HM Hj Htod. cbv zeta.
  unfold getFullYear, getMonth, getDate. rewrite LocalTime_UTC.
  destruct (Day_of_sum (MakeDay Y M 1 + j) tod Htod) as [-> ->].
  destruct (civil_of_month_day Y M j HM Hj) as (H1 & H2 & H3).
  rewrite H1, H2, H3. repeat split; reflexivity.
Qed.

(** [current.setMonth(current.getMonth() + 1); current.setDate(1)] from a
    day of the month up to the 28th lands on the first of the next month,
    at the same time of day. *)
Lemma next_month t :
  getDate tza t <= 28 ->
  let t' := setDate tza (setMonth tza t (getMonth tza t + 1)) 1 in
  t' = UTC tza ((monthStart tza t + monthLength tza t) * msPerDay
                + TimeWithinDay (LocalTime tza t)) /\
  monthStart tza t' = monthStart tza t + monthLength tza t /\
  getDate tza t' = 1 /\
  TimeWithinDay (LocalTime tza t') = TimeWithinDay (LocalTime tza t).
Proof.
  intros Hdd. cbv zeta.
  destruct (day_of_local_date tza t) as [_ Hd1].
  pose proof (TimeWithinDay_range (LocalTime tza t)) as Htod.
  pose proof (getMonth_range tza t) as Hm.
  destruct (month_overflow (getFullYear tza t) (getMonth tza t) Hm)
    as (Y' & M' & HM' & HF').
  pose proof (DaysInMonth_bounds Y' M' HM') as Hlen'.
  assert (HF : MakeDay Y' M' 1 = monthStart tza t + monthLength tza t).
  { unfold monthStart, monthLength. rewrite <- HF'.
    apply MakeDay_next_month. exact Hm. }
  assert (Hset : setMonth tza t (getMonth tza t + 1)
                 = UTC tza ((MakeDay Y' M' 1 + (getDate tza t - 1)) * msPerDay
                            + TimeWithinDay (LocalTime tza t))).
  { unfold setMonth, getMonth, getDate, getFullYear in *.
    rewrite MakeDay_date, HF'. f_equal. lia. }
  rewrite Hset.
  destruct (civil_of_time Y' M' (getDate tza t - 1) _ HM' ltac:(lia) Htod)
    as (_ & _ & C3 & _).
  pose proof (setDate_add tza
    (UTC tza ((MakeDay Y' M' 1 + (getDate tza t - 1)) * msPerDay
              + TimeWithinDay (LocalTime tza t))) (1 - getDate tza t)) as S.
  rewrite C3 in S.
  replace (getDate tza t - 1 + 1 + (1 - getDate tza t)) with 1 in S by lia.
  rewrite S.
  replace (UTC tza ((MakeDay Y' M' 1 + (getDate tza t - 1)) * msPerDay
                    + TimeWithinDay (LocalTime tza t))
           + (1 - getDate tza t) * msPerDay)
    with (UTC tza ((MakeDay Y' M' 1 + 0) * msPerDay
                   + TimeWithinDay (LocalTime tza t)))
    by (unfold UTC; lia).
  destruct (civil_of_time Y' M' 0 _ HM' ltac:(lia) Htod) as (D1 & D2 & D3 & D4).
  split; [rewrite <- HF; f_equal; lia|].
  split; [unfold monthStart at 1; rewrite D1, D2; exact HF|].
  split; [exact D3 | exact D4].
Qed.

End MonthSteps.

(** ** What [getNthWeekdayOfMonth] returns *)

Section NthExplicit.
Variable tza : Z.

Lemma getMonth_midnight_offset yr month j :
  0 <= month <= 11 -> 0 <= j < DaysInMonth yr month + 28 ->
  (getMonth tza (midnight tza (MakeDay yr month 1 + j)) =? month)
  = (j <? DaysInMonth yr month).
Proof.
  intros Hm Hj.
  pose proof (DaysInMonth_bounds yr month Hm) as Hlen.
  destruct (Z.ltb_spec j (DaysInMonth yr month)) as [Hlt|Hge].
  - destruct (civil_of_midnight tza yr month j Hm ltac:(lia)) as (_ & -> & _).
    apply Z.eqb_refl.
  - apply Z.eqb_neq.
    replace (MakeDay yr month 1 + j)
      with (MakeDay yr (month + 1) 1 + (j - DaysInMonth yr month))
      by (rewrite (MakeDay_next_month yr month Hm); lia).
    destruct (Z.eq_dec month 11) as [->|Hne].
    + replace (MakeDay yr (11 + 1) 1) with (MakeDay (yr + 1) 0 1)
        by (unfold MakeDay; change ((11 + 1) / 12) with 1;
            change ((11 + 1) mod 12) with 0; change (0 / 12) with 0;
            change (0 mod 12) with 0; replace (yr + 1 + 0) with (yr + 1) by lia;
            reflexivity).
      pose proof (DaysInMonth_bounds (yr + 1) 0 ltac:(lia)).
      destruct (civil_of_midnight tza (yr + 1) 0
                  (j - DaysInMonth yr 11) ltac:(lia) ltac:(lia))
        as (_ & -> & _). lia.
    + pose proof (DaysInMonth_bounds yr (month + 1) ltac:(lia)).
      destruct (civil_of_midnight tza yr (month + 1)
                  (j - DaysInMonth yr month) ltac:(lia) ltac:(lia))
        as (_ & -> & _). lia.
Qed.

Lemma collectWeekly_S fuel month date dates :
  collectWeekly tza (S fuel) month date dates =
    if getMonth tza date =? month
    then collectWeekly tza fuel month (date + 7 * msPerDay) (dates ++ [date])
    else Some dates.
Proof. cbn [collectWeekly]. rewrite setDate_add. reflexivity. Qed.

Lemma seek_first year month weekday :
  0 <= weekday <= 6 ->
  seekWeekday tza 7 1 weekday (newDate tza year month 1) =
    Some (midnight tza (firstDay year month + firstOffset year month weekday)).
Proof.
  intros Hw. rewrite seekWeekday_forward by exact Hw.
  rewrite newDate_midnight.
  change (MakeDay (fullYear year) month 1) with (firstDay year month).
  replace (firstDay year month + 1 - 1) with (firstDay year month) by lia.
  rewrite getDay_midnight, midnight_add. reflexivity.
Qed.

Lemma getNth_every_week year month weekday :
  0 <= month <= 11 -> 0 <= weekday <= 6 ->
  getNthWeekdayOfMonth tza year month 0 weekday =
    Some (map (fun i => midnight tza (firstDay year month
                                      + (firstOffset year month weekday + 7 * i)))
              (if firstOffset year month weekday + 28
                  <? DaysInMonth (fullYear year) month
               then [0; 1; 2; 3; 4] else [0; 1; 2; 3])).
Proof.
  intros Hm Hw. unfold getNthWeekdayOfMonth. change (0 =? 0) with true. cbv iota.
  rewrite seek_first by exact Hw.
  pose proof (DaysInMonth_bounds (fullYear year) month Hm) as Hlen.
  set (F := firstDay year month). set (k := firstOffset year month weekday).
  assert (Hk : 0 <= k <= 6) by (unfold k, firstOffset; lia).
  set (len := DaysInMonth (fullYear year) month) in *.
  assert (T : forall j, 0 <= j < len + 28 ->
            (getMonth tza (midnight tza (F + j)) =? month) = (j <? len)).
  { intros j Hj. apply getMonth_midnight_offset; assumption. }
  assert (Step : forall f j dates, 0 <= j < len + 28 ->
            collectWeekly tza (S f) month (midnight tza (F + j)) dates =
            if j <? len
            then collectWeekly tza f month (midnight tza (F + (j + 7)))
                               (dates ++ [midnight tza (F + j)])
            else Some dates).
  { intros f j dates Hj. rewrite collectWeekly_S, T by exact Hj.
    rewrite midnight_add. replace (F + j + 7) with (F + (j + 7)) by lia.
    reflexivity. }
  rewrite (Step 5%nat k) by lia.
  destruct (Z.ltb_spec k len); [|lia].
  rewrite (Step 4%nat (k + 7)) by lia.
  destruct (Z.ltb_spec (k + 7) len); [|lia].
  rewrite (Step 3%nat (k + 7 + 7)) by lia.
  destruct (Z.ltb_spec (k + 7 + 7) len); [|lia].
  rewrite (Step 2%nat (k + 7 + 7 + 7)) by lia.
  destruct (Z.ltb_spec (k + 7 + 7 + 7) len); [|lia].
  rewrite (Step 1%nat (k + 7 + 7 + 7 + 7)) by lia.
  replace (k + 7 + 7 + 7 + 7) with (k + 28) by lia.
  destruct (Z.ltb_spec (k + 28) len).
  - rewrite (Step 0%nat (k + 28 + 7)) by lia.
    destruct (Z.ltb_spec (k + 28 + 7) len); [lia|].
    cbn [map app]. f_equal.
    repeat (apply f_equal2; [apply f_equal; lia|]). reflexivity.
  - cbn [map app]. f_equal.
    repeat (apply f_equal2; [apply f_equal; lia|]). reflexivity.
Qed.

Lemma getNth_nth year month weekNumber weekday :
  0 <= month <= 11 -> 0 <= weekday <= 6 -> 1 <= weekNumber <= 4 ->
  getNthWeekdayOfMonth tza year month weekNumber weekday =
    Some [midnight tza (firstDay year month
                        + (firstOffset year month weekday + 7 * (weekNumber - 1)))].
Proof.
  intros Hm Hw Hn. unfold getNthWeekdayOfMonth.
  replace (weekNumber =? 0) with false by (symmetry; apply Z.eqb_neq; lia).
  replace (weekNumber =? 5) with false by (symmetry; apply Z.eqb_neq; lia).
  rewrite seek_first by exact Hw.
  pose proof (DaysInMonth_bounds (fullYear year) month Hm) as Hlen.
  set (F := firstDay year month). set (k := firstOffset year month weekday).
  assert (Hk : 0 <= k <= 6) by (unfold k, firstOffset; lia).
  rewrite setDate_add, midnight_add.
  replace (F + k + (weekNumber - 1) * 7) with (F + (k + 7 * (weekNumber - 1))) by lia.
  destruct (civil_of_midnight tza (fullYear year) month (k + 7 * (weekNumber - 1))
              Hm ltac:(lia)) as (_ & Hmo & _).
  change (MakeDay (fullYear year) month 1) with F in Hmo.
  rewrite Hmo, Z.eqb_refl. reflexivity.
Qed.

Lemma getNth_last year month weekday :
  0 <= month <= 11 -> 0 <= weekday <= 6 ->
  getNthWeekdayOfMonth tza year month 5 weekday =
    Some [midnight tza (firstDay year month
            + (DaysInMonth (fullYear year) month - 1
               - lastOffset year month weekday))].
Proof.
  intros Hm Hw. unfold getNthWeekdayOfMonth.
  change (5 =? 0) with false. change (5 =? 5) with true. cbv iota.
  rewrite seekWeekday_backward by exact Hw.
  assert (Hlast : newDate tza year (month + 1) 0
                  = midnight tza (firstDay year month
                                  + DaysInMonth (fullYear year) month - 1)).
  { rewrite newDate_midnight, MakeDay_next_month by exact Hm.
    unfold firstDay. f_equal. lia. }
  rewrite Hlast, getDay_midnight.
  change ((WeekDayOfDay (firstDay year month + DaysInMonth (fullYear year) month - 1)
           - weekday) mod 7) with (lastOffset year month weekday).
  f_equal. f_equal. unfold midnight, UTC. lia.
Qed.

End NthExplicit.

(** ** Inside the range of [Date] *)

Lemma dateYear_fullYear year : dateYear year -> dateYear (fullYear year).
Proof.
  unfold dateYear, fullYear. intros H.
  destruct ((0 <=? year) && (year <=? 99)) eqn:E; [|exact H].
  apply andb_prop in E. destruct E as [E1 E2].
  apply Z.leb_le in E1. apply Z.leb_le in E2. lia.
Qed.

Lemma firstDay_bounds year month :
  dateYear year -> 0 <= month <= 11 ->
  -99999744 <= firstDay year month <= 99999714.
Proof.
  intros Hy Hm. apply dateYear_fullYear in Hy. unfold firstDay.
  rewrite MakeDay_first by exact Hm.
  pose proof (leapDays_bounds (fullYear year)) as Hl.
  assert (Hb : 0 <= daysBeforeMonth (leapDays (fullYear year)) month <= 335).
  { assert (month = 0 \/ month = 1 \/ month = 2 \/ month = 3 \/ month = 4 \/ month = 5
            \/ month = 6 \/ month = 7 \/ month = 8 \/ month = 9 \/ month = 10
            \/ month = 11) as C by lia.
    destruct C as [->|[->|[->|[->|[->|[->|[->|[->|[->|[->|[->| ->]]]]]]]]]]];
      cbn [daysBeforeMonth]; lia. }
  unfold dateYear in Hy. unfold DayFromYear. lia.
Qed.

(** Every date the passage function builds for a month of such a year, from
    the day before its first day to six weeks after it, is a valid one. *)
Lemma month_dates_valid tza year month j :
  zoneOffset tza -> dateYear year -> 0 <= month <= 11 -> -1 <= j <= 45 ->
  validTime (midnight tza (firstDay year month + j)).
Proof.
  intros Hz Hy Hm Hj. pose proof (firstDay_bounds year month Hy Hm) as Hf.
  unfold validTime, maxTime, midnight, UTC, zoneOffset, msPerDay in *. lia.
Qed.

Lemma getNth_valid tza year month w weekday :
  zoneOffset tza -> dateYear year ->
  0 <= month <= 11 -> 0 <= w <= 5 -> 0 <= weekday <= 6 ->
  exists dates,
    getNthWeekdayOfMonth tza year month w weekday = Some dates /\
    Forall validTime dates.
Proof.
  intros Hz Hy Hm Hwk Hw.
  pose proof (DaysInMonth_bounds (fullYear year) month Hm) as Hlen.
  assert (Hk : 0 <= firstOffset year month weekday <= 6)
    by (unfold firstOffset; lia).
  assert (Hl : 0 <= lastOffset year month weekday <= 6)
    by (unfold lastOffset; lia).
  destruct (Z.eq_dec w 0) as [->|H0]; [|destruct (Z.eq_dec w 5) as [->|H5]].
  - rewrite getNth_every_week by assumption. eexists. split; [reflexivity|].
    apply Forall_forall. intros t Ht. apply in_map_iff in Ht.
    destruct Ht as (i & <- & Hi).
    apply month_dates_valid; try assumption.
    destruct (firstOffset year month weekday + 28 <? DaysInMonth (fullYear year) month);
      cbn [In] in Hi; lia.
  - rewrite getNth_last by assumption. eexists. split; [reflexivity|].
    constructor; [|constructor]. apply month_dates_valid; try assumption. lia.
  - rewrite getNth_nth by (try assumption; lia). eexists. split; [reflexivity|].
    constructor; [|constructor]. apply month_dates_valid; try assumption. lia.
Qed.

Section PassageDates.
Variable tza : Z.

(** For week numbers 0..5 the function terminates and every date it returns
    is the local midnight of a day of the month asked for. *)
Lemma getNth_in_month year month w weekday :
  0 <= month <= 11 -> 0 <= w <= 5 -> 0 <= weekday <= 6 ->
  exists dates,
    getNthWeekdayOfMonth tza year month w weekday = Some dates /\
    forall date, In date dates ->
      exists j, 0 <= j < DaysInMonth (fullYear year) month /\
                date = midnight tza (firstDay year month + j).
Proof.
  intros Hm Hwk Hw.
  pose proof (DaysInMonth_bounds (fullYear year) month Hm) as Hlen.
  assert (Hk : 0 <= firstOffset year month weekday <= 6)
    by (unfold firstOffset; lia).
  assert (Hl : 0 <= lastOffset year month weekday <= 6)
    by (unfold lastOffset; lia).
  destruct (Z.eq_dec w 0) as [->|H0]; [|destruct (Z.eq_dec w 5) as [->|H5]].
  - rewrite getNth_every_week by assumption. eexists. split; [reflexivity|].
    intros date Hin. apply in_map_iff in Hin. destruct Hin as (i & <- & Hi).
    exists (firstOffset year month weekday + 7 * i). split; [|reflexivity].
    destruct (Z.ltb_spec (firstOffset year month weekday + 28)
                         (DaysInMonth (fullYear year) month));
      cbn [In] in Hi; lia.
  - rewrite getNth_last by assumption. eexists. split; [reflexivity|].
    intros date [<-|[]]. eexists. split; [|reflexivity]. lia.
  - rewrite getNth_nth by (try assumption; lia). eexists. split; [reflexivity|].
    intros date [<-|[]]. eexists. split; [|reflexivity]. lia.
Qed.

Lemma fullYear_idem year : fullYear (fullYear year) = fullYear year.
Proof.
  unfold fullYear.
  destruct (Z.leb_spec 0 year); destruct (Z.leb_spec year 99); cbn [andb];
    try reflexivity.
  - replace (0 <=? 1900 + year) with true by (symmetry; apply Z.leb_le; lia).
    replace (1900 + year <=? 99) with false by (symmetry; apply Z.leb_gt; lia).
    reflexivity.
  - replace (0 <=? year) with true by (symmetry; apply Z.leb_le; lia).
    replace (year <=? 99) with false by (symmetry; apply Z.leb_gt; lia).
    reflexivity.
  - replace (0 <=? year) with false by (symmetry; apply Z.leb_gt; lia).
    reflexivity.
  - replace (0 <=? year) with false by (symmetry; apply Z.leb_gt; lia).
    reflexivity.
Qed.

Lemma getNth_fullYear year month w weekday :
  getNthWeekdayOfMonth tza (fullYear year) month w weekday
  = getNthWeekdayOfMonth tza year month w weekday.
Proof.
  unfold getNthWeekdayOfMonth, newDate. rewrite fullYear_idem. reflexivity.
Qed.

Lemma fullYear_of_result year : fullYear year < 0 \/ 99 < fullYear year.
Proof.
  unfold fullYear.
  destruct (Z.leb_spec 0 year); destruct (Z.leb_spec year 99); cbn [andb]; lia.
Qed.

End PassageDates.



Section NthWeekday.
Variable tza : Z.


(** C6. For a year inside the range of [Date], a month 0..11 and a week day
    0..6, on a server whose offset from UTC is less than a day, week number
    5 yields exactly one date, a valid one.  It falls on the week day, in
    the month asked for (of the year the [Date] constructor reads: 1900 +
    year for a year in 0..99), and no date of that month with a later day
    of the month falls on the week day. *)
Theorem last_weekday_of_month year month weekday :
  zoneOffset tza -> dateYear year ->
  0 <= month <= 11 -> 0 <= weekday <= 6 ->
  exists date,
    getNthWeekdayOfMonth tza year month 5 weekday = Some [date] /\
    validTime date /\
    getDay tza date = weekday /\
    getMonth tza date = month /\
    getFullYear tza date = fullYear year /\
    forall later,
      getFullYear tza later = getFullYear tza date ->
      getMonth tza later = getMonth tza date ->
      getDate tza date < getDate tza later ->
      getDay tza later <> weekday.
Proof.
  intros Hz Hy Hm Hw. rewrite getNth_last by assumption.
  pose proof (DaysInMonth_bounds (fullYear year) month Hm) as Hlen.
  assert (Hj : 0 <= lastOffset year month weekday <= 6)
    by (unfold lastOffset; lia).
  assert (Hwd : WeekDayOfDay (firstDay year month
                  + (DaysInMonth (fullYear year) month - 1
                     - lastOffset year month weekday)) = weekday)
    by (unfold lastOffset, WeekDayOfDay; lia).
  destruct (civil_of_midnight tza (fullYear year) month
              (DaysInMonth (fullYear year) month - 1 - lastOffset year month weekday)
              Hm ltac:(lia)) as (Hyr & Hmo & Hd).
  change (MakeDay (fullYear year) month 1) with (firstDay year month) in Hyr, Hmo, Hd.
  eexists. split; [reflexivity|].
  split; [apply month_dates_valid; try assumption; lia|].
  split; [rewrite getDay_midnight; exact Hwd|].
  split; [exact Hmo|]. split; [exact Hyr|].
  intros later Ly Lm Ld. rewrite Hyr in Ly. rewrite Hmo in Lm. rewrite Hd in Ld.
  destruct (day_of_local_date tza later) as [HD Hr]. rewrite Ly, Lm in HD, Hr.
  change (MakeDay (fullYear year) month 1) with (firstDay year month) in HD.
  unfold getDay. rewrite HD. revert Hwd Hr Ld Hj.
  generalize (firstDay year month) (DaysInMonth (fullYear year) month)
             (lastOffset year month weekday) (getDate tza later).
  unfold WeekDayOfDay. intros. lia.
Qed.


End NthWeekday.

(** ** The store under the update statements *)

Lemma find_map_same {A : Type} (p : A -> bool) (f : A -> A) (l : list A) :
  (forall x, p (f x) = p x) ->
  find p (map f l) = option_map f (find p l).
Proof.
  intros Hp. induction l as [|a l IH]; [reflexivity|].
  cbn [map find]. rewrite Hp. destruct (p a); [reflexivity | exact IH].
Qed.

Lemma getBookingById_updateBookingStatus st s n m :
  getBookingById st m <> None ->
  getBookingById (updateBookingStatus st s n) m <> None.
Proof.
  unfold getBookingById, updateBookingStatus, set_bookings. cbn [bookings].
  rewrite find_map_same.
  - destruct (find (idIs m) (bookings st)); [discriminate | congruence].
  - intros b. destruct (idIs n b); [destruct m|]; reflexivity.
Qed.

Lemma getBookingById_updateBookingPayment st pi sess ps n m :
  getBookingById st m <> None ->
  getBookingById (updateBookingPayment st pi sess ps n) m <> None.
Proof.
  unfold getBookingById, updateBookingPayment, set_bookings. cbn [bookings].
  rewrite find_map_same.
  - destruct (find (idIs m) (bookings st)); [discriminate | congruence].
  - intros b. destruct (idIs n b); [destruct m|]; reflexivity.
Qed.

(** What a successful insert leaves behind: the old rows, then the new one
    under the next rowid. *)
Lemma insertBooking_inr st params st1 rowid :
  insertBooking st params = inr (st1, rowid) ->
  rowid = bookings_seq st + 1 /\
  exists b, id b = rowid /\ bookings st1 = (bookings st ++ [b])%list /\
            status b = "pending" /\
            stored (nth 8 params BNull) = Some (preferred_date b) /\
            stored (nth 9 params BNull) = Some (preferred_time b) /\
            payment_status b = stored (nth 12 params BNull).
Proof.
  unfold insertBooking.
  destruct (Nat.ltb (List.length params) 20); [discriminate|].
  destruct (Nat.ltb 20 (List.length params)); [discriminate|].
  destruct (stored (nth 0 params BNull)); [|discriminate].
  destruct (stored (nth 1 params BNull)); [|discriminate].
  destruct (stored (nth 2 params BNull)); [|discriminate].
  destruct (stored (nth 3 params BNull)); [|discriminate].
  destruct (stored (nth 6 params BNull)); [|discriminate].
  destruct (stored (nth 8 params BNull)); [|discriminate].
  destruct (stored (nth 9 params BNull)); [|discriminate].
  destruct (existsb _ (bookings st)); [discriminate|].
  intros H. injection H as <- <-. split; [reflexivity|].
  eexists. cbn [set_bookings bookings].
  split; [|split; [reflexivity|]]; cbn; auto.
Qed.

Lemma insertBooking_found st params st1 rowid :
  insertBooking st params = inr (st1, rowid) ->
  getBookingById st1 (JS.Int rowid) <> None.
Proof.
  intros H. destruct (insertBooking_inr _ _ _ _ H) as (_ & b & Hid & Hb & _).
  unfold getBookingById. rewrite Hb.
  destruct (find (idIs (JS.Int rowid)) (bookings st ++ [b])) eqn:E; [discriminate|].
  exfalso. assert (Hn : idIs (JS.Int rowid) b = false).
  { apply (find_none _ _ E b). apply in_or_app. right. left. reflexivity. }
  cbn [idIs] in Hn. rewrite Hid, Z.eqb_refl in Hn. discriminate.
Qed.

(** ** The webhook acknowledges *)

Ltac ack := eexists; split; [reflexivity | left; reflexivity].

Lemma webhookNotify_ack rt st session booking bid :
  getBookingById st bid <> None ->
  acknowledged (snd (webhookNotify rt st session booking bid)).
Proof.
  intros H. unfold webhookNotify.
  destruct (getBookingById st bid); [|congruence]. ack.
Qed.

Lemma webhookExisting_ack rt st session bid :
  acknowledged (snd (webhookExisting rt st session bid)).
Proof.
  unfold webhookExisting.
  destruct (getBookingById st (JS.parseInt bid)) eqn:E; [|ack].
  apply webhookNotify_ack.
  apply getBookingById_updateBookingStatus, getBookingById_updateBookingPayment.
  congruence.
Qed.

Lemma webhookCreate_ack rt st session md pd :
  acknowledged (snd (webhookCreate rt st session md pd)).
Proof.
  unfold webhookCreate.
  destruct (resolveCapacity st (bookingServiceType md)) as [cap useSvc].
  destruct (JS.ge _ cap); [ack|].
  destruct (hasConflict st pd (bookingPreferredTime md)); [ack|].
  destruct (insertBooking st (paidBookingParams rt session md))
    as [e | [st1 rowid]] eqn:E; [ack|].
  apply webhookNotify_ack.
  apply getBookingById_updateBookingPayment, getBookingById_updateBookingStatus.
  unfold createAuditLog, getBookingById, add_audit. cbn [bookings].
  exact (insertBooking_found _ _ _ _ E).
Qed.

(** C9. Once the signature is verified, every webhook event is answered
    with status 200 and [received: true]: no branch of the handler lets an
    exception escape or answers with another status.  This covers the date
    being full, a (date, time) conflict, a missing booking and a failing
    insert, whose acknowledgments are spelled out in the four lemmas after
    this one. *)
Theorem webhook_always_acknowledges rt st event retrieve secret :
  stripe rt = Some retrieve ->
  truthyVal (stripeWebhookSecret rt) = Some secret ->
  acknowledged (snd (webhook rt st (Some event))).
Proof.
  intros Hs Hk. unfold webhook. rewrite Hs, Hk.
  destruct (String.eqb (event_type event) "checkout.session.completed"); [|ack].
  destruct (negb (livemode (event_object event)) && _); [ack|].
  destruct (metadata (event_object event)) as [md|]; [|ack].
  destruct (opt_eqb (md_type md) "booking").
  - destruct (truthyVal (bookingId md)); [apply webhookExisting_ack|].
    destruct (truthyVal (bookingName md)); [|ack].
    destruct (truthyVal (bookingPreferredDate md)); [|ack].
    apply webhookCreate_ack.
  - destruct (opt_eqb (md_type md) "quote" && JS.truthy (quoteId md)); [|ack].
    destruct (getQuoteById st _); ack.
Qed.

Lemma webhookCreate_full rt st session md pd cap useSvc :
  resolveCapacity st (bookingServiceType md) = (JS.Int cap, useSvc) ->
  cap <= paidCount st useSvc pd (bookingServiceType md) ->
  webhookCreate rt st session md pd =
    (trySendMail rt st (dateFullMail rt md),
     Responded 200 (receivedError "Date complète, réservation non créée")).
Proof.
  intros Hc Hn. unfold webhookCreate. rewrite Hc. cbn [JS.ge].
  destruct (Z.leb_spec cap (paidCount st useSvc pd (bookingServiceType md)));
    [reflexivity | lia].
Qed.

Lemma webhookCreate_conflict rt st session md pd cap useSvc :
  resolveCapacity st (bookingServiceType md) = (cap, useSvc) ->
  JS.ge (JS.Int (paidCount st useSvc pd (bookingServiceType md))) cap = false ->
  hasConflict st pd (bookingPreferredTime md) = true ->
  webhookCreate rt st session md pd =
    (st, Responded 200 (receivedError "Conflit de réservation détecté")).
Proof.
  intros Hc Hn Hx. unfold webhookCreate. rewrite Hc, Hn, Hx. reflexivity.
Qed.

Lemma webhookCreate_insert_fails rt st session md pd cap useSvc dbErr :
  resolveCapacity st (bookingServiceType md) = (cap, useSvc) ->
  JS.ge (JS.Int (paidCount st useSvc pd (bookingServiceType md))) cap = false ->
  hasConflict st pd (bookingPreferredTime md) = false ->
  insertBooking st (paidBookingParams rt session md) = inl dbErr ->
  webhookCreate rt st session md pd =
    (st, Responded 200 (receivedError
       ("Erreur lors de la création de la réservation: " ++ exnMessage dbErr))).
Proof.
  intros Hc Hn Hx Hi. unfold webhookCreate. rewrite Hc, Hn, Hx, Hi. reflexivity.
Qed.

Lemma webhookExisting_missing rt st session bid :
  getBookingById st (JS.parseInt bid) = None ->
  webhookExisting rt st session bid =
    (st, Responded 200 (receivedError
       ("Réservation " ++ numToString (JS.parseInt bid) ++ " introuvable"))).
Proof. intros H. unfold webhookExisting. rewrite H. reflexivity. Qed.

(** ** Capacity at confirmation time *)

Lemma truthyVal_Some v s : truthyVal v = Some s -> v = Some s /\ JS.truthy v = true.
Proof.
  unfold truthyVal. destruct (JS.truthy v); [|discriminate].
  intros ->. split; reflexivity.
Qed.

Lemma truthyVal_None v : truthyVal v = None -> JS.truthy v = false.
Proof.
  unfold truthyVal. destruct (JS.truthy v) eqn:E; [|reflexivity].
  destruct v; [discriminate | discriminate E].
Qed.

(** The two scopes of the count: the service's own limit and its own
    bookings, or the global limit and every booking of the day. *)
Lemma resolveCapacity_service st serviceType svc sd m d :
  truthyVal serviceType = Some svc ->
  getServiceByServiceId st svc = Some sd ->
  max_bookings_per_day sd = Some m ->
  resolveCapacity st serviceType = (JS.Int m, true) /\
  paidCount st true d serviceType = countPaidBookingsByDateAndService st d svc.
Proof.
  intros Ht Hs Hm. unfold resolveCapacity. rewrite Ht, Hs, Hm.
  apply truthyVal_Some in Ht. destruct Ht as [-> _]. split; reflexivity.
Qed.

Lemma resolveCapacity_global st serviceType d :
  (forall svc sd, truthyVal serviceType = Some svc ->
                  getServiceByServiceId st svc = Some sd ->
                  max_bookings_per_day sd = None) ->
  resolveCapacity st serviceType =
    (JS.parseInt (JS.orElse (getConfig (config st) "max_bookings_per_day") "5"), false) /\
  paidCount st false d serviceType = countPaidBookingsByDate st d.
Proof.
  intros H. unfold resolveCapacity. split; [|reflexivity].
  destruct (truthyVal serviceType) as [svc|]; [|reflexivity].
  destruct (getServiceByServiceId st svc) as [sd|] eqn:E; [|reflexivity].
  rewrite (H svc sd eq_refl E). reflexivity.
Qed.

Lemma trySendMail_bookings rt st m : bookings (trySendMail rt st m) = bookings st.
Proof.
  unfold trySendMail, sendMail.
  destruct (smtpConfigured rt); [|reflexivity].
  destruct (transportOk rt); reflexivity.
Qed.

Lemma trySendMail_outbox rt st m :
  smtpConfigured rt = true -> transportOk rt = true ->
  outbox (trySendMail rt st m) = (outbox st ++ [m])%list.
Proof.
  intros H1 H2. unfold trySendMail, sendMail. rewrite H1, H2. reflexivity.
Qed.

(** C1, as amended.  In the create-after-payment flow (metadata without
    [bookingId], with [bookingName] and [bookingPreferredDate]) both
    confirmation entry points resolve the capacity and count the paid,
    non-cancelled bookings of the date on the store as it is when the event
    arrives.  When the count has reached the capacity no booking row is
    created or changed.  The webhook then sends one mail (provided SMTP is
    configured and the transport works) and acknowledges: the mail goes to
    the operator mailbox ([SMTP_TO], or the SMTP user when that is not set),
    with the customer as reply address, and says that the booking of that
    name for that date could not be created because the date is full, and
    that the payment will be refunded.  The verification call answers
    [ok: false] without sending any mail. *)
Theorem confirmation_rechecks_capacity
    rt st session md nm pd cap useSvc retrieve secret sid :
  stripe rt = Some retrieve ->
  truthyVal (stripeWebhookSecret rt) = Some secret ->
  negb (livemode session)
    && negb (opt_eqb (getConfig (config st) "test_mode_enabled") "true") = false ->
  metadata session = Some md ->
  md_type md = Some "booking" ->
  truthyVal (bookingId md) = None ->
  truthyVal (bookingName md) = Some nm ->
  truthyVal (bookingPreferredDate md) = Some pd ->
  resolveCapacity st (bookingServiceType md) = (JS.Int cap, useSvc) ->
  cap <= paidCount st useSvc pd (bookingServiceType md) ->
  let alert :=
    mkEmail (smtpFrom rt)
            (if JS.truthy (SMTP_TO rt) then SMTP_TO rt else smtpUser rt)
            (bookingEmail md)
            "⚠️ Réservation annulée - Date complète"
            ("La réservation de " ++ nm ++ " pour le " ++ pd
               ++ " n'a pas pu être créée car la date est complète. Le paiement sera remboursé.") in
  (webhook rt st (Some (mkEvent "checkout.session.completed" session)) =
     (trySendMail rt st alert,
      Responded 200 (receivedError "Date complète, réservation non créée"))
   /\ bookings (trySendMail rt st alert) = bookings st
   /\ (smtpConfigured rt = true -> transportOk rt = true ->
       outbox (trySendMail rt st alert) = (outbox st ++ [alert])%list))
  /\ (truthyVal (Some sid) = Some sid ->
      retrieve sid = Some session ->
      opt_eqb (session_payment_status session) "paid"
        || opt_eqb (session_status session) "complete" = true ->
      verifyPayment rt st (Some sid) =
        (st, Responded 200
           [("ok", JAtom (JBool false));
            ("error", JAtom (JStr "Date complète, réservation non créée"));
            ("details", JAtom (JStr
               "La date sélectionnée est complète. Veuillez contacter le support pour un remboursement."))])).
Proof.
  intros Hs Hk Ht Hm Hty Hb Hn Hp Hc Hle alert.
  assert (Hge : JS.ge (JS.Int (paidCount st useSvc pd (bookingServiceType md)))
                      (JS.Int cap) = true) by (apply Z.leb_le; exact Hle).
  assert (E : dateFullMail rt md = alert).
  { unfold dateFullMail, alert, smtpTo.
    destruct (truthyVal_Some _ _ Hn) as [-> _].
    destruct (truthyVal_Some _ _ Hp) as [-> _]. reflexivity. }
  rewrite <- E. clear E alert.
  split; [split; [|split]|].
  - unfold webhook. rewrite Hs, Hk. cbn [event_type event_object].
    rewrite String.eqb_refl, Ht, Hm, Hty. cbn [opt_eqb]. rewrite String.eqb_refl.
    rewrite Hb, Hn, Hp.
    exact (webhookCreate_full rt st session md pd cap useSvc Hc Hle).
  - apply trySendMail_bookings.
  - apply trySendMail_outbox.
  - intros Hsid Hr Hpaid. unfold verifyPayment.
    rewrite Hsid, Hs, Hr, Ht, Hpaid, Hm, Hb, Hn, Hp.
    unfold verifyCreate. rewrite Hc, Hge. reflexivity.
Qed.

(** ** Confirming twice *)

(** The verification call leaves a booking that is already paid alone: no
    write, no mail, and the answer is a success. *)
Lemma verifyPayment_existing_paid rt st sid retrieve session md bid b :
  truthyVal (Some sid) = Some sid ->
  stripe rt = Some retrieve ->
  retrieve sid = Some session ->
  negb (livemode session)
    && negb (opt_eqb (getConfig (config st) "test_mode_enabled") "true") = false ->
  opt_eqb (session_payment_status session) "paid"
    || opt_eqb (session_status session) "complete" = true ->
  metadata session = Some md ->
  truthyVal (bookingId md) = Some bid ->
  getBookingById st (JS.parseInt bid) = Some b ->
  payment_status b = Some "paid" ->
  verifyPayment rt st (Some sid) =
    (st, Responded 200
       [("ok", JAtom (JBool true));
        ("message", JAtom (JStr "Paiement déjà validé"));
        ("bookingId", JAtom (JNum (JS.parseInt bid)))]).
Proof.
  intros Hsid Hs Hr Ht Hpaid Hm Hb Hg Hps. unfold verifyPayment.
  rewrite Hsid, Hs, Hr, Ht, Hpaid, Hm, Hb, Hg.
  unfold verifyFinish. rewrite Hps. reflexivity.
Qed.

(** The webhook has no such guard: whenever the referenced booking exists
    it sends the confirmation mail, whatever the payment status was. *)
Lemma webhookExisting_always_mails rt st session bid b :
  getBookingById st (JS.parseInt bid) = Some b ->
  smtpConfigured rt = true -> transportOk rt = true ->
  let st' := fst (webhookExisting rt st session bid) in
  outbox st' = (outbox st ++ [confirmationMail rt true b session])%list.
Proof.
  intros Hg H1 H2. cbv zeta. unfold webhookExisting. rewrite Hg.
  unfold webhookNotify.
  destruct (getBookingById (updateBookingStatus _ _ _) _) eqn:E.
  - cbn [fst]. rewrite trySendMail_outbox by assumption. reflexivity.
  - exfalso. revert E.
    apply getBookingById_updateBookingStatus, getBookingById_updateBookingPayment.
    congruence.
Qed.

(** ** The public booking request *)

(** A request for an enabled city whose cutoff date and requested date
    both read as dates, the requested one strictly later, is answered with
    status 400 and a message that prints the cutoff instant in local time;
    the store is left as it was.  The store is arbitrary: the capacity is
    never looked at. *)
Lemma bookingPost_after_cutoff rt st rq c cityRow cutoff pd tc tp :
  rq_city rq = Some c ->
  checkServiceCity st c = Some cityRow ->
  truthyVal (cutoff_date cityRow) = Some cutoff ->
  truthyVal (rq_preferredDate rq) = Some pd ->
  DateParse rt cutoff = JS.Int tc ->
  DateParse rt pd = JS.Int tp ->
  tc < tp ->
  bookingPost rt st rq =
    (st, Responded 400 (okFalse
       ("Les réservations pour " ++ c ++ " sont fermées au-delà du "
          ++ toLocaleDateString_frFR (LocalTZA rt) tc))).
Proof.
  intros Hc Hcity Hcut Hpd Htc Htp Hlt.
  unfold bookingPost, checkCity. rewrite Hc, Hcity, Hcut, Hpd, Htc, Htp.
  cbn [JS.gt]. destruct (Z.ltb_spec tc tp); [reflexivity | lia].
Qed.

(** What [toLocaleDateString('fr-FR')] prints for midnight UTC of a calendar
    date, which is what [new Date] reads in a date-only text: that date at
    or east of UTC, the date of the day before west of UTC. *)
Lemma frFR_of_utc_midnight tza year month date :
  zoneOffset tza -> 0 <= month <= 11 -> 1 <= date <= DaysInMonth year month ->
  toLocaleDateString_frFR tza (MakeDay year month date * msPerDay)
  = if 0 <=? tza then frenchDate year month date
    else frenchDateOfDay (MakeDay year month date - 1).
Proof.
  intros Hz Hm Hd. unfold zoneOffset, msPerDay in Hz.
  unfold toLocaleDateString_frFR, getDate, getMonth, getFullYear, LocalTime.
  destruct (Z.leb_spec 0 tza) as [Hp|Hn].
  - replace (Day (MakeDay year month date * msPerDay + tza))
      with (MakeDay year month 1 + (date - 1))
      by (rewrite (MakeDay_date year month date); unfold Day, msPerDay; lia).
    destruct (civil_of_month_day year month (date - 1) Hm ltac:(lia))
      as (-> & -> & ->).
    unfold frenchDate. do 4 f_equal. lia.
  - replace (Day (MakeDay year month date * msPerDay + tza))
      with (MakeDay year month date - 1)
      by (unfold Day, msPerDay; lia).
    reflexivity.
Qed.

(** C7.  A request for an enabled city whose cutoff date is a date-only text,
    which [new Date] reads as midnight UTC of that day, and whose requested
    date reads as a later instant, is answered with status 400, and the
    store is left as it was, whatever it holds: the capacity is never
    looked at.  The message carries the cutoff date, printed
    day/month/year, on a server at or east of UTC; on a server west of UTC
    it carries the date of the day before the cutoff. *)
Theorem booking_after_cutoff_rejected
    rt st rq c cityRow cutoff pd year month date tp :
  rq_city rq = Some c ->
  checkServiceCity st c = Some cityRow ->
  truthyVal (cutoff_date cityRow) = Some cutoff ->
  truthyVal (rq_preferredDate rq) = Some pd ->
  0 <= month <= 11 -> 1 <= date <= DaysInMonth year month ->
  DateParse rt cutoff = JS.Int (MakeDay year month date * msPerDay) ->
  DateParse rt pd = JS.Int tp ->
  MakeDay year month date * msPerDay < tp ->
  zoneOffset (LocalTZA rt) ->
  bookingPost rt st rq =
    (st, Responded 400 (okFalse
       ("Les réservations pour " ++ c ++ " sont fermées au-delà du "
          ++ if 0 <=? LocalTZA rt then frenchDate year month date
             else frenchDateOfDay (MakeDay year month date - 1)))).
Proof.
  intros Hc Hcity Hcut Hpd Hm Hd Htc Htp Hlt Hz.
  rewrite (bookingPost_after_cutoff rt st rq c cityRow cutoff pd _ tp
             Hc Hcity Hcut Hpd Htc Htp Hlt).
  rewrite frFR_of_utc_midnight by assumption. reflexivity.
Qed.

(** [POST /api/booking] binds eighteen values to the twenty placeholders of
    [insertBooking], so the statement is never run. *)
Lemma bookingPost_insert_never_runs rt st rq :
  insertBooking st (unpaidBookingParams rt rq)
    = inl (RangeError "Too few parameter values were provided").
Proof. reflexivity. Qed.

Lemma bookingPost_store_unchanged rt st rq : fst (bookingPost rt st rq) = st.
Proof.
  unfold bookingPost.
  destruct (checkCity rt st rq); [reflexivity|].
  match goal with |- context [if ?c then _ else _] => destruct c end; [reflexivity|].
  destruct (resolveCapacity st (rq_serviceType rq)) as [cap useSvc].
  destruct (JS.ge _ cap); [reflexivity|].
  destruct (hasConflict st _ _); [reflexivity|].
  rewrite bookingPost_insert_never_runs. reflexivity.
Qed.

(** C8, as amended.  A request that passes the city and cutoff check, has
    its required fields, and carries a [preferredTime] that together with
    [preferredDate] matches a booking that is not cancelled, is answered
    with status 409 and stores nothing.  Nothing is assumed of the
    [time_selection_enabled] flag: the check runs whenever a time is sent. *)
Theorem booking_conflict_rejected rt st rq pd pt other :
  checkCity rt st rq = CityPassed ->
  JS.truthy (rq_name rq) = true ->
  JS.truthy (rq_email rq) = true ->
  JS.truthy (rq_phone rq) = true ->
  JS.truthy (rq_city rq) = true ->
  JS.truthy (rq_serviceType rq) = true ->
  truthyVal (rq_preferredDate rq) = Some pd ->
  truthyVal (rq_preferredTime rq) = Some pt ->
  checkBookingConflict st pd pt = Some other ->
  exists body, bookingPost rt st rq = (st, Responded 409 body).
Proof.
  intros Hcity Hn He Hp Hc Hs Hd Ht Hx.
  unfold bookingPost. rewrite Hcity, Hn, He, Hp, Hc, Hs.
  destruct (truthyVal_Some _ _ Hd) as [Hd1 Hd2].
  destruct (truthyVal_Some _ _ Ht) as [Ht1 Ht2].
  rewrite Hd2, Ht2. cbn [negb orb andb]. rewrite Bool.andb_false_r.
  destruct (resolveCapacity st (rq_serviceType rq)) as [cap useSvc].
  destruct (JS.ge _ cap); [eexists; reflexivity|].
  unfold hasConflict. rewrite Ht, Hd1. cbn [tpl]. rewrite Hx.
  eexists; reflexivity.
Qed.

(** The conflict check is skipped exactly when no time is sent. *)
Lemma hasConflict_without_time st d t :
  truthyVal t = None -> hasConflict st d t = false.
Proof. intros H. unfold hasConflict. rewrite H. reflexivity. Qed.

(** UNIQUE(preferred_date, preferred_time) looks at every row: an insert of
    twenty well-formed values is refused as soon as some row, cancelled or
    not, has the same date and time. *)
Lemma insertBooking_unique_over_all_rows st params b nm em ph ci sv :
  List.length params = 20%nat ->
  stored (nth 0 params BNull) = Some nm ->
  stored (nth 1 params BNull) = Some em ->
  stored (nth 2 params BNull) = Some ph ->
  stored (nth 3 params BNull) = Some ci ->
  stored (nth 6 params BNull) = Some sv ->
  stored (nth 8 params BNull) = Some (preferred_date b) ->
  stored (nth 9 params BNull) = Some (preferred_time b) ->
  In b (bookings st) ->
  insertBooking st params = inl (SqliteError "SQLITE_CONSTRAINT_UNIQUE").
Proof.
  intros Hl H0 H1 H2 H3 H6 H8 H9 Hin. unfold insertBooking.
  rewrite Hl, H0, H1, H2, H3, H6, H8, H9. cbn [Nat.ltb Nat.leb].
  replace (existsb _ (bookings st)) with true; [reflexivity|].
  symmetry. apply existsb_exists. exists b. split; [exact Hin|].
  rewrite !String.eqb_refl. reflexivity.
Qed.

(** The rows keep distinct (date, time) pairs under [insertBooking]. *)
Lemma insertBooking_keeps_slots_distinct st params st1 rowid :
  NoDup (map slot (bookings st)) ->
  insertBooking st params = inr (st1, rowid) ->
  NoDup (map slot (bookings st1)).
Proof.
  intros Hnd H. unfold insertBooking in H.
  destruct (Nat.ltb (List.length params) 20); [discriminate|].
  destruct (Nat.ltb 20 (List.length params)); [discriminate|].
  destruct (stored (nth 0 params BNull)); [|discriminate].
  destruct (stored (nth 1 params BNull)); [|discriminate].
  destruct (stored (nth 2 params BNull)); [|discriminate].
  destruct (stored (nth 3 params BNull)); [|discriminate].
  destruct (stored (nth 6 params BNull)); [|discriminate].
  destruct (stored (nth 8 params BNull)) as [pd|]; [|discriminate].
  destruct (stored (nth 9 params BNull)) as [pt|]; [|discriminate].
  destruct (existsb _ (bookings st)) eqn:Ex; [discriminate|].
  injection H as <- <-. cbn [set_bookings bookings].
  rewrite map_app. cbn [map].
  assert (Hnew : ~ In (pd, pt) (map slot (bookings st))).
  { intros Hin. apply in_map_iff in Hin. destruct Hin as (b & Hb & Hin).
    assert (existsb (fun b0 => String.eqb (preferred_date b0) pd
                               && String.eqb (preferred_time b0) pt)
                    (bookings st) = true) as Ht.
    { apply existsb_exists. exists b. split; [exact Hin|].
      unfold slot in Hb. injection Hb as -> ->. rewrite !String.eqb_refl. reflexivity. }
    congruence. }
  clear Ex. induction (map slot (bookings st)) as [|x l IH].
  - constructor; [intros []|constructor].
  - inversion Hnd; subst. cbn [app]. constructor.
    + intros Hin. apply in_app_or in Hin. destruct Hin as [Hin|[Hin|[]]].
      * contradiction.
      * apply Hnew. left. symmetry. exact Hin.
    + apply IH; [assumption|]. intros Hin. apply Hnew. right. exact Hin.
Qed.

(** ** Full dates *)

Lemma existsb_eqb_In (d : string) (l : list string) :
  existsb (String.eqb d) l = true <-> In d l.
Proof.
  rewrite existsb_exists. split.
  - intros (x & Hx & E). apply String.eqb_eq in E. subst. exact Hx.
  - intros H. exists d. split; [exact H | apply String.eqb_refl].
Qed.

Lemma distinct_In (d : string) (ds seen : list string) :
  In d (distinct seen ds) <-> In d ds /\ ~ In d seen.
Proof.
  revert seen. induction ds as [|x r IH]; intros seen; cbn [distinct].
  - cbn [In]. tauto.
  - destruct (existsb (String.eqb x) seen) eqn:E.
    + apply existsb_eqb_In in E. rewrite IH. cbn [In].
      split; [tauto|]. intros [[->|H] Hn]; [contradiction | tauto].
    + assert (Hx : ~ In x seen).
      { intros H. apply existsb_eqb_In in H. congruence. }
      cbn [In]. rewrite IH. cbn [In].
      destruct (string_dec x d) as [->|Hne]; [tauto|].
      split.
      * intros [H|[H1 H2]]; [contradiction|]. split; [tauto|]. tauto.
      * intros [[H|H] Hn]; [contradiction|]. right. split; [exact H|].
        intros [H'|H']; [contradiction | contradiction].
Qed.

Lemma filter_length_pos {A : Type} (p : A -> bool) (l : list A) :
  1 <= Z.of_nat (List.length (filter p l)) <-> exists x, In x l /\ p x = true.
Proof.
  split.
  - destruct (filter p l) as [|x r] eqn:E; [cbn; lia|].
    intros _. exists x. apply filter_In. rewrite E. left. reflexivity.
  - intros (x & Hin & Hp).
    assert (H : In x (filter p l)) by (apply filter_In; tauto).
    destruct (filter p l); [destruct H | cbn [List.length]; lia].
Qed.

Lemma groupCount_In (ds : list string) (d : string) (n : Z) :
  In (d, n) (groupCount ds) <->
  n = Z.of_nat (List.length (filter (String.eqb d) ds)) /\ 1 <= n.
Proof.
  unfold groupCount. rewrite in_map_iff. split.
  - intros (x & E & Hx). injection E as -> <-.
    apply distinct_In in Hx. destruct Hx as [Hx _].
    split; [reflexivity|]. apply filter_length_pos.
    exists d. split; [exact Hx | apply String.eqb_refl].
  - intros [-> Hpos]. exists d. split; [reflexivity|].
    apply distinct_In. split; [|intros []].
    apply filter_length_pos in Hpos. destruct Hpos as (x & Hx & E).
    apply String.eqb_eq in E. subst. exact Hx.
Qed.

Lemma count_map_filter (P : Booking -> bool) (bs : list Booking) (d : string) :
  List.length (filter (String.eqb d) (map preferred_date (filter P bs))) =
  List.length (filter (fun b => String.eqb (preferred_date b) d && P b) bs).
Proof.
  induction bs as [|b r IH]; [reflexivity|].
  cbn [filter]. rewrite (String.eqb_sym (preferred_date b) d).
  destruct (P b); cbn [map filter].
  - destruct (String.eqb d (preferred_date b)); cbn [andb List.length];
      rewrite IH; reflexivity.
  - rewrite Bool.andb_false_r. exact IH.
Qed.

(** The rows of a date-range query, for a selection [sel] of the bookings:
    the dates of the range that have at least one selected booking, each
    with the number of its selected bookings. *)
Lemma rangeRows_In (sel : Booking -> bool) (bs : list Booking)
    (lo hi d : string) (n : Z) :
  In (d, n) (groupCount (map preferred_date
     (filter (fun b => inRange lo hi (preferred_date b) && sel b) bs))) <->
  inRange lo hi d = true /\
  n = Z.of_nat (List.length
        (filter (fun b => String.eqb (preferred_date b) d && sel b) bs)) /\
  1 <= n.
Proof.
  rewrite groupCount_In, count_map_filter.
  destruct (inRange lo hi d) eqn:R.
  - assert (E : filter (fun b => String.eqb (preferred_date b) d
                         && (inRange lo hi (preferred_date b) && sel b)) bs
              = filter (fun b => String.eqb (preferred_date b) d && sel b) bs).
    { apply filter_ext. intros b.
      destruct (String.eqb (preferred_date b) d) eqn:E; [|reflexivity].
      apply String.eqb_eq in E. rewrite E, R. reflexivity. }
    rewrite E. tauto.
  - assert (E : filter (fun b => String.eqb (preferred_date b) d
                         && (inRange lo hi (preferred_date b) && sel b)) bs = []).
    { induction bs as [|b r IH]; [reflexivity|]. cbn [filter].
      destruct (String.eqb (preferred_date b) d) eqn:E; [|exact IH].
      apply String.eqb_eq in E. rewrite E, R. exact IH. }
    rewrite E. cbn [List.length]. split; [lia | intros [H _]; discriminate].
Qed.

Lemma paidRows_In st lo hi (useSvc : bool) serviceType d n :
  In (d, n)
     (if useSvc then
        match serviceType with
        | Some svc => getPaidBookingsByDateRangeAndService st lo hi svc
        | None => []
        end
      else getPaidBookingsByDateRange st lo hi) <->
  inRange lo hi d = true /\ n = paidCount st useSvc d serviceType /\ 1 <= n.
Proof.
  unfold paidCount. destruct useSvc; [destruct serviceType as [svc|]|].
  - unfold getPaidBookingsByDateRangeAndService, countPaidBookingsByDateAndService.
    set (sel := fun b => String.eqb (service_type b) svc && notCancelled b && isPaid b).
    rewrite (filter_ext _ (fun b => inRange lo hi (preferred_date b) && sel b)).
    + rewrite rangeRows_In.
      rewrite (filter_ext
        (fun b => String.eqb (preferred_date b) d && String.eqb (service_type b) svc
                  && notCancelled b && isPaid b)
        (fun b => String.eqb (preferred_date b) d && sel b)).
      * reflexivity.
      * intros b. unfold sel. rewrite <- !Bool.andb_assoc. reflexivity.
    + intros b. unfold sel. rewrite <- !Bool.andb_assoc. reflexivity.
  - cbn [In]. split; [tauto | lia].
  - unfold getPaidBookingsByDateRange, countPaidBookingsByDate.
    set (sel := fun b => notCancelled b && isPaid b).
    rewrite (filter_ext _ (fun b => inRange lo hi (preferred_date b) && sel b)).
    + rewrite rangeRows_In.
      rewrite (filter_ext
        (fun b => String.eqb (preferred_date b) d && notCancelled b && isPaid b)
        (fun b => String.eqb (preferred_date b) d && sel b)).
      * reflexivity.
      * intros b. unfold sel. rewrite <- !Bool.andb_assoc. reflexivity.
    + intros b. unfold sel. rewrite <- !Bool.andb_assoc. reflexivity.
Qed.

(** The list of lines 852-864, as texts. *)
Lemma fullDatesOf_In rt st q lo hi cap useSvc :
  truthyVal (startDate q) = Some lo ->
  truthyVal (endDate q) = Some hi ->
  resolveCapacity st (q_serviceType q) = (cap, useSvc) ->
  (forall d,
     In d (fullDatesOf st q lo hi) <->
     inRange lo hi d = true /\
     1 <= paidCount st useSvc d (q_serviceType q) /\
     JS.ge (JS.Int (paidCount st useSvc d (q_serviceType q))) cap = true) /\
  (forall body,
     availableDates rt st q = Responded 200 body ->
     In ("fullDates", JStrings (fullDatesOf st q lo hi)) body).
Proof.
  intros Hlo Hhi Hc. split.
  - intros d. unfold fullDatesOf. rewrite Hc. rewrite in_map_iff. split.
    + intros ([d' n] & E & Hin). cbn [fst] in E. subst d'.
      apply filter_In in Hin. destruct Hin as [Hin Hge]. cbn [snd] in Hge.
      apply paidRows_In in Hin. destruct Hin as (R & -> & Hpos). tauto.
    + intros (R & Hpos & Hge).
      exists (d, paidCount st useSvc d (q_serviceType q)). split; [reflexivity|].
      apply filter_In. split; [|exact Hge].
      apply paidRows_In. tauto.
  - intros body. unfold availableDates. rewrite Hlo, Hhi.
    destruct (allowedDatesOf rt (resolvePassage st q) lo hi); [|discriminate].
    intros H. injection H as <-. right. left. reflexivity.
Qed.

(** C3, as amended.  For an available-dates query whose [startDate] and
    [endDate] are written YYYY-MM-DD, a date so written is among the full
    dates the handler computes exactly when it lies between the two
    (inclusive), has at least one paid booking that is not cancelled, and
    the number of those bookings is at least the effective capacity; the
    bookings counted are the service's own when the service has a limit
    of its own, those of all services otherwise.  Bookings that are not
    paid are not counted.  The answer carries these dates as [fullDates];
    they are taken as a set, the query that lists them (a GROUP BY)
    fixing no order. *)
Theorem full_dates_characterised rt st q lo hi cap useSvc :
  truthyVal (startDate q) = Some lo ->
  truthyVal (endDate q) = Some hi ->
  isoDateText lo = true -> isoDateText hi = true ->
  resolveCapacity st (q_serviceType q) = (cap, useSvc) ->
  (forall d,
     isoDateText d = true ->
     (In d (fullDatesOf st q lo hi) <->
      String.leb lo d = true /\ String.leb d hi = true /\
      1 <= paidCount st useSvc d (q_serviceType q) /\
      JS.ge (JS.Int (paidCount st useSvc d (q_serviceType q))) cap = true)) /\
  (forall body,
     availableDates rt st q = Responded 200 body ->
     exists fullDates,
       In ("fullDates", JStrings fullDates) body /\
       forall d, In d fullDates <-> In d (fullDatesOf st q lo hi)).
Proof.
  intros Hlo Hhi _ _ Hc.
  destruct (fullDatesOf_In rt st q lo hi cap useSvc Hlo Hhi Hc) as [H1 H2].
  split.
  - intros d _. rewrite (H1 d). unfold inRange. rewrite andb_true_iff. tauto.
  - intros body Hb. exists (fullDatesOf st q lo hi).
    split; [exact (H2 body Hb) | tauto].
Qed.

(** ** Allowed dates *)

Section Loop.
Variable tza : Z.
Variables start end_ : Z.

Lemma pushDate_In acc date s :
  In s (pushDate tza start end_ acc date) <->
  In s acc \/ (start <= date <= end_ /\ s = formatDate tza date).
Proof.
  unfold pushDate.
  destruct (Z.leb_spec start date) as [L1|L1];
    destruct (Z.leb_spec date end_) as [L2|L2]; cbn [andb];
    try (split; [tauto | intros [H|[H _]]; [exact H | lia]]).
  destruct (existsb (String.eqb (formatDate tza date)) acc) eqn:E.
  - apply existsb_eqb_In in E. split; [tauto|].
    intros [H|[_ ->]]; assumption.
  - rewrite in_app_iff. cbn [In]. split.
    + intros [H|[H|[]]]; [tauto|]. right. split; [lia | congruence].
    + intros [H|[_ ->]]; tauto.
Qed.

Lemma pushDate_NoDup acc date : NoDup acc -> NoDup (pushDate tza start end_ acc date).
Proof.
  intros H. unfold pushDate.
  destruct ((start <=? date) && (date <=? end_)); [|exact H].
  destruct (existsb (String.eqb (formatDate tza date)) acc) eqn:E; [exact H|].
  assert (Hn : ~ In (formatDate tza date) acc).
  { intros Hin. apply existsb_eqb_In in Hin. congruence. }
  clear E. induction acc as [|a acc IH]; cbn [app].
  - constructor; [intros []|constructor].
  - inversion H; subst. constructor.
    + rewrite in_app_iff. cbn [In]. intros [Hin|[Hin|[]]]; [tauto|].
      apply Hn. left. congruence.
    + apply IH; [assumption|]. intros Hin. apply Hn. right. exact Hin.
Qed.

Lemma pushDates_In dates acc s :
  In s (pushDates tza start end_ dates acc) <->
  In s acc \/ exists date, In date dates /\ start <= date <= end_
                           /\ s = formatDate tza date.
Proof.
  unfold pushDates. revert acc.
  induction dates as [|d r IH]; intros acc; cbn [fold_left].
  - split; [tauto | intros [H|(date & [] & _)]; exact H].
  - rewrite IH, pushDate_In. split.
    + intros [[H|[H1 H2]]|(date & Hin & H)].
      * tauto.
      * right. exists d. split; [left; reflexivity | tauto].
      * right. exists date. split; [right; exact Hin | exact H].
    + intros [H|(date & [->|Hin] & H)].
      * tauto.
      * left. right. exact H.
      * right. exists date. tauto.
Qed.

Lemma pushDates_NoDup dates acc :
  NoDup acc -> NoDup (pushDates tza start end_ dates acc).
Proof.
  unfold pushDates. revert acc.
  induction dates as [|d r IH]; intros acc H; cbn [fold_left]; [exact H|].
  apply IH, pushDate_NoDup, H.
Qed.

(** What one passage of one month adds. *)
Lemma passageStep_In week day year month acc acc' s :
  passageStep tza start end_ week day year month acc = Some acc' ->
  (In s acc' <->
   In s acc \/
   exists w d dates date,
     week = Some w /\ day = Some d /\
     getNthWeekdayOfMonth tza year month w d = Some dates /\
     In date dates /\ start <= date <= end_ /\ s = formatDate tza date).
Proof.
  unfold passageStep. destruct week as [w|]; [destruct day as [d|]|].
  - destruct (getNthWeekdayOfMonth tza year month w d) as [dates|] eqn:E;
      [|discriminate].
    intros H. injection H as <-. rewrite pushDates_In. split.
    + intros [H|(date & Hin & Hr & Hs)]; [tauto|].
      right. exists w, d, dates, date. tauto.
    + intros [H|(w' & d' & dates' & date & Hw & Hd & Hg & Hin & Hr)]; [tauto|].
      injection Hw as <-. injection Hd as <-.
      rewrite E in Hg. injection Hg as <-. right. exists date. tauto.
  - intros H. injection H as <-. split; [tauto|].
    intros [H|(w' & d' & _ & _ & _ & Hd & _)]; [exact H | discriminate].
  - intros H. injection H as <-. split; [tauto|].
    intros [H|(w' & d' & _ & _ & Hw & _)]; [exact H | discriminate].
Qed.

Lemma passageStep_NoDup week day year month acc acc' :
  passageStep tza start end_ week day year month acc = Some acc' ->
  NoDup acc -> NoDup acc'.
Proof.
  unfold passageStep. destruct week as [w|]; [destruct day as [d|]|].
  - destruct (getNthWeekdayOfMonth tza year month w d); [|discriminate].
    intros H. injection H as <-. apply pushDates_NoDup.
  - intros H. injection H as <-. exact (fun x => x).
  - intros H. injection H as <-. exact (fun x => x).
Qed.

Lemma monthLoop_sound fuel cfg current acc l :
  monthLoop tza start end_ fuel cfg current acc = Some l ->
  NoDup acc -> (forall s, In s acc -> allowedString tza start end_ cfg s) ->
  NoDup l /\ forall s, In s l -> allowedString tza start end_ cfg s.
Proof.
  revert current acc. induction fuel as [|f IH]; intros current acc;
    cbn [monthLoop]; [discriminate|].
  destruct (current <=? end_).
  2:{ intros H. injection H as <-. tauto. }
  destruct (passageStep tza start end_ (passage1_week cfg) (passage1_day cfg)
              (getFullYear tza current) (getMonth tza current) acc)
    as [a1|] eqn:E1; [|discriminate].
  destruct (passageStep tza start end_ (passage2_week cfg) (passage2_day cfg)
              (getFullYear tza current) (getMonth tza current) a1)
    as [a2|] eqn:E2; [|discriminate].
  intros H Hnd Hacc. apply (IH _ _ H).
  - eapply passageStep_NoDup; [exact E2|].
    eapply passageStep_NoDup; [exact E1 | exact Hnd].
  - intros s Hs.
    apply (passageStep_In _ _ _ _ _ _ s E2) in Hs.
    destruct Hs as [Hs|(w & d & dates & date & Hw & Hd & Hg & Hin & Hr & ->)].
    + apply (passageStep_In _ _ _ _ _ _ s E1) in Hs.
      destruct Hs as [Hs|(w & d & dates & date & Hw & Hd & Hg & Hin & Hr & ->)];
        [apply Hacc, Hs|].
      exists date. split; [|tauto].
      exists (getFullYear tza current), (getMonth tza current), w, d, dates.
      split; [apply getMonth_range|]. split; [left; tauto | tauto].
    + exists date. split; [|tauto].
      exists (getFullYear tza current), (getMonth tza current), w, d, dates.
      split; [apply getMonth_range|]. split; [right; tauto | tauto].
Qed.

End Loop.

Section LoopComplete.
Variable tza : Z.
Variables start end_ : Z.

Lemma passageStep_total week day year month acc :
  (forall w d, week = Some w -> day = Some d -> 0 <= w <= 5 /\ 0 <= d <= 6) ->
  0 <= month <= 11 ->
  exists acc', passageStep tza start end_ week day year month acc = Some acc'.
Proof.
  intros Hv Hm. unfold passageStep.
  destruct week as [w|]; [destruct day as [d|]|]; try (eexists; reflexivity).
  destruct (Hv w d eq_refl eq_refl) as [Hw Hd].
  destruct (getNth_in_month tza year month w d Hm Hw Hd) as (dates & -> & _).
  eexists; reflexivity.
Qed.

Lemma monthLoop_complete fuel cfg current acc l :
  monthLoop tza start end_ fuel cfg current acc = Some l ->
  getDate tza current <= 28 ->
  TimeWithinDay (LocalTime tza current) <= TimeWithinDay (LocalTime tza end_) ->
  (current = start \/ getDate tza current = 1) ->
  (forall s, In s acc -> In s l) /\
  forall year month w d dates j,
    0 <= month <= 11 -> passageOf cfg w d ->
    getNthWeekdayOfMonth tza year month w d = Some dates ->
    0 <= j < DaysInMonth (fullYear year) month ->
    In (midnight tza (firstDay year month + j)) dates ->
    start <= midnight tza (firstDay year month + j) <= end_ ->
    monthStart tza current <= firstDay year month + j ->
    In (formatDate tza (midnight tza (firstDay year month + j))) l.
Proof.
  revert current acc. induction fuel as [|f IH]; intros current acc;
    cbn [monthLoop]; [discriminate|].
  destruct (Z.leb_spec current end_) as [Hle|Hgt].
  - destruct (passageStep tza start end_ (passage1_week cfg) (passage1_day cfg)
                (getFullYear tza current) (getMonth tza current) acc)
      as [a1|] eqn:E1; [|discriminate].
    destruct (passageStep tza start end_ (passage2_week cfg) (passage2_day cfg)
                (getFullYear tza current) (getMonth tza current) a1)
      as [a2|] eqn:E2; [|discriminate].
    intros H Hdd Htod Hor.
    destruct (next_month tza current Hdd) as (_ & Hn2 & Hn3 & Hn4).
    cbv zeta in Hn2, Hn3, Hn4.
    destruct (IH _ _ H ltac:(lia) ltac:(rewrite Hn4; exact Htod) (or_intror Hn3))
      as [IHa IHc].
    assert (Hmono : forall s, In s a1 -> In s l).
    { intros s Hs. apply IHa. apply (passageStep_In _ _ _ _ _ _ _ _ _ s E2).
      left. exact Hs. }
    split.
    + intros s Hs. apply Hmono. apply (passageStep_In _ _ _ _ _ _ _ _ _ s E1).
      left. exact Hs.
    + intros year month w d dates j Hm Hp Hg Hj Hin Hr Hge.
      destruct (Z.lt_ge_cases (firstDay year month + j)
                  (monthStart tza current + monthLength tza current)) as [Hlt|Hge2].
      * destruct (civil_of_month_day (fullYear year) month j Hm Hj) as (A1 & A2 & _).
        destruct (civil_of_month_day (getFullYear tza current) (getMonth tza current)
                    (firstDay year month + j - monthStart tza current)
                    (getMonth_range tza current)
                    ltac:(unfold monthLength in Hlt; lia)) as (B1 & B2 & _).
        replace (MakeDay (getFullYear tza current) (getMonth tza current) 1
                 + (firstDay year month + j - monthStart tza current))
          with (MakeDay (fullYear year) month 1 + j) in B1, B2
          by (unfold monthStart, firstDay; lia).
        rewrite A1 in B1. rewrite A2 in B2.
        rewrite <- getNth_fullYear, B1, B2 in Hg.
        destruct Hp as [[P1 P2]|[P1 P2]].
        -- apply Hmono. apply (passageStep_In _ _ _ _ _ _ _ _ _ _ E1). right.
           exists w, d, dates, (midnight tza (firstDay year month + j)). tauto.
        -- apply IHa. apply (passageStep_In _ _ _ _ _ _ _ _ _ _ E2). right.
           exists w, d, dates, (midnight tza (firstDay year month + j)). tauto.
      * apply (IHc year month w d dates j); try assumption.
        rewrite Hn2. exact Hge2.
  - intros H Hdd Htod Hor. injection H as <-. split; [tauto|].
    intros year month w d dates j Hm Hp Hg Hj Hin Hr Hge. exfalso.
    destruct Hor as [->|Hone]; [lia|].
    pose proof (local_decomposition tza current) as Hcur. rewrite Hone in Hcur.
    pose proof (time_split (LocalTime tza end_)) as Hend.
    pose proof (TimeWithinDay_range (LocalTime tza end_)) as R1.
    pose proof (TimeWithinDay_range (LocalTime tza current)) as R2.
    revert Hcur Hend R1 R2 Htod Hr Hge Hgt.
    generalize (TimeWithinDay (LocalTime tza end_)) (TimeWithinDay (LocalTime tza current))
               (Day (LocalTime tza end_)) (monthStart tza current)
               (firstDay year month + j).
    unfold midnight, UTC, LocalTime, msPerDay. intros. lia.
Qed.

Lemma fuel_base (e V dd tod : Z) :
  1 <= dd ->
  e - UTC tza (V * msPerDay + tod) < Z.of_nat 0 * (28 * msPerDay) ->
  UTC tza ((V + dd - 1) * msPerDay + tod) <= e -> False.
Proof. unfold UTC, msPerDay. lia. Qed.

Lemma fuel_step (e V len tod : Z) (f : nat) :
  28 <= len ->
  e - UTC tza (V * msPerDay + tod) < Z.of_nat (S f) * (28 * msPerDay) ->
  e - UTC tza ((V + len) * msPerDay + tod) < Z.of_nat f * (28 * msPerDay).
Proof. unfold UTC, msPerDay. lia. Qed.

Lemma monthLoop_unfold fuel cfg current acc :
  monthLoop tza start end_ (S fuel) cfg current acc =
  if current <=? end_ then
    match passageStep tza start end_ (passage1_week cfg) (passage1_day cfg)
            (getFullYear tza current) (getMonth tza current) acc with
    | Some a1 =>
        match passageStep tza start end_ (passage2_week cfg) (passage2_day cfg)
                (getFullYear tza current) (getMonth tza current) a1 with
        | Some a2 =>
            monthLoop tza start end_ fuel cfg
              (setDate tza (setMonth tza current (getMonth tza current + 1)) 1) a2
        | None => None
        end
    | None => None
    end
  else Some acc.
Proof. reflexivity. Qed.

Lemma monthLoop_total f cfg current acc :
  validPassages cfg ->
  getDate tza current <= 28 ->
  end_ - UTC tza (monthStart tza current * msPerDay
                  + TimeWithinDay (LocalTime tza current))
    < Z.of_nat f * (28 * msPerDay) ->
  exists l, monthLoop tza start end_ (S f) cfg current acc = Some l.
Proof.
  intros Hv. revert current acc. induction f as [|f IH]; intros current acc Hdd Hb.
  - rewrite monthLoop_unfold.
    destruct (Z.leb_spec current end_) as [Hle|Hgt];
      [|eexists; reflexivity].
    exfalso. pose proof (local_decomposition tza current) as Hcur.
    destruct (day_of_local_date tza current) as [_ [Hd1 _]].
    rewrite Hcur in Hle.
    exact (fuel_base _ _ _ _ Hd1 Hb Hle).
  - rewrite monthLoop_unfold.
    destruct (Z.leb_spec current end_) as [Hle|Hgt]; [|eexists; reflexivity].
    destruct (passageStep_total (passage1_week cfg) (passage1_day cfg)
                (getFullYear tza current) (getMonth tza current) acc) as [a1 ->].
    { intros w d Hw Hd. apply Hv. left. tauto. }
    { apply getMonth_range. }
    destruct (passageStep_total (passage2_week cfg) (passage2_day cfg)
                (getFullYear tza current) (getMonth tza current) a1) as [a2 ->].
    { intros w d Hw Hd. apply Hv. right. tauto. }
    { apply getMonth_range. }
    destruct (next_month tza current Hdd) as (Hn1 & Hn2 & Hn3 & Hn4).
    cbv zeta in Hn1, Hn2, Hn3, Hn4.
    apply IH; [rewrite Hn3; lia|].
    rewrite Hn2, Hn4.
    apply fuel_step; [|exact Hb].
    apply DaysInMonth_bounds, getMonth_range.
Qed.

End LoopComplete.

Lemma fuel_initial tza (s e V dd tod : Z) :
  1 <= dd <= 28 ->
  s = UTC tza ((V + dd - 1) * msPerDay + tod) ->
  e - UTC tza (V * msPerDay + tod)
    < Z.of_nat (Z.to_nat ((e - s) / (28 * msPerDay) + 2)) * (28 * msPerDay).
Proof. unfold UTC, msPerDay. intros Hdd ->. lia. Qed.

Lemma start_month_before tza (s D0 tod0 Dp : Z) :
  0 <= tod0 ->
  LocalTime tza s = D0 * msPerDay + tod0 ->
  s <= midnight tza Dp -> D0 <= Dp.
Proof. unfold LocalTime, midnight, UTC, msPerDay. lia. Qed.

(** What the loop over the months collects, in terms of instants: the
    passage dates whose local midnight lies between the instants the two
    bounds denote. *)
Lemma allowedDates_between rt st q lo hi start end_ :
  truthyVal (startDate q) = Some lo ->
  truthyVal (endDate q) = Some hi ->
  DateParse rt lo = JS.Int start ->
  DateParse rt hi = JS.Int end_ ->
  TimeWithinDay (LocalTime (LocalTZA rt) start)
    <= TimeWithinDay (LocalTime (LocalTZA rt) end_) ->
  getDate (LocalTZA rt) start <= 28 ->
  (forall cfg, resolvePassage st q = Some cfg -> validPassages cfg) ->
  exists allowed,
    availableDates rt st q =
      Responded 200
        [("ok", JAtom (JBool true));
         ("fullDates", JStrings (fullDatesOf st q lo hi));
         ("allowedDates", match allowed with
                          | [] => JAtom JNull
                          | _ => JStrings allowed
                          end)] /\
    NoDup allowed /\
    forall s,
      In s allowed <->
      exists cfg date,
        resolvePassage st q = Some cfg /\
        isPassageDate (LocalTZA rt) cfg date /\
        start <= date <= end_ /\
        s = formatDate (LocalTZA rt) date.
Proof.
  intros Hlo Hhi Hs He Htod Hdd Hv.
  unfold availableDates. rewrite Hlo, Hhi.
  unfold allowedDatesOf. rewrite Hs, He.
  destruct (resolvePassage st q) as [cfg|] eqn:R.
  2:{ exists []. split; [reflexivity|]. split; [constructor|].
      intros s. split; [intros [] | intros (cfg & _ & H & _); discriminate]. }
  specialize (Hv cfg eq_refl).
  set (tza := LocalTZA rt) in *.
  destruct (day_of_local_date tza start) as [HD0 Hd1].
  pose proof (local_decomposition tza start) as Hdec.
  destruct (monthLoop_total tza start end_
              (Z.to_nat ((end_ - start) / (28 * msPerDay) + 2)) cfg start [] Hv Hdd)
    as [l Hl].
  { apply (fuel_initial tza start end_ (monthStart tza start) (getDate tza start));
      [lia | exact Hdec]. }
  unfold monthFuel. rewrite Hl.
  destruct (monthLoop_sound tza start end_ _ cfg start [] l Hl)
    as [Hnd Hsound]; [constructor | intros s [] |].
  destruct (monthLoop_complete tza start end_ _ cfg start [] l Hl Hdd Htod
              (or_introl eq_refl)) as [_ Hcomplete].
  exists l. split; [reflexivity|]. split; [exact Hnd|].
  intros s. split.
  - intros Hin. destruct (Hsound s Hin) as (date & Hp & Hr & ->).
    exists cfg, date. tauto.
  - intros (cfg' & date & Hc & (year & month & w & d & dates & Hm & Hp & Hg & Hin)
            & Hr & ->).
    injection Hc as <-.
    destruct (Hv w d Hp) as [Hw Hwd].
    destruct (getNth_in_month tza year month w d Hm Hw Hwd) as (dates' & Hg' & Hall).
    rewrite Hg in Hg'. injection Hg' as <-.
    destruct (Hall date Hin) as (j & Hj & ->).
    apply (Hcomplete year month w d dates j); try assumption.
    pose proof (TimeWithinDay_range (LocalTime tza start)) as Rs.
    pose proof (start_month_before tza start (Day (LocalTime tza start))
                  (TimeWithinDay (LocalTime tza start)) (firstDay year month + j)
                  ltac:(lia) (time_split _) ltac:(lia)) as Hb.
    unfold monthStart. lia.
Qed.

(** C4, as amended.  On a server whose local time is UTC, for a query whose
    [startDate] and [endDate] are date-only texts (which read as midnight
    UTC of their day) of years inside the range of [Date], [startDate]
    being on a day of the month no later than the 28th, and for passages
    with week numbers 0..5 and week days 0..6: the handler answers, and the
    list [allowed] it computes has no duplicate and holds exactly the
    formatted dates that a passage of the resolved configuration (the
    service's when it has one, else the enabled city's) yields for some
    month and that lie between [startDate] and [endDate], both included.
    [allowedDates] is that list when it is not empty and null when it is
    empty: when no configuration is resolved, and also when one is
    resolved and yields no date between the two bounds. *)
Theorem allowed_dates_characterised rt st q lo hi start end_ :
  LocalTZA rt = 0 ->
  truthyVal (startDate q) = Some lo ->
  truthyVal (endDate q) = Some hi ->
  DateParse rt lo = JS.Int start ->
  DateParse rt hi = JS.Int end_ ->
  start mod msPerDay = 0 -> end_ mod msPerDay = 0 ->
  dateYear (getFullYear 0 start) -> dateYear (getFullYear 0 end_) ->
  getDate 0 start <= 28 ->
  (forall cfg, resolvePassage st q = Some cfg -> validPassages cfg) ->
  exists allowed,
    availableDates rt st q =
      Responded 200
        [("ok", JAtom (JBool true));
         ("fullDates", JStrings (fullDatesOf st q lo hi));
         ("allowedDates", match allowed with
                          | [] => JAtom JNull
                          | _ => JStrings allowed
                          end)] /\
    NoDup allowed /\
    (resolvePassage st q = None -> allowed = []) /\
    forall s,
      In s allowed <->
      exists cfg date,
        resolvePassage st q = Some cfg /\
        isPassageDate 0 cfg date /\
        start <= date <= end_ /\
        s = formatDate 0 date.
Proof.
  intros Hz Hlo Hhi Hs He Hsm Hem _ _ Hdd Hv.
  destruct (allowedDates_between rt st q lo hi start end_ Hlo Hhi Hs He)
    as (allowed & Ha & Hnd & Hin).
  - rewrite Hz. unfold LocalTime, TimeWithinDay. rewrite !Z.add_0_r, Hsm, Hem. lia.
  - rewrite Hz. exact Hdd.
  - exact Hv.
  - rewrite Hz in Hin. exists allowed.
    split; [exact Ha|]. split; [exact Hnd|]. split; [|exact Hin].
    intros Hn. destruct allowed as [|s l]; [reflexivity|]. exfalso.
    destruct (proj1 (Hin s) (or_introl eq_refl)) as (cfg & _ & Hc & _).
    rewrite Hn in Hc. discriminate.
Qed.

(* ================================================================== *)
(** * The properties at work on sample data *)

Lemma webhook_always_acknowledges_witness :
  stripe (Sample.rt Sample.noSession) = Some Sample.noSession /\
  truthyVal (stripeWebhookSecret (Sample.rt Sample.noSession)) = Some "whsec_1" /\
  acknowledged (snd (webhook (Sample.rt Sample.noSession) Sample.fullDay
                             (Some (Sample.completed Sample.newSession)))).
Proof.
  split; [reflexivity|]. split; [reflexivity|].
  apply (webhook_always_acknowledges (Sample.rt Sample.noSession) Sample.fullDay
           (Sample.completed Sample.newSession) Sample.noSession "whsec_1");
    reflexivity.
Defined.

(** C1 as stated fails twice.  A confirmation that names an existing booking
    is carried out without any look at the capacity: here the day is full
    (one paid booking, capacity one), and the webhook still marks booking 2
    paid and pending and mails a confirmation, leaving two paid bookings on
    the day.  And when the verification call finds the day full it sends no
    mail at all. *)
Lemma confirmation_without_capacity_check :
  let rt := Sample.rt (fun _ => Some Sample.newSession) in
  let st := Sample.fullDay in
  resolveCapacity st (Some "cleaning") = (JS.Int 1, true) /\
  paidCount st true "2025-06-18" (Some "cleaning") = 1 /\
  (let st' := fst (webhook rt st (Some (Sample.completed (Sample.existingSession "2")))) in
   option_map (fun b => (status b, payment_status b)) (getBookingById st' (JS.Int 2))
     = Some ("pending", Some "paid") /\
   paidCount st' true "2025-06-18" (Some "cleaning") = 2 /\
   map subject (outbox st') = ["✅ RÉSERVATION CONFIRMÉE – Ada – 2025-06-18 à 11:00"]) /\
  (snd (verifyPayment rt st (Some "cs_2")) =
     Responded 200
       [("ok", JAtom (JBool false));
        ("error", JAtom (JStr "Date complète, réservation non créée"));
        ("details", JAtom (JStr
           "La date sélectionnée est complète. Veuillez contacter le support pour un remboursement."))] /\
   outbox (fst (verifyPayment rt st (Some "cs_2"))) = []).
Proof. vm_compute. repeat split; reflexivity. Qed.

Lemma confirmation_rechecks_capacity_witness :
  let rt := Sample.rt (fun _ => Some Sample.newSession) in
  let st := Sample.fullDay in
  let alert :=
    mkEmail (Some "ops@kbl.example") (Some "ops@kbl.example") (Some "bob@example.org")
            "⚠️ Réservation annulée - Date complète"
            "La réservation de Bob pour le 2025-06-18 n'a pas pu être créée car la date est complète. Le paiement sera remboursé." in
  webhook rt st (Some (mkEvent "checkout.session.completed" Sample.newSession)) =
    (trySendMail rt st alert,
     Responded 200 (receivedError "Date complète, réservation non créée"))
  /\ outbox (trySendMail rt st alert) = [alert]
  /\ snd (verifyPayment rt st (Some "cs_2")) =
       Responded 200
         [("ok", JAtom (JBool false));
          ("error", JAtom (JStr "Date complète, réservation non créée"));
          ("details", JAtom (JStr
             "La date sélectionnée est complète. Veuillez contacter le support pour un remboursement."))].
Proof.
  cbv zeta.
  destruct (confirmation_rechecks_capacity
              (Sample.rt (fun _ => Some Sample.newSession)) Sample.fullDay
              Sample.newSession (Sample.newBookingMetadata "2025-06-18" None)
              "Bob" "2025-06-18" 1 true (fun _ => Some Sample.newSession)
              "whsec_1" "cs_2")
    as [(Hw & _ & Ho) Hv];
    try reflexivity.
  split; [exact Hw|]. split.
  - apply Ho; reflexivity.
  - rewrite Hv; reflexivity.
Defined.

(** C2 fails on the webhook: delivered twice for the session of a booking
    that is already pending and paid, it answers 200 both times, leaves the
    bookings as they are, and mails the confirmation both times. *)
Theorem webhook_repeats_confirmation_mail :
  let rt := Sample.rt Sample.noSession in
  let event := Some (Sample.completed (Sample.existingSession "1")) in
  let first := webhook rt Sample.confirmed event in
  let second := webhook rt (fst first) event in
  option_map (fun b => (status b, payment_status b))
             (getBookingById Sample.confirmed (JS.Int 1)) = Some ("pending", Some "paid") /\
  snd first = Responded 200 received /\
  snd second = Responded 200 received /\
  bookings (fst second) = bookings (fst first) /\
  List.length (outbox (fst first)) = 1%nat /\
  List.length (outbox (fst second)) = 2%nat /\
  map subject (outbox (fst second)) =
    [ "✅ RÉSERVATION CONFIRMÉE – Ada – 2025-06-18 à 10:00";
      "✅ RÉSERVATION CONFIRMÉE – Ada – 2025-06-18 à 10:00" ].
Proof. vm_compute. repeat split; reflexivity. Qed.

(** C3 as stated fails for a capacity of zero: no booking is needed for the
    count to reach it, yet only dates that have a paid booking are listed. *)
Lemma full_dates_miss_zero_capacity :
  let q := mkDatesQuery (Some "2025-06-01") (Some "2025-06-30") (Some "Lyon")
                        (Some "cleaning") in
  resolveCapacity Sample.closedService (q_serviceType q) = (JS.Int 0, true) /\
  inRange "2025-06-01" "2025-06-30" "2025-06-10" = true /\
  JS.ge (JS.Int (paidCount Sample.closedService true "2025-06-10" (q_serviceType q)))
        (JS.Int 0) = true /\
  availableDates (Sample.rt Sample.noSession) Sample.closedService q =
    Responded 200 [("ok", JAtom (JBool true)); ("fullDates", JStrings []);
                   ("allowedDates", JStrings ["2025-06-18"])].
Proof. vm_compute. repeat split; reflexivity. Qed.

Lemma full_dates_characterised_witness :
  let q := mkDatesQuery (Some "2025-06-01") (Some "2025-06-30") (Some "Lyon")
                        (Some "cleaning") in
  isoDateText "2025-06-01" = true /\ isoDateText "2025-06-30" = true /\
  (In "2025-06-18" (fullDatesOf Sample.fullDay q "2025-06-01" "2025-06-30") <->
   String.leb "2025-06-01" "2025-06-18" = true /\
   String.leb "2025-06-18" "2025-06-30" = true /\
   1 <= paidCount Sample.fullDay true "2025-06-18" (q_serviceType q) /\
   JS.ge (JS.Int (paidCount Sample.fullDay true "2025-06-18" (q_serviceType q)))
         (JS.Int 1) = true) /\
  (forall body,
     availableDates (Sample.rt Sample.noSession) Sample.fullDay q = Responded 200 body ->
     exists fullDates,
       In ("fullDates", JStrings fullDates) body /\
       forall d, In d fullDates
                 <-> In d (fullDatesOf Sample.fullDay q "2025-06-01" "2025-06-30")).
Proof.
  cbv zeta. split; [reflexivity|]. split; [reflexivity|].
  destruct (full_dates_characterised (Sample.rt Sample.noSession) Sample.fullDay
              (mkDatesQuery (Some "2025-06-01") (Some "2025-06-30") (Some "Lyon")
                            (Some "cleaning"))
              "2025-06-01" "2025-06-30" (JS.Int 1) true
              eq_refl eq_refl eq_refl eq_refl eq_refl) as [H1 H2].
  split; [exact (H1 "2025-06-18" eq_refl) | exact H2].
Defined.


Lemma last_weekday_of_month_witness :
  zoneOffset 0 /\ dateYear 2022 /\
  0 <= 1 <= 11 /\ 0 <= 1 <= 6 /\
  exists date,
    getNthWeekdayOfMonth 0 2022 1 5 1 = Some [date] /\
    validTime date /\
    getDay 0 date = 1 /\
    getMonth 0 date = 1 /\
    getFullYear 0 date = fullYear 2022 /\
    forall later,
      getFullYear 0 later = getFullYear 0 date ->
      getMonth 0 later = getMonth 0 date ->
      getDate 0 date < getDate 0 later ->
      getDay 0 later <> 1.
Proof.
  assert (Hz : zoneOffset 0) by (unfold zoneOffset, ESDate.msPerDay; lia).
  assert (Hy : dateYear 2022) by (unfold dateYear; lia).
  split; [exact Hz|]. split; [exact Hy|]. split; [lia|]. split; [lia|].
  apply (last_weekday_of_month 0 2022 1 1 Hz Hy); lia.
Defined.

(** C7 fails west of UTC.  Lyon is closed after 30 June 2025 and the request
    asks for 1 July: one hour east of UTC the message names 30/06/2025,
    five hours west of UTC it names 29/06/2025. *)
Lemma booking_after_cutoff_rejected_witness :
  let rq := Sample.request "2025-07-01" None in
  cutoff_date (Sample.lyon (Some "2025-06-30")) = Some "2025-06-30" /\
  bookingPost (Examples.rtAt 3600000) Sample.fullDay rq =
    (Sample.fullDay, Responded 400 (okFalse
       "Les réservations pour Lyon sont fermées au-delà du 30/06/2025")) /\
  bookingPost (Examples.rtAt (-18000000)) Sample.fullDay rq =
    (Sample.fullDay, Responded 400 (okFalse
       "Les réservations pour Lyon sont fermées au-delà du 29/06/2025")).
Proof.
  cbv zeta. split; [reflexivity|]. split.
  - rewrite (booking_after_cutoff_rejected (Examples.rtAt 3600000) Sample.fullDay
               (Sample.request "2025-07-01" None) "Lyon"
               (Sample.lyon (Some "2025-06-30")) "2025-06-30" "2025-07-01"
               2025 5 30 1751328000000);
      first [ reflexivity | lia | vm_compute; split; discriminate
            | vm_compute; split; reflexivity ].
  - rewrite (booking_after_cutoff_rejected (Examples.rtAt (-18000000)) Sample.fullDay
               (Sample.request "2025-07-01" None) "Lyon"
               (Sample.lyon (Some "2025-06-30")) "2025-06-30" "2025-07-01"
               2025 5 30 1751328000000);
      first [ reflexivity | lia | vm_compute; split; discriminate
            | vm_compute; split; reflexivity ].
Defined.

(** C8 as stated ties the conflict check to the time-selection flag.  Here
    the flag is off, the day is not full, and a request that sends the time
    of an existing booking is still refused by the conflict check. *)
Lemma conflict_checked_without_time_selection :
  let rt := Sample.rt Sample.noSession in
  let rq := Sample.request "2025-06-18" (Some "10:00") in
  getConfig (config Sample.confirmed) "time_selection_enabled" = Some "false" /\
  JS.ge (JS.Int (paidCount Sample.confirmed false "2025-06-18" (rq_serviceType rq)))
        (fst (resolveCapacity Sample.confirmed (rq_serviceType rq))) = false /\
  hasConflict Sample.confirmed "2025-06-18" (rq_preferredTime rq) = true /\
  bookingPost rt Sample.confirmed rq =
    (Sample.confirmed, Responded 409 (okFalse "Cette date et heure sont déjà réservées")).
Proof. vm_compute. repeat split; reflexivity. Qed.

Lemma booking_conflict_rejected_witness :
  exists body,
    bookingPost (Sample.rt Sample.noSession) Sample.confirmed
                (Sample.request "2025-06-18" (Some "10:00"))
      = (Sample.confirmed, Responded 409 body).
Proof.
  apply (booking_conflict_rejected (Sample.rt Sample.noSession) Sample.confirmed
           (Sample.request "2025-06-18" (Some "10:00")) "2025-06-18" "10:00"
           (Sample.booking 1 "2025-06-18" "10:00" "cleaning" "pending" "paid"));
    reflexivity.
Defined.

(** C10 fails on the code: with time selection off and a booking already
    stored at the default time of the day, a second request without a time
    is answered 500, not 409.  The insert is given eighteen values for
    twenty placeholders and stops at the binding, before SQLite could see
    the duplicate. *)
Theorem second_booking_without_time :
  let rt := Sample.rt Sample.noSession in
  let rq := Sample.request "2025-06-20" None in
  getConfig (config Sample.defaultTime) "time_selection_enabled" = Some "false" /\
  map slot (bookings Sample.defaultTime) = [("2025-06-20", "09:00")] /\
  nth 9 (unpaidBookingParams rt rq) BNull = BText "09:00" /\
  List.length (unpaidBookingParams rt rq) = 18%nat /\
  insertBooking Sample.defaultTime (unpaidBookingParams rt rq)
    = inl (RangeError "Too few parameter values were provided") /\
  bookingPost rt Sample.defaultTime rq =
    (Sample.defaultTime, Responded 500 (okFalse
       "Erreur lors de l'enregistrement de la réservation. L'email a été envoyé mais la réservation n'a pas été sauvegardée.")).
Proof. vm_compute. repeat split; reflexivity. Qed.

(** C4 as stated fails on the null case: the service restricts the dates to
    its third Wednesday, the requested range holds no such day, and
    [allowedDates] is null all the same. *)
Lemma allowed_dates_null_under_restriction :
  let q := mkDatesQuery (Some "2025-06-01") (Some "2025-06-10") (Some "Lyon")
                        (Some "cleaning") in
  resolvePassage Sample.confirmed q = Some (mkPassage (Some 3) (Some 3) None None) /\
  availableDates (Sample.rt Sample.noSession) Sample.confirmed q =
    Responded 200 [("ok", JAtom (JBool true)); ("fullDates", JStrings []);
                   ("allowedDates", JAtom JNull)].
Proof. vm_compute. split; reflexivity. Qed.

(** From a start on the 29th, 30th or 31st the loop can jump over a month:
    [setMonth] runs before [setDate(1)] and 31 February overflows into
    March.  Here the third Wednesday of February lies in the range and is
    not reported. *)
Lemma month_skipped_from_day_31 :
  let q := mkDatesQuery (Some "2025-01-31") (Some "2025-02-28") (Some "Lyon")
                        (Some "cleaning") in
  option_map (map (formatDate 0)) (getNthWeekdayOfMonth 0 2025 1 3 3)
    = Some ["2025-02-19"] /\
  inRange "2025-01-31" "2025-02-28" "2025-02-19" = true /\
  setDate 0 (setMonth 0 1738281600000 (getMonth 0 1738281600000 + 1)) 1
    = newDate 0 2025 2 1 /\
  availableDates (Sample.rt Sample.noSession) Sample.confirmed q =
    Responded 200 [("ok", JAtom (JBool true)); ("fullDates", JStrings []);
                   ("allowedDates", JAtom JNull)].
Proof. vm_compute. repeat split; reflexivity. Qed.

Lemma allowed_dates_characterised_witness :
  let rt := Sample.rt Sample.noSession in
  let q := mkDatesQuery (Some "2025-06-01") (Some "2025-07-31") (Some "Lyon")
                        (Some "cleaning") in
  exists allowed,
    availableDates rt Sample.fullDay q =
      Responded 200
        [("ok", JAtom (JBool true));
         ("fullDates", JStrings (fullDatesOf Sample.fullDay q "2025-06-01" "2025-07-31"));
         ("allowedDates", match allowed with
                          | [] => JAtom JNull
                          | _ => JStrings allowed
                          end)] /\
    NoDup allowed /\
    (resolvePassage Sample.fullDay q = None -> allowed = []) /\
    forall s,
      In s allowed <->
      exists cfg date,
        resolvePassage Sample.fullDay q = Some cfg /\
        isPassageDate 0 cfg date /\
        1748736000000 <= date <= 1753920000000 /\
        s = formatDate 0 date.
Proof.
  apply (allowed_dates_characterised (Sample.rt Sample.noSession) Sample.fullDay
           (mkDatesQuery (Some "2025-06-01") (Some "2025-07-31") (Some "Lyon")
                         (Some "cleaning"))
           "2025-06-01" "2025-07-31" 1748736000000 1753920000000);
    try reflexivity.
  - vm_compute. split; discriminate.
  - vm_compute. split; discriminate.
  - vm_compute. intros H. discriminate H.
  - intros cfg H. vm_compute in H. injection H as <-.
    intros w d [[Hw Hd]|[Hw Hd]]; cbn in Hw, Hd.
    + injection Hw as <-. injection Hd as <-. lia.
    + discriminate Hw.
Defined.

(* ================================================================== *)
(** * Further properties of the handlers *)

(** ** Decimal numerals read back by [parseInt] *)






(** ** Passage dates: every week of the month, week days out of range *)


Section EveryWeek.
Variable tza : Z.


Lemma seekWeekday_out_of_range fuel step weekday date :
  weekday < 0 \/ 6 < weekday ->
  seekWeekday tza fuel step weekday date = None.
Proof.
  intros Hw. revert date. induction fuel as [|f IH]; intros date; [reflexivity|].
  cbn [seekWeekday].
  pose proof (getDay_range tza date) as R.
  destruct (Z.eqb_spec (getDay tza date) weekday) as [E|_]; [lia|].
  apply IH.
Qed.

Lemma getNth_out_of_range year month weekNumber weekday :
  weekday < 0 \/ 6 < weekday ->
  getNthWeekdayOfMonth tza year month weekNumber weekday = None.
Proof.
  intros Hw. unfold getNthWeekdayOfMonth.
  rewrite !seekWeekday_out_of_range by exact Hw.
  destruct (weekNumber =? 0); [reflexivity|].
  destruct (weekNumber =? 5); reflexivity.
Qed.

(** X2.  A week day outside 0..6 is never met.  The search loop finds no
    date however many steps it is given, in either direction and from any
    date: the loop of the source does not end, and [getNthWeekdayOfMonth]
    yields no result for any year, month and week number. *)
Theorem weekday_out_of_range_never_found year month weekNumber weekday :
  weekday < 0 \/ 6 < weekday ->
  (forall fuel step date, seekWeekday tza fuel step weekday date = None) /\
  getNthWeekdayOfMonth tza year month weekNumber weekday = None.
Proof.
  intros Hw. split.
  - intros fuel step date. apply seekWeekday_out_of_range, Hw.
  - apply getNth_out_of_range, Hw.
Qed.

Lemma formatDate_midnight D :
  formatDate tza (midnight tza D) = formatDate 0 (midnight 0 D).
Proof.
  unfold formatDate, getFullYear, getMonth, getDate, midnight.
  rewrite !Day_local_midnight. reflexivity.
Qed.

(** X3.  The passage dates of a month, formatted as YYYY-MM-DD, do not depend
    on the time zone of the server: for a year inside the range of [Date],
    a month 0..11, a week number 0..5 and a week day 0..6, on a server whose
    offset from UTC is less than a day, the function returns valid dates,
    and their texts are those a server on UTC computes. *)
Theorem passage_dates_zone_independent year month w weekday :
  zoneOffset tza -> dateYear year ->
  0 <= month <= 11 -> 0 <= w <= 5 -> 0 <= weekday <= 6 ->
  (exists dates,
     getNthWeekdayOfMonth tza year month w weekday = Some dates /\
     Forall validTime dates) /\
  option_map (map (formatDate tza)) (getNthWeekdayOfMonth tza year month w weekday)
  = option_map (map (formatDate 0)) (getNthWeekdayOfMonth 0 year month w weekday).
Proof.
  intros Hz Hy Hm Hwk Hw.
  split; [apply getNth_valid; assumption|].
  destruct (Z.eq_dec w 0) as [->|H0]; [|destruct (Z.eq_dec w 5) as [->|H5]].
  - rewrite !getNth_every_week by assumption. cbn [option_map]. f_equal.
    rewrite !map_map. apply map_ext. intros i. apply formatDate_midnight.
  - rewrite !getNth_last by assumption. cbn [option_map map].
    rewrite formatDate_midnight. reflexivity.
  - rewrite !getNth_nth by (try assumption; lia). cbn [option_map map].
    rewrite formatDate_midnight. reflexivity.
Qed.

End EveryWeek.

(** ** A payment confirmed more than once *)

(** What the checks of the confirmation handlers read of the store. *)
Lemma resolveCapacity_ext st st' serviceType :
  config st' = config st -> services st' = services st ->
  resolveCapacity st' serviceType = resolveCapacity st serviceType.
Proof.
  intros Hc Hs. unfold resolveCapacity, getServiceByServiceId. rewrite Hc, Hs.
  reflexivity.
Qed.

Lemma paidCount_ext st st' useSvc d serviceType :
  bookings st' = bookings st ->
  paidCount st' useSvc d serviceType = paidCount st useSvc d serviceType.
Proof.
  intros Hb. unfold paidCount, countPaidBookingsByDateAndService, countPaidBookingsByDate.
  rewrite Hb. reflexivity.
Qed.

Lemma hasConflict_ext st st' d t :
  bookings st' = bookings st -> hasConflict st' d t = hasConflict st d t.
Proof.
  intros Hb. unfold hasConflict, checkBookingConflict. rewrite Hb. reflexivity.
Qed.

Lemma getBookingById_ext st st' n :
  bookings st' = bookings st -> getBookingById st' n = getBookingById st n.
Proof. intros Hb. unfold getBookingById. rewrite Hb. reflexivity. Qed.

Lemma trySendMail_cases rt st m :
  trySendMail rt st m = st \/ trySendMail rt st m = add_mail st m.
Proof.
  unfold trySendMail, sendMail.
  destruct (smtpConfigured rt); [|left; reflexivity].
  destruct (transportOk rt); [right | left]; reflexivity.
Qed.

Lemma trySendMail_config rt st m : config (trySendMail rt st m) = config st.
Proof. destruct (trySendMail_cases rt st m) as [-> | ->]; reflexivity. Qed.

Lemma trySendMail_services rt st m : services (trySendMail rt st m) = services st.
Proof. destruct (trySendMail_cases rt st m) as [-> | ->]; reflexivity. Qed.

Lemma trySendMail_seq rt st m : bookings_seq (trySendMail rt st m) = bookings_seq st.
Proof. destruct (trySendMail_cases rt st m) as [-> | ->]; reflexivity. Qed.

Lemma idIs_same n b b' : id b' = id b -> idIs n b' = idIs n b.
Proof. intros H. destruct n; cbn [idIs]; rewrite ?H; reflexivity. Qed.

Lemma paid_then_pending st pi sess n :
  bookings (updateBookingStatus (updateBookingPayment st pi sess "paid" n) "pending" n)
  = map (markPaid pi sess n) (bookings st).
Proof.
  unfold updateBookingStatus, updateBookingPayment, set_bookings. cbn [bookings].
  rewrite map_map. apply map_ext. intros b. unfold markPaid.
  destruct n as [|z]; cbn [idIs]; [reflexivity|].
  destruct (id b =? z) eqn:E; cbn [id]; rewrite E; reflexivity.
Qed.

Lemma pending_then_paid st pi sess n :
  bookings (updateBookingPayment (updateBookingStatus st "pending" n) pi sess "paid" n)
  = map (markPaid pi sess n) (bookings st).
Proof.
  unfold updateBookingStatus, updateBookingPayment, set_bookings. cbn [bookings].
  rewrite map_map. apply map_ext. intros b. unfold markPaid.
  destruct n as [|z]; cbn [idIs]; [reflexivity|].
  destruct (id b =? z) eqn:E; cbn [id]; rewrite E; reflexivity.
Qed.

Lemma markPaid_id pi sess n b : id (markPaid pi sess n b) = id b.
Proof. unfold markPaid. destruct (idIs n b); reflexivity. Qed.

Lemma markPaid_slot pi sess n b : slot (markPaid pi sess n b) = slot b.
Proof. unfold markPaid. destruct (idIs n b); reflexivity. Qed.

Lemma markPaid_idem pi sess n b :
  markPaid pi sess n (markPaid pi sess n b) = markPaid pi sess n b.
Proof.
  unfold markPaid.
  destruct n as [|z]; cbn [idIs]; [reflexivity|].
  destruct (id b =? z) eqn:E; cbn [id]; rewrite E; reflexivity.
Qed.

Lemma find_markPaid pi sess n m l :
  find (idIs m) (map (markPaid pi sess n) l)
  = option_map (markPaid pi sess n) (find (idIs m) l).
Proof.
  apply find_map_same. intros b. apply idIs_same, markPaid_id.
Qed.

Lemma markPaid_found pi sess n l b :
  find (idIs n) (map (markPaid pi sess n) l) = Some b ->
  payment_status b = Some "paid" /\ status b = "pending".
Proof.
  rewrite find_markPaid. destruct (find (idIs n) l) as [b0|] eqn:E; [|discriminate].
  cbn [option_map]. intros H. injection H as <-.
  apply find_some in E. destruct E as [_ E]. unfold markPaid. rewrite E.
  split; reflexivity.
Qed.

(** A second insert of the same twenty values meets the row of the first. *)
Lemma insertBooking_again st params st1 rowid stF :
  insertBooking st params = inr (st1, rowid) ->
  map slot (bookings stF) = map slot (bookings st1) ->
  insertBooking stF params = inl (SqliteError "SQLITE_CONSTRAINT_UNIQUE").
Proof.
  intros H Hs.
  destruct (insertBooking_inr _ _ _ _ H) as (_ & b & _ & Hb & _ & H8 & H9 & _).
  unfold insertBooking in *.
  destruct (Nat.ltb (List.length params) 20); [discriminate|].
  destruct (Nat.ltb 20 (List.length params)); [discriminate|].
  destruct (stored (nth 0 params BNull)); [|discriminate].
  destruct (stored (nth 1 params BNull)); [|discriminate].
  destruct (stored (nth 2 params BNull)); [|discriminate].
  destruct (stored (nth 3 params BNull)); [|discriminate].
  destruct (stored (nth 6 params BNull)); [|discriminate].
  destruct (stored (nth 8 params BNull)) as [pd|]; [|discriminate].
  destruct (stored (nth 9 params BNull)) as [pt|]; [|discriminate].
  injection H8 as ->. injection H9 as ->.
  replace (existsb _ (bookings stF)) with true; [reflexivity|].
  symmetry. apply existsb_exists.
  assert (Hin : In (slot b) (map slot (bookings stF))).
  { rewrite Hs, Hb, map_app. apply in_or_app. right. left. reflexivity. }
  apply in_map_iff in Hin. destruct Hin as (b' & Hsl & Hin).
  exists b'. split; [exact Hin|].
  unfold slot in Hsl. injection Hsl as -> ->. rewrite !String.eqb_refl. reflexivity.
Qed.

Lemma map_slot_markPaid pi sess n l :
  map slot (map (markPaid pi sess n) l) = map slot l.
Proof. rewrite map_map. apply map_ext. intros b. apply markPaid_slot. Qed.

Lemma webhookNotify_bookings rt st session booking bid :
  bookings (fst (webhookNotify rt st session booking bid)) = bookings st.
Proof.
  unfold webhookNotify. destruct (getBookingById st bid); [|reflexivity].
  destruct booking; cbn [fst]; [apply trySendMail_bookings | reflexivity].
Qed.

Lemma webhookNotify_config rt st session booking bid :
  config (fst (webhookNotify rt st session booking bid)) = config st.
Proof.
  unfold webhookNotify. destruct (getBookingById st bid); [|reflexivity].
  destruct booking; cbn [fst]; [apply trySendMail_config | reflexivity].
Qed.

Lemma webhookNotify_services rt st session booking bid :
  services (fst (webhookNotify rt st session booking bid)) = services st.
Proof.
  unfold webhookNotify. destruct (getBookingById st bid); [|reflexivity].
  destruct booking; cbn [fst]; [apply trySendMail_services | reflexivity].
Qed.

Lemma webhookExisting_bookings rt st session bid :
  bookings (fst (webhookExisting rt st session bid)) =
    match getBookingById st (JS.parseInt bid) with
    | Some _ => map (markPaid (truthyVal (payment_intent session)) (session_id session)
                              (JS.parseInt bid)) (bookings st)
    | None => bookings st
    end.
Proof.
  unfold webhookExisting. destruct (getBookingById st (JS.parseInt bid)); [|reflexivity].
  rewrite webhookNotify_bookings. apply paid_then_pending.
Qed.

Lemma webhookExisting_config rt st session bid :
  config (fst (webhookExisting rt st session bid)) = config st.
Proof.
  unfold webhookExisting. destruct (getBookingById st (JS.parseInt bid)); [|reflexivity].
  rewrite webhookNotify_config. reflexivity.
Qed.

Lemma webhookExisting_twice rt st session bid :
  let st' := fst (webhookExisting rt st session bid) in
  bookings (fst (webhookExisting rt st' session bid)) = bookings st'.
Proof.
  cbv zeta. rewrite (webhookExisting_bookings rt (fst _)).
  rewrite !webhookExisting_bookings. unfold getBookingById at 1.
  rewrite webhookExisting_bookings.
  destruct (getBookingById st (JS.parseInt bid)) as [b|] eqn:E.
  - rewrite find_markPaid. unfold getBookingById in E. rewrite E. cbn [option_map].
    rewrite map_map. apply map_ext. intros x. apply markPaid_idem.
  - unfold getBookingById in E. rewrite E. reflexivity.
Qed.

Lemma insertBooking_frame st params st1 rowid :
  insertBooking st params = inr (st1, rowid) ->
  config st1 = config st /\ services st1 = services st /\
  service_cities st1 = service_cities st /\ quotes st1 = quotes st /\
  audit_logs st1 = audit_logs st /\ outbox st1 = outbox st /\
  bookings_seq st1 = rowid.
Proof.
  intros E. unfold insertBooking in E.
  repeat match type of E with
  | (if ?c then _ else _) = _ => destruct c; [discriminate|]
  | match ?c with Some _ => _ | None => _ end = _ => destruct c; [|discriminate]
  end.
  injection E as <- <-. cbn. repeat split; reflexivity.
Qed.

Lemma webhookCreate_config rt st session md pd :
  config (fst (webhookCreate rt st session md pd)) = config st.
Proof.
  unfold webhookCreate.
  destruct (resolveCapacity st (bookingServiceType md)) as [cap useSvc].
  destruct (JS.ge _ cap); [apply trySendMail_config|].
  destruct (hasConflict st pd (bookingPreferredTime md)); [reflexivity|].
  destruct (insertBooking st (paidBookingParams rt session md))
    as [e | [st1 rowid]] eqn:E; [reflexivity|].
  rewrite webhookNotify_config. cbn.
  apply (insertBooking_frame _ _ _ _ E).
Qed.

Lemma webhookCreate_services rt st session md pd :
  services (fst (webhookCreate rt st session md pd)) = services st.
Proof.
  unfold webhookCreate.
  destruct (resolveCapacity st (bookingServiceType md)) as [cap useSvc].
  destruct (JS.ge _ cap); [apply trySendMail_services|].
  destruct (hasConflict st pd (bookingPreferredTime md)); [reflexivity|].
  destruct (insertBooking st (paidBookingParams rt session md))
    as [e | [st1 rowid]] eqn:E; [reflexivity|].
  rewrite webhookNotify_services. cbn.
  apply (insertBooking_frame _ _ _ _ E).
Qed.

(** The rows after a run of the create-after-payment flow: those before,
    or those of a successful insert with the new row marked paid. *)
Lemma webhookCreate_bookings rt st session md pd :
  bookings (fst (webhookCreate rt st session md pd)) = bookings st \/
  exists st1 rowid,
    insertBooking st (paidBookingParams rt session md) = inr (st1, rowid) /\
    bookings (fst (webhookCreate rt st session md pd))
      = map (markPaid (truthyVal (payment_intent session)) (session_id session)
                      (JS.Int rowid)) (bookings st1).
Proof.
  unfold webhookCreate.
  destruct (resolveCapacity st (bookingServiceType md)) as [cap useSvc].
  destruct (JS.ge _ cap); [left; apply trySendMail_bookings|].
  destruct (hasConflict st pd (bookingPreferredTime md)); [left; reflexivity|].
  destruct (insertBooking st (paidBookingParams rt session md))
    as [e | [st1 rowid]] eqn:E; [left; reflexivity|].
  right. exists st1, rowid. split; [reflexivity|].
  rewrite webhookNotify_bookings.
  rewrite (pending_then_paid (createAuditLog st1 _)). reflexivity.
Qed.

Lemma webhookCreate_no_insert rt st session md pd :
  (forall st1 rowid,
     insertBooking st (paidBookingParams rt session md) <> inr (st1, rowid)) ->
  bookings (fst (webhookCreate rt st session md pd)) = bookings st.
Proof.
  intros H. destruct (webhookCreate_bookings rt st session md pd)
    as [E | (st1 & rowid & E & _)]; [exact E|].
  destruct (H _ _ E).
Qed.

Lemma webhookCreate_twice rt st session md pd :
  let st' := fst (webhookCreate rt st session md pd) in
  bookings (fst (webhookCreate rt st' session md pd)) = bookings st'.
Proof.
  cbv zeta.
  destruct (resolveCapacity st (bookingServiceType md)) as [cap useSvc] eqn:Hcap.
  destruct (JS.ge (JS.Int (paidCount st useSvc pd (bookingServiceType md))) cap) eqn:Hge.
  { (* full: the mail leaves the tables alone, the second run is full again *)
    assert (E : webhookCreate rt st session md pd =
                (trySendMail rt st (dateFullMail rt md),
                 Responded 200 (receivedError "Date complète, réservation non créée"))).
    { unfold webhookCreate. rewrite Hcap, Hge. reflexivity. }
    rewrite E. cbn [fst].
    unfold webhookCreate.
    rewrite (resolveCapacity_ext st) by
      (apply trySendMail_config || apply trySendMail_services).
    rewrite Hcap.
    rewrite (paidCount_ext st) by apply trySendMail_bookings.
    rewrite Hge. cbn [fst]. apply trySendMail_bookings. }
  destruct (hasConflict st pd (bookingPreferredTime md)) eqn:Hx.
  { assert (E : fst (webhookCreate rt st session md pd) = st).
    { unfold webhookCreate. rewrite Hcap, Hge, Hx. reflexivity. }
    rewrite E, E. reflexivity. }
  destruct (insertBooking st (paidBookingParams rt session md))
    as [e | [st1 rowid]] eqn:Hi.
  { assert (E : fst (webhookCreate rt st session md pd) = st).
    { unfold webhookCreate. rewrite Hcap, Hge, Hx, Hi. reflexivity. }
    rewrite E, E. reflexivity. }
  destruct (webhookCreate_bookings rt st session md pd)
    as [E | (st1' & rowid' & E & Hb)].
  - exfalso. revert E. unfold webhookCreate. rewrite Hcap, Hge, Hx, Hi.
    rewrite webhookNotify_bookings, (pending_then_paid (createAuditLog st1 _)).
    cbn [createAuditLog add_audit bookings].
    destruct (insertBooking_inr _ _ _ _ Hi) as (_ & b & _ & -> & _).
    intros E. apply (f_equal (@List.length _)) in E.
    rewrite length_map, length_app in E. cbn [List.length] in E. lia.
  - apply webhookCreate_no_insert. intros st2 rowid2 E'.
    rewrite (insertBooking_again st _ st1' rowid') in E'; [discriminate | exact E |].
    rewrite Hb. apply map_slot_markPaid.
Qed.

Lemma updateQuotePayment_bookings st pi sess ps n :
  bookings (updateQuotePayment st pi sess ps n) = bookings st.
Proof. reflexivity. Qed.

(** X4.  An event delivered to the webhook a second time leaves the bookings
    table as the first delivery left it, whatever the event, in every
    column but [updated_at]: no row is added or removed, and the UPDATE
    statements that the second delivery runs again for an existing booking
    write the values that are there already, apart from that timestamp,
    which they set to the current time and the embedding leaves out. *)
Theorem webhook_redelivery_keeps_bookings rt st ev :
  bookings (fst (webhook rt (fst (webhook rt st ev)) ev))
  = bookings (fst (webhook rt st ev)).
Proof.
  assert (Hcfg : config (fst (webhook rt st ev)) = config st).
  { unfold webhook.
    repeat match goal with
    | |- config (fst (match ?c with _ => _ end)) = _ => destruct c
    | |- config (fst (if ?c then _ else _)) = _ => destruct c
    end; try reflexivity;
    first [apply webhookExisting_config | apply webhookCreate_config]. }
  unfold webhook at 1. rewrite Hcfg. clear Hcfg.
  unfold webhook.
  destruct (stripe rt); [|reflexivity].
  destruct (truthyVal (stripeWebhookSecret rt)); [|reflexivity].
  destruct ev as [event|]; [|reflexivity].
  destruct (String.eqb (event_type event) "checkout.session.completed"); [|reflexivity].
  destruct (negb (livemode (event_object event)) && _); [reflexivity|].
  destruct (metadata (event_object event)) as [md|]; [|reflexivity].
  destruct (opt_eqb (md_type md) "booking").
  - destruct (truthyVal (bookingId md)) as [bid|].
    + apply webhookExisting_twice.
    + destruct (truthyVal (bookingName md)); [|reflexivity].
      destruct (truthyVal (bookingPreferredDate md)) as [pd|]; [|reflexivity].
      apply webhookCreate_twice.
  - destruct (opt_eqb (md_type md) "quote" && JS.truthy (quoteId md)); [|reflexivity].
    destruct (getQuoteById st _); cbn [fst];
      destruct (getQuoteById _ _); reflexivity.
Qed.

Lemma verifyFinish_paid rt st session b n :
  payment_status b = Some "paid" ->
  fst (verifyFinish rt st session (Some b) n) = st.
Proof. intros H. unfold verifyFinish. rewrite H. reflexivity. Qed.

Lemma getBookingById_paid st pi sess n b :
  getBookingById st n = Some b ->
  exists b', getBookingById (updateBookingPayment st pi sess "paid" n) n = Some b'
             /\ payment_status b' = Some "paid".
Proof.
  unfold getBookingById, updateBookingPayment, set_bookings. cbn [bookings].
  intros H. rewrite find_map_same.
  - rewrite H. cbn [option_map]. apply find_some in H. destruct H as [_ H].
    rewrite H. eexists. split; reflexivity.
  - intros x. destruct (idIs n x) eqn:E; [|exact E].
    rewrite <- E. apply idIs_same. reflexivity.
Qed.

Lemma getBookingById_status_kept st s n b :
  getBookingById st n = Some b ->
  exists b', getBookingById (updateBookingStatus st s n) n = Some b'
             /\ payment_status b' = payment_status b.
Proof.
  unfold getBookingById, updateBookingStatus, set_bookings. cbn [bookings].
  intros H. rewrite find_map_same.
  - rewrite H. cbn [option_map]. apply find_some in H. destruct H as [_ H].
    rewrite H. eexists. split; reflexivity.
  - intros x. destruct (idIs n x) eqn:E; [|exact E].
    rewrite <- E. apply idIs_same. reflexivity.
Qed.

Lemma verifyFinish_config rt st session booking n :
  config (fst (verifyFinish rt st session booking n)) = config st.
Proof.
  unfold verifyFinish. destruct booking as [b|]; [|reflexivity].
  destruct (negb (opt_eqb (payment_status b) "paid")); [|reflexivity].
  cbn [fst]. rewrite trySendMail_config.
  destruct (String.eqb (status b) "awaiting_payment"); reflexivity.
Qed.

(** After the validation of an existing booking its row is marked paid. *)
Lemma verifyFinish_marks_paid rt st session b n :
  getBookingById st n = Some b ->
  exists b', getBookingById (fst (verifyFinish rt st session (Some b) n)) n = Some b'
             /\ payment_status b' = Some "paid".
Proof.
  intros H. unfold verifyFinish.
  destruct (opt_eqb (payment_status b) "paid") eqn:P; cbn [negb fst].
  - exists b. split; [exact H|].
    destruct (payment_status b) as [p|]; [|discriminate].
    cbn [opt_eqb] in P. apply String.eqb_eq in P. congruence.
  - rewrite (getBookingById_ext _ _ n (trySendMail_bookings _ _ _)).
    destruct (getBookingById_paid st (truthyVal (payment_intent session))
                (session_id session) n b H) as (b1 & H1 & P1).
    destruct (String.eqb (status b) "awaiting_payment").
    + destruct (getBookingById_status_kept _ "pending" n b1 H1) as (b2 & H2 & P2).
      exists b2. split; [exact H2 | congruence].
    + exists b1. split; assumption.
Qed.

Lemma verifyCreate_config rt st session md pd :
  config (fst (verifyCreate rt st session md pd)) = config st.
Proof.
  unfold verifyCreate.
  destruct (resolveCapacity st (bookingServiceType md)) as [cap useSvc].
  destruct (JS.ge _ cap); [reflexivity|].
  destruct (hasConflict st pd (bookingPreferredTime md)); [reflexivity|].
  destruct (insertBooking st (paidBookingParams rt session md))
    as [e | [st1 rowid]] eqn:E; [reflexivity|].
  rewrite verifyFinish_config. cbn.
  apply (insertBooking_frame _ _ _ _ E).
Qed.

(** The store after the create-after-payment flow of the verification call:
    untouched, or the inserted row marked paid, and no mail either way. *)
Lemma verifyFinish_after_insert rt st params st1 rowid session :
  insertBooking st params = inr (st1, rowid) ->
  let st3 := updateBookingPayment (updateBookingStatus st1 "pending" (JS.Int rowid))
               (truthyVal (payment_intent session)) (session_id session) "paid"
               (JS.Int rowid) in
  fst (verifyFinish rt st3 session (getBookingById st3 (JS.Int rowid)) (JS.Int rowid))
  = st3.
Proof.
  intros E st3. unfold st3.
  set (st2 := updateBookingStatus st1 "pending" (JS.Int rowid)).
  destruct (getBookingById
              (updateBookingPayment st2 (truthyVal (payment_intent session))
                 (session_id session) "paid" (JS.Int rowid)) (JS.Int rowid))
    as [b|] eqn:G; [|reflexivity].
  apply verifyFinish_paid.
  assert (F : getBookingById st2 (JS.Int rowid) <> None).
  { apply getBookingById_updateBookingStatus, (insertBooking_found _ _ _ _ E). }
  destruct (getBookingById st2 (JS.Int rowid)) as [b0|] eqn:G0; [|congruence].
  destruct (getBookingById_paid st2 (truthyVal (payment_intent session))
              (session_id session) (JS.Int rowid) b0 G0) as (b1 & H1 & P1).
  congruence.
Qed.

Lemma verifyCreate_store rt st session md pd :
  fst (verifyCreate rt st session md pd) = st \/
  exists st1 rowid,
    insertBooking st (paidBookingParams rt session md) = inr (st1, rowid) /\
    fst (verifyCreate rt st session md pd)
      = updateBookingPayment (updateBookingStatus st1 "pending" (JS.Int rowid))
          (truthyVal (payment_intent session)) (session_id session) "paid"
          (JS.Int rowid).
Proof.
  unfold verifyCreate.
  destruct (resolveCapacity st (bookingServiceType md)) as [cap useSvc].
  destruct (JS.ge _ cap); [left; reflexivity|].
  destruct (hasConflict st pd (bookingPreferredTime md)); [left; reflexivity|].
  destruct (insertBooking st (paidBookingParams rt session md))
    as [e | [st1 rowid]] eqn:E; [left; reflexivity|].
  right. exists st1, rowid. split; [reflexivity|].
  apply (verifyFinish_after_insert rt st _ st1 rowid session E).
Qed.

Lemma verifyCreate_no_insert rt st session md pd :
  (forall st1 rowid,
     insertBooking st (paidBookingParams rt session md) <> inr (st1, rowid)) ->
  fst (verifyCreate rt st session md pd) = st.
Proof.
  intros H. destruct (verifyCreate_store rt st session md pd)
    as [E | (st1 & rowid & E & _)]; [exact E|].
  destruct (H _ _ E).
Qed.

Lemma verifyCreate_twice rt st session md pd :
  let st' := fst (verifyCreate rt st session md pd) in
  fst (verifyCreate rt st' session md pd) = st'.
Proof.
  cbv zeta.
  destruct (verifyCreate_store rt st session md pd)
    as [E | (st1 & rowid & E & Hb)].
  - rewrite E, E. reflexivity.
  - apply verifyCreate_no_insert. intros st2 rowid2 E'.
    rewrite (insertBooking_again st _ st1 rowid) in E'; [discriminate | exact E |].
    rewrite Hb, pending_then_paid. apply map_slot_markPaid.
Qed.

(** X5.  The verification call is idempotent on the whole store: called
    again for the same session id, it leaves the tables, the audit log and
    the outbox as the first call left them. *)
Theorem verify_payment_idempotent rt st sid :
  fst (verifyPayment rt (fst (verifyPayment rt st sid)) sid)
  = fst (verifyPayment rt st sid).
Proof.
  assert (Hcfg : config (fst (verifyPayment rt st sid)) = config st).
  { unfold verifyPayment.
    repeat match goal with
    | |- config (fst (match ?c with _ => _ end)) = _ => destruct c
    | |- config (fst (if ?c then _ else _)) = _ => destruct c
    end; try reflexivity;
    first [apply verifyFinish_config | apply verifyCreate_config]. }
  unfold verifyPayment at 1. rewrite Hcfg. clear Hcfg.
  unfold verifyPayment.
  destruct (truthyVal sid) as [s|]; [|reflexivity].
  destruct (stripe rt) as [retrieve|]; [|reflexivity].
  destruct (retrieve s) as [session|]; [|reflexivity].
  destruct (negb (livemode session) && _); [reflexivity|].
  destruct (opt_eqb (session_payment_status session) "paid"
            || opt_eqb (session_status session) "complete"); [|reflexivity].
  destruct (truthyVal (match metadata session with
                       | Some m => bookingId m | None => None end)) as [bid|].
  - destruct (getBookingById st (JS.parseInt bid)) as [b|] eqn:G.
    + destruct (verifyFinish_marks_paid rt st session b _ G) as (b' & -> & P).
      apply verifyFinish_paid, P.
    + cbn [fst]. rewrite G. reflexivity.
  - destruct (metadata session) as [m|]; [|reflexivity].
    destruct (truthyVal (bookingName m)); [|reflexivity].
    destruct (truthyVal (bookingPreferredDate m)) as [pd|]; [|reflexivity].
    apply verifyCreate_twice.
Qed.

(** X6.  In the create-after-payment flow the verification call sends no
    mail: whether the booking is created, refused or fails to be stored,
    the outbox is the one before the call. *)
Theorem verify_create_sends_no_mail rt st session md pd :
  outbox (fst (verifyCreate rt st session md pd)) = outbox st.
Proof.
  destruct (verifyCreate_store rt st session md pd)
    as [-> | (st1 & rowid & E & ->)]; [reflexivity|].
  cbn. apply (insertBooking_frame _ _ _ _ E).
Qed.

(** ** The capacity after a confirmation *)

Lemma markPaid_old pi sess st :
  rowidsIssued st ->
  map (markPaid pi sess (JS.Int (bookings_seq st + 1))) (bookings st) = bookings st.
Proof.
  intros H. rewrite <- (map_id (bookings st)) at 2. apply map_ext_in.
  intros b Hin. unfold markPaid. cbn [idIs].
  destruct (Z.eqb_spec (id b) (bookings_seq st + 1)) as [E|_]; [|reflexivity].
  specialize (H b Hin). lia.
Qed.

Lemma filter_snoc_length {A : Type} (p : A -> bool) (l : list A) (x : A) :
  Z.of_nat (List.length (filter p (l ++ [x])))
  = Z.of_nat (List.length (filter p l)) + (if p x then 1 else 0).
Proof.
  rewrite filter_app, length_app. cbn [filter].
  destruct (p x); cbn [List.length]; lia.
Qed.

Lemma paidCount_after_insert st params st1 rowid stF pi sess useSvc d svc pd :
  rowidsIssued st ->
  insertBooking st params = inr (st1, rowid) ->
  stored (nth 8 params BNull) = Some pd ->
  bookings stF = map (markPaid pi sess (JS.Int rowid)) (bookings st1) ->
  paidCount stF useSvc d svc
    <= paidCount st useSvc d svc + (if String.eqb pd d then 1 else 0).
Proof.
  intros Hw Hi H8 Hb.
  destruct (insertBooking_inr _ _ _ _ Hi) as (-> & b & Hid & Hb1 & _ & H8' & _).
  rewrite H8 in H8'. injection H8' as ->.
  rewrite Hb1, map_app, (markPaid_old pi sess st Hw) in Hb. cbn [map] in Hb.
  unfold paidCount, countPaidBookingsByDateAndService, countPaidBookingsByDate.
  rewrite Hb.
  assert (Hd : preferred_date (markPaid pi sess (JS.Int (bookings_seq st + 1)) b)
               = preferred_date b).
  { unfold markPaid. destruct (idIs _ b); reflexivity. }
  destruct useSvc; [destruct svc as [s|]; [|destruct (String.eqb _ d); lia]|];
    rewrite filter_snoc_length, Hd;
    destruct (String.eqb (preferred_date b) d); cbn [andb];
    repeat match goal with |- context [if ?c then 1 else 0] => destruct c end; lia.
Qed.

Lemma webhookCreate_guarded rt st session md pd cap useSvc :
  resolveCapacity st (bookingServiceType md) = (cap, useSvc) ->
  bookings (fst (webhookCreate rt st session md pd)) = bookings st \/
  (JS.ge (JS.Int (paidCount st useSvc pd (bookingServiceType md))) cap = false /\
   exists st1 rowid,
     insertBooking st (paidBookingParams rt session md) = inr (st1, rowid) /\
     bookings (fst (webhookCreate rt st session md pd))
       = map (markPaid (truthyVal (payment_intent session)) (session_id session)
                       (JS.Int rowid)) (bookings st1)).
Proof.
  intros Hcap. unfold webhookCreate. rewrite Hcap.
  destruct (JS.ge _ cap); [left; apply trySendMail_bookings|].
  destruct (hasConflict st pd (bookingPreferredTime md)); [left; reflexivity|].
  destruct (insertBooking st (paidBookingParams rt session md))
    as [e | [st1 rowid]] eqn:E; [left; reflexivity|].
  right. split; [reflexivity|]. exists st1, rowid. split; [reflexivity|].
  rewrite webhookNotify_bookings.
  rewrite (pending_then_paid (createAuditLog st1 _)). reflexivity.
Qed.

Lemma verifyCreate_guarded rt st session md pd cap useSvc :
  resolveCapacity st (bookingServiceType md) = (cap, useSvc) ->
  bookings (fst (verifyCreate rt st session md pd)) = bookings st \/
  (JS.ge (JS.Int (paidCount st useSvc pd (bookingServiceType md))) cap = false /\
   exists st1 rowid,
     insertBooking st (paidBookingParams rt session md) = inr (st1, rowid) /\
     bookings (fst (verifyCreate rt st session md pd))
       = map (markPaid (truthyVal (payment_intent session)) (session_id session)
                       (JS.Int rowid)) (bookings st1)).
Proof.
  intros Hcap. unfold verifyCreate. rewrite Hcap.
  destruct (JS.ge _ cap); [left; reflexivity|].
  destruct (hasConflict st pd (bookingPreferredTime md)); [left; reflexivity|].
  destruct (insertBooking st (paidBookingParams rt session md))
    as [e | [st1 rowid]] eqn:E; [left; reflexivity|].
  right. split; [reflexivity|]. exists st1, rowid. split; [reflexivity|].
  rewrite (verifyFinish_after_insert rt st _ st1 rowid session E).
  apply pending_then_paid.
Qed.

Lemma within_capacity st stF useSvc svc pd cap d :
  (bookings stF = bookings st \/
   (JS.ge (JS.Int (paidCount st useSvc pd svc)) (JS.Int cap) = false /\
    forall d', paidCount stF useSvc d' svc
               <= paidCount st useSvc d' svc + (if String.eqb pd d' then 1 else 0))) ->
  paidCount stF useSvc d svc <= Z.max cap (paidCount st useSvc d svc).
Proof.
  intros [E | [Hge H]].
  - rewrite (paidCount_ext st stF) by exact E. lia.
  - specialize (H d). cbn [JS.ge] in Hge. apply Z.leb_gt in Hge.
    destruct (String.eqb_spec pd d) as [->|_]; lia.
Qed.

(** X7.  The create-after-payment flow of the webhook and of the verification
    call never takes a day above an integer capacity.  When no stored id
    exceeds the AUTOINCREMENT sequence, the metadata carries the date
    handed to the flow and the capacity resolves to an integer [cap], every
    day counts afterwards at most [cap] paid bookings, or as many as
    before the run.  (The capacity read in the configuration is an integer
    or NaN; the capacity of a service is an integer in the embedding, a
    number with a fraction, which the route that creates services would
    also store, being left out.) *)
Theorem create_after_payment_within_capacity rt st session md pd cap useSvc :
  rowidsIssued st ->
  bookingPreferredDate md = Some pd ->
  resolveCapacity st (bookingServiceType md) = (JS.Int cap, useSvc) ->
  forall d,
    paidCount (fst (webhookCreate rt st session md pd)) useSvc d (bookingServiceType md)
      <= Z.max cap (paidCount st useSvc d (bookingServiceType md)) /\
    paidCount (fst (verifyCreate rt st session md pd)) useSvc d (bookingServiceType md)
      <= Z.max cap (paidCount st useSvc d (bookingServiceType md)).
Proof.
  intros Hw Hpd Hcap d.
  assert (H8 : stored (nth 8 (paidBookingParams rt session md) BNull) = Some pd).
  { cbn [nth paidBookingParams]. rewrite Hpd. reflexivity. }
  split; apply (within_capacity st _ useSvc _ pd cap d).
  - destruct (webhookCreate_guarded rt st session md pd _ _ Hcap)
      as [E | (Hge & st1 & rowid & Hi & Hb)]; [left; exact E|].
    right. split; [exact Hge|]. intros d'.
    exact (paidCount_after_insert st _ st1 rowid _ _ _ useSvc d' _ pd Hw Hi H8 Hb).
  - destruct (verifyCreate_guarded rt st session md pd _ _ Hcap)
      as [E | (Hge & st1 & rowid & Hi & Hb)]; [left; exact E|].
    right. split; [exact Hge|]. intros d'.
    exact (paidCount_after_insert st _ st1 rowid _ _ _ useSvc d' _ pd Hw Hi H8 Hb).
Qed.

(** ** Test payments *)

(** X8.  While the configuration does not hold test_mode_enabled = true, a
    payment made in Stripe test mode changes nothing: the webhook leaves the
    store as it is for an event whose session has [livemode] false, and so
    does the verification call for such a session, whose answer, when it
    is a 200, carries ok: false. *)
Theorem test_payments_change_nothing rt st event sid retrieve session :
  getConfig (config st) "test_mode_enabled" <> Some "true" ->
  (livemode (event_object event) = false ->
   fst (webhook rt st (Some event)) = st) /\
  (stripe rt = Some retrieve -> retrieve sid = Some session ->
   livemode session = false ->
   fst (verifyPayment rt st (Some sid)) = st /\
   forall body, snd (verifyPayment rt st (Some sid)) = Responded 200 body ->
                In ("ok", JAtom (JBool false)) body).
Proof.
  intros Hcfg.
  assert (Hoff : opt_eqb (getConfig (config st) "test_mode_enabled") "true" = false).
  { destruct (getConfig (config st) "test_mode_enabled") as [v|]; [|reflexivity].
    cbn [opt_eqb]. apply String.eqb_neq. congruence. }
  split.
  - intros Hl. unfold webhook. rewrite Hl, Hoff. cbn [negb andb].
    destruct (stripe rt); [|reflexivity].
    destruct (truthyVal (stripeWebhookSecret rt)); [|reflexivity].
    destruct (String.eqb (event_type event) "checkout.session.completed");
      reflexivity.
  - intros Hs Hr Hl. unfold verifyPayment.
    destruct (truthyVal (Some sid)) as [s|] eqn:T.
    + apply truthyVal_Some in T. destruct T as [T _]. injection T as <-.
      rewrite Hs, Hr, Hl, Hoff. cbn [negb andb fst snd]. split; [reflexivity|].
      intros body H. injection H as <-. left. reflexivity.
    + cbn [fst snd]. split; [reflexivity | discriminate].
Qed.

(** ** What the public booking request answers *)

(** X9.  The public booking request stores nothing and never succeeds:
    whatever the request, the store is left as it is and the answer is a
    400, a 409 or a 500 with ok: false. *)
Theorem booking_request_never_stored rt st rq :
  fst (bookingPost rt st rq) = st /\
  exists code body,
    snd (bookingPost rt st rq) = Responded code body /\
    (code = 400 \/ code = 409 \/ code = 500) /\
    In ("ok", JAtom (JBool false)) body.
Proof.
  split; [apply bookingPost_store_unchanged|].
  unfold bookingPost.
  destruct (checkCity rt st rq) as [code body|] eqn:C.
  { unfold checkCity in C.
    destruct (rq_city rq) as [c|];
      [| injection C as <- <-; eexists _, _; split; [reflexivity|];
         split; [tauto | left; reflexivity]].
    destruct (checkServiceCity st c) as [row|].
    - destruct (truthyVal (cutoff_date row)); [|discriminate].
      destruct (truthyVal (rq_preferredDate rq)); [|discriminate].
      destruct (JS.gt _ _); [|discriminate].
      injection C as <- <-. eexists _, _. split; [reflexivity|].
      split; [tauto | left; reflexivity].
    - injection C as <- <-. eexists _, _. split; [reflexivity|].
      split; [tauto | left; reflexivity]. }
  match goal with |- context [if ?c then _ else _] => destruct c end.
  { eexists _, _. split; [reflexivity|]. split; [tauto | left; reflexivity]. }
  destruct (resolveCapacity st (rq_serviceType rq)) as [cap useSvc].
  destruct (JS.ge _ cap).
  { eexists _, _. split; [reflexivity|]. split; [tauto | left; reflexivity]. }
  destruct (hasConflict st _ _).
  { eexists _, _. split; [reflexivity|]. split; [tauto | left; reflexivity]. }
  rewrite bookingPost_insert_never_runs. cbn [exnCode opt_eqb].
  eexists _, _. split; [reflexivity|]. split; [tauto | left; reflexivity].
Qed.

(** X10.  A booking request for a city that has no enabled row in
    service_cities is answered 400 with the message that the city is not
    served yet, before any other check, and leaves the store as it is. *)
Theorem booking_outside_served_cities rt st rq c :
  rq_city rq = Some c ->
  (forall row, In row (service_cities st) -> city_name row = c -> enabled row = false) ->
  bookingPost rt st rq =
    (st, Responded 400 (okFalse "Nous n'intervenons pas encore dans cette ville")).
Proof.
  intros Hc Hrows. unfold bookingPost, checkCity. rewrite Hc.
  destruct (checkServiceCity st c) as [row|] eqn:E; [|reflexivity].
  exfalso. unfold checkServiceCity in E. apply find_some in E.
  destruct E as [Hin E]. apply andb_prop in E. destruct E as [E1 E2].
  apply String.eqb_eq in E1. rewrite (Hrows row Hin E1) in E2. discriminate.
Qed.

(** ** The configuration table *)

Lemma getConfig_setConfig cfg key value k :
  getConfig (setConfig cfg key value) k
  = if String.eqb key k then Some value else getConfig cfg k.
Proof.
  induction cfg as [|[k' v'] r IH]; cbn [setConfig getConfig].
  - destruct (String.eqb key k); reflexivity.
  - destruct (String.eqb_spec k' key) as [->|Hne]; cbn [getConfig].
    + destruct (String.eqb key k); reflexivity.
    + destruct (String.eqb_spec k' k) as [->|Hne2].
      * destruct (String.eqb_spec key k) as [->|_]; [congruence | reflexivity].
      * exact IH.
Qed.

Lemma keys_setConfig cfg key value :
  map fst (setConfig cfg key value)
  = match getConfig cfg key with
    | Some _ => map fst cfg
    | None => (map fst cfg ++ [key])%list
    end.
Proof.
  induction cfg as [|[k' v'] r IH]; cbn [setConfig getConfig map app fst];
    [reflexivity|].
  destruct (String.eqb k' key); cbn [map fst]; [reflexivity|].
  rewrite IH. destruct (getConfig r key); reflexivity.
Qed.

(** X11.  [setConfig] is an upsert: afterwards the key reads as the new
    value and every other key as before; an existing key keeps its place
    in the table, a new key is added at the end, and no other key
    appears or goes. *)
Theorem config_upsert cfg key value :
  (forall k, getConfig (setConfig cfg key value) k
             = if String.eqb key k then Some value else getConfig cfg k) /\
  map fst (setConfig cfg key value)
  = match getConfig cfg key with
    | Some _ => map fst cfg
    | None => (map fst cfg ++ [key])%list
    end.
Proof.
  split; [intros k; apply getConfig_setConfig | apply keys_setConfig].
Qed.

Lemma getConfig_app cfg1 cfg2 k :
  getConfig (cfg1 ++ cfg2) k
  = match getConfig cfg1 k with Some v => Some v | None => getConfig cfg2 k end.
Proof.
  induction cfg1 as [|[k' v'] r IH]; cbn [app getConfig]; [reflexivity|].
  destruct (String.eqb k' k); [reflexivity | exact IH].
Qed.

Lemma getConfig_insertConfig cfg key value k :
  getConfig (insertConfig cfg key value) k
  = match getConfig cfg k with
    | Some v => Some v
    | None => if String.eqb key k then Some value else None
    end.
Proof.
  unfold insertConfig. destruct (getConfig cfg key) as [v0|] eqn:E.
  - destruct (getConfig cfg k) eqn:F; [reflexivity|].
    destruct (String.eqb_spec key k) as [->|_]; [congruence | reflexivity].
  - rewrite getConfig_app. cbn [getConfig]. destruct (getConfig cfg k); reflexivity.
Qed.

Lemma insertConfig_defined cfg key value v :
  getConfig cfg key = Some v -> insertConfig cfg key value = cfg.
Proof. intros H. unfold insertConfig. rewrite H. reflexivity. Qed.

(** X12.  Seeding the default configuration never overwrites a value: every
    key that is set reads the same afterwards, seeding twice is seeding
    once, and a database without max_bookings_per_day gets the capacity
    25. *)
Theorem defaults_never_overwrite cfg :
  (forall k v, getConfig cfg k = Some v -> getConfig (initializeConfig cfg) k = Some v) /\
  initializeConfig (initializeConfig cfg) = initializeConfig cfg /\
  (getConfig cfg "max_bookings_per_day" = None ->
   forall st, config st = initializeConfig cfg ->
     resolveCapacity st None = (JS.Int 25, false)).
Proof.
  split; [|split].
  - intros k v H. unfold initializeConfig. rewrite !getConfig_insertConfig, H.
    reflexivity.
  - set (c := initializeConfig cfg).
    assert (D : forall k, In k ["quotes_enabled"; "max_bookings_per_day";
                                "time_selection_enabled"; "languages_enabled"] ->
                getConfig c k <> None).
    { intros k Hk. unfold c, initializeConfig. rewrite !getConfig_insertConfig.
      destruct (getConfig cfg k); [discriminate|].
      cbn [In] in Hk.
      destruct Hk as [<-|[<-|[<-|[<-|[]]]]]; cbn; discriminate. }
    clearbody c. unfold initializeConfig. cbv zeta.
    assert (S : forall k value, getConfig c k <> None -> insertConfig c k value = c).
    { intros k value H. destruct (getConfig c k) eqn:E; [|congruence].
      exact (insertConfig_defined _ _ _ _ E). }
    rewrite (S "quotes_enabled") by (apply D; cbn; tauto).
    rewrite (S "max_bookings_per_day") by (apply D; cbn; tauto).
    rewrite (S "time_selection_enabled") by (apply D; cbn; tauto).
    apply S, D; cbn; tauto.
  - intros H st Hst. unfold resolveCapacity. cbn [truthyVal JS.truthy].
    rewrite Hst. unfold initializeConfig. rewrite !getConfig_insertConfig.
    rewrite H. reflexivity.
Qed.

Lemma resolveCapacity_config st st' cfg :
  config st' = cfg -> services st' = services st ->
  getConfig cfg "max_bookings_per_day" = getConfig (config st) "max_bookings_per_day" ->
  forall serviceType, resolveCapacity st' serviceType = resolveCapacity st serviceType.
Proof.
  intros Hc Hs Hk serviceType. unfold resolveCapacity, getServiceByServiceId.
  rewrite Hc, Hs, Hk. reflexivity.
Qed.




(** ** The booking calendar of the back office *)

Lemma distinct_NoDup (ds seen : list string) : NoDup (distinct seen ds).
Proof.
  revert seen. induction ds as [|d r IH]; intros seen; cbn [distinct]; [constructor|].
  destruct (existsb (String.eqb d) seen); [apply IH|].
  constructor; [|apply IH].
  intros H. apply distinct_In in H. destruct H as [_ H]. apply H. left. reflexivity.
Qed.

Lemma groupCount_keys (ds : list string) : NoDup (map fst (groupCount ds)).
Proof.
  unfold groupCount. rewrite map_map. cbn [fst]. rewrite map_id. apply distinct_NoDup.
Qed.

Lemma mapSet_fresh m k v :
  ~ In k (map fst m) -> mapSet m k v = (m ++ [(k, v)])%list.
Proof.
  induction m as [|[k' v'] r IH]; intros H; cbn [mapSet app]; [reflexivity|].
  cbn [map fst In] in H.
  destruct (String.eqb_spec k' k) as [E|_]; [tauto|].
  rewrite IH by tauto. reflexivity.
Qed.

Lemma fold_mapSet l acc :
  NoDup (map fst (acc ++ l)) ->
  fold_left (fun m b => mapSet m (fst b) (snd b)) l acc = (acc ++ l)%list.
Proof.
  revert acc. induction l as [|[k v] r IH]; intros acc H; cbn [fold_left].
  - rewrite app_nil_r. reflexivity.
  - cbn [fst snd]. rewrite mapSet_fresh.
    + rewrite IH; rewrite <- app_assoc; [reflexivity | exact H].
    + rewrite map_app in H. cbn [map fst] in H.
      apply NoDup_remove_2 in H. intros Hin. apply H.
      apply in_or_app. left. exact Hin.
Qed.

Lemma mapGet_In m k v :
  NoDup (map fst m) -> (mapGet m k = Some v <-> In (k, v) m).
Proof.
  induction m as [|[k' v'] r IH]; intros H; cbn [mapGet In].
  - split; [discriminate | tauto].
  - cbn [map fst] in H. inversion H as [|? ? Hn Hr]; subst.
    destruct (String.eqb_spec k' k) as [->|Hne].
    + split.
      * intros E. injection E as ->. left. reflexivity.
      * intros [E|Hin]; [injection E as ->; reflexivity|].
        exfalso. apply Hn. apply in_map_iff. exists (k, v). split; [reflexivity|exact Hin].
    + rewrite (IH Hr). split; [tauto|].
      intros [E|Hin]; [injection E as -> _; congruence | exact Hin].
Qed.

Lemma mapGet_None m k :
  mapGet m k = None <-> ~ In k (map fst m).
Proof.
  induction m as [|[k' v'] r IH]; cbn [mapGet map fst In]; [tauto|].
  destruct (String.eqb_spec k' k) as [->|Hne].
  - split; [discriminate | tauto].
  - rewrite IH. tauto.
Qed.

Lemma fold_completion (paid : list (string * Z)) (formatted : list CalendarEntry) :
  (forall entry, In entry paid -> In (fst entry) (map cal_date formatted)) ->
  fold_left
    (fun formatted entry =>
       if existsb (fun b => String.eqb (cal_date b) (fst entry)) formatted
       then formatted
       else (formatted ++ [mkCalendarEntry (fst entry) 0 (snd entry)])%list)
    paid formatted = formatted.
Proof.
  induction paid as [|e r IH]; intros H; cbn [fold_left]; [reflexivity|].
  replace (existsb _ formatted) with true.
  - apply IH. intros entry Hin. apply H. right. exact Hin.
  - symmetry. apply existsb_exists.
    specialize (H e (or_introl eq_refl)). apply in_map_iff in H.
    destruct H as (b & E & Hin). exists b. split; [exact Hin|].
    rewrite E. apply String.eqb_refl.
Qed.

Lemma filter_length_le {A : Type} (p q : A -> bool) (l : list A) :
  (forall x, p x = true -> q x = true) ->
  (List.length (filter p l) <= List.length (filter q l))%nat.
Proof.
  intros H. induction l as [|a l IH]; [cbn; lia|]. cbn [filter].
  destruct (p a) eqn:P.
  - rewrite (H a P). cbn [List.length]. lia.
  - destruct (q a); cbn [List.length]; lia.
Qed.

(** The entries of the calendar, as texts. *)
Lemma adminBookingsCalendar_entries q st lo hi :
  truthyVal (cq_startDate q) = Some lo ->
  truthyVal (cq_endDate q) = Some hi ->
  let total d := Z.of_nat (List.length (filter (fun b =>
        String.eqb (preferred_date b) d && (inCalendarScope q b && notCancelled b))
        (bookings st))) in
  let paid d := Z.of_nat (List.length (filter (fun b =>
        String.eqb (preferred_date b) d
        && (inCalendarScope q b && notCancelled b && isPaid b)) (bookings st))) in
  exists entries,
    adminBookingsCalendar q st = Ok entries /\
    NoDup (map cal_date entries) /\
    (forall e, In e entries <->
       inRange lo hi (cal_date e) = true /\ 1 <= total (cal_date e) /\
       cal_count e = total (cal_date e) /\ cal_paidCount e = paid (cal_date e)) /\
    (forall e, In e entries -> 0 <= cal_paidCount e <= cal_count e).
Proof.
  intros Hlo Hhi total paid.
  set (selAll := fun b => inCalendarScope q b && notCancelled b).
  set (selPaid := fun b => inCalendarScope q b && notCancelled b && isPaid b).
  set (allRows := groupCount (map preferred_date
        (filter (fun b => inRange lo hi (preferred_date b) && selAll b) (bookings st)))).
  set (paidRows := groupCount (map preferred_date
        (filter (fun b => inRange lo hi (preferred_date b) && selPaid b) (bookings st)))).
  assert (Hsel : (let '(a, p) :=
            match truthyVal (cq_serviceType q) with
            | Some serviceType =>
                if negb (String.eqb serviceType "all") then
                  (getBookingsByDateRangeAndService st lo hi serviceType,
                   getPaidBookingsByDateRangeAndService st lo hi serviceType)
                else (getBookingsByDateRange st lo hi, getPaidBookingsByDateRange st lo hi)
            | None => (getBookingsByDateRange st lo hi, getPaidBookingsByDateRange st lo hi)
            end in a = allRows /\ p = paidRows)).
  { unfold allRows, paidRows, selAll, selPaid, inCalendarScope,
      getBookingsByDateRangeAndService, getPaidBookingsByDateRangeAndService,
      getBookingsByDateRange, getPaidBookingsByDateRange.
    destruct (truthyVal (cq_serviceType q)) as [svc|];
      [destruct (negb (String.eqb svc "all"))|];
      split; do 2 f_equal; apply filter_ext; intros b;
      rewrite <- ?Bool.andb_assoc; reflexivity. }
  unfold adminBookingsCalendar. rewrite Hlo, Hhi.
  destruct (match truthyVal (cq_serviceType q) with
            | Some serviceType => _ | None => _ end) as [a p].
  destruct Hsel as [-> ->].
  assert (Hall : forall d n, In (d, n) allRows <->
            inRange lo hi d = true /\ n = total d /\ 1 <= n).
  { intros d n. apply rangeRows_In. }
  assert (Hpaid : forall d n, In (d, n) paidRows <->
            inRange lo hi d = true /\ n = paid d /\ 1 <= n).
  { intros d n. apply rangeRows_In. }
  assert (Hle : forall d, 0 <= paid d <= total d).
  { intros d. unfold paid, total. split; [lia|]. apply inj_le, filter_length_le.
    intros b H. rewrite !Bool.andb_true_iff in *. tauto. }
  rewrite (fold_mapSet paidRows []) by apply groupCount_keys. cbn [app].
  assert (Hget : forall d, match mapGet paidRows d with Some n => n | None => 0 end
                           = if inRange lo hi d then paid d else 0).
  { intros d. destruct (mapGet paidRows d) as [n|] eqn:G.
    - apply (mapGet_In _ _ _ (groupCount_keys _)) in G. apply Hpaid in G.
      destruct G as (-> & -> & _). reflexivity.
    - destruct (inRange lo hi d) eqn:R; [|reflexivity].
      destruct (Z.eq_dec (paid d) 0) as [E|Hne]; [congruence|].
      exfalso. apply mapGet_None in G. apply G. apply in_map_iff.
      exists (d, paid d). split; [reflexivity|]. apply Hpaid.
      pose proof (Hle d). repeat split; [exact R | lia]. }
  rewrite fold_completion.
  2:{ intros [d n] Hin. cbn [fst]. rewrite map_map. cbn [cal_date].
      apply Hpaid in Hin. destruct Hin as (R & -> & Hpos).
      apply in_map_iff. exists (d, total d). split; [reflexivity|].
      apply Hall. pose proof (Hle d). repeat split; [exact R | lia]. }
  eexists. split; [reflexivity|]. split; [|split].
  - rewrite map_map. cbn [cal_date]. apply groupCount_keys.
  - intros e. rewrite in_map_iff. split.
    + intros ([d n] & <- & Hin). cbn [fst snd cal_date cal_count cal_paidCount].
      apply Hall in Hin. destruct Hin as (R & -> & Hpos).
      rewrite Hget, R. tauto.
    + intros (R & Hpos & Hc & Hp). exists (cal_date e, total (cal_date e)).
      split.
      * cbn [fst snd]. rewrite Hget, R. destruct e as [d c pc].
        cbn [cal_date cal_count cal_paidCount] in *. congruence.
      * apply Hall. tauto.
  - intros e Hin. apply in_map_iff in Hin. destruct Hin as ([d n] & <- & Hin).
    cbn [fst snd cal_count cal_paidCount]. apply Hall in Hin.
    destruct Hin as (R & -> & Hpos). rewrite Hget, R. apply Hle.
Qed.

(** X14.  For a calendar query whose two dates are written YYYY-MM-DD, the
    answer has no date twice and, among the dates so written, one entry
    for each date between the two (inclusive) that has a booking which is
    not cancelled (of the service asked for, when one other than "all"
    is), and no other: the count of the entry is the number of those
    bookings, its paid count the number of the paid ones among them, which
    is at most the count. *)
Theorem calendar_entries q st lo hi :
  truthyVal (cq_startDate q) = Some lo ->
  truthyVal (cq_endDate q) = Some hi ->
  isoDateText lo = true -> isoDateText hi = true ->
  let total d := Z.of_nat (List.length (filter (fun b =>
        String.eqb (preferred_date b) d && (inCalendarScope q b && notCancelled b))
        (bookings st))) in
  let paid d := Z.of_nat (List.length (filter (fun b =>
        String.eqb (preferred_date b) d
        && (inCalendarScope q b && notCancelled b && isPaid b)) (bookings st))) in
  exists entries,
    adminBookingsCalendar q st = Ok entries /\
    NoDup (map cal_date entries) /\
    (forall e,
       isoDateText (cal_date e) = true ->
       (In e entries <->
        String.leb lo (cal_date e) = true /\ String.leb (cal_date e) hi = true /\
        1 <= total (cal_date e) /\
        cal_count e = total (cal_date e) /\ cal_paidCount e = paid (cal_date e))) /\
    (forall e, In e entries -> 0 <= cal_paidCount e <= cal_count e).
Proof.
  intros Hlo Hhi _ _ total paid.
  pose proof (adminBookingsCalendar_entries q st lo hi Hlo Hhi) as H.
  cbv zeta in H. destruct H as (entries & H1 & H2 & H3 & H4).
  exists entries. split; [exact H1|]. split; [exact H2|]. split; [|exact H4].
  intros e _. rewrite (H3 e). unfold inRange. rewrite andb_true_iff.
  unfold total, paid. tauto.
Qed.

(** ** The test mode switch *)

Lemma webhook_test_ignored rt st event :
  opt_eqb (getConfig (config st) "test_mode_enabled") "true" = false ->
  livemode (event_object event) = false ->
  fst (webhook rt st (Some event)) = st.
Proof.
  intros Hoff Hl. unfold webhook. rewrite Hl, Hoff. cbn [negb andb].
  destruct (stripe rt); [|reflexivity].
  destruct (truthyVal (stripeWebhookSecret rt)); [|reflexivity].
  destruct (String.eqb (event_type event) "checkout.session.completed");
    reflexivity.
Qed.

(** X15.  The test-mode route accepts a boolean only.  It stores it under
    test_mode_enabled as the text true or false and leaves the bookings
    alone; once it stored false, the webhook leaves the store as it is
    for every event of a test session.  Any other value is answered 400
    and changes nothing. *)
Theorem test_mode_switch rt enabled st st' r event :
  adminConfigTestMode enabled st = (st', r) ->
  match r with
  | Ok b =>
      enabled = Some (JBool b) /\
      getConfig (config st') "test_mode_enabled" = Some (if b then "true" else "false") /\
      bookings st' = bookings st /\
      (b = false -> livemode (event_object event) = false ->
       fst (webhook rt st' (Some event)) = st')
  | Failed code _ => st' = st /\ code = 400
  end.
Proof.
  unfold adminConfigTestMode.
  destruct enabled as [[| b | n | s]|]; intros H; injection H as <- <-;
    try (split; reflexivity).
  assert (G : getConfig
                (config (createAuditLog
                   (set_config st (setConfig (config st) "test_mode_enabled"
                                     (if b then "true" else "false")))
                   (mkAudit "CONFIG_CHANGE" "config" (Some "test_mode_enabled")
                      ("Mode test Stripe " ++ (if b then "activé" else "désactivé")))))
                "test_mode_enabled" = Some (if b then "true" else "false")).
  { cbn [createAuditLog add_audit set_config config].
    rewrite getConfig_setConfig, String.eqb_refl. reflexivity. }
  split; [reflexivity|]. split; [exact G|]. split; [reflexivity|].
  intros -> Hl. apply webhook_test_ignored; [|exact Hl].
  cbn [createAuditLog add_audit set_config config].
  rewrite getConfig_setConfig, String.eqb_refl. reflexivity.
Qed.

(** ** Who may change the settings *)

(** X16.  A signed-in account whose role is neither admin, manager nor
    superadmin is refused by the quotes switch with a 403, while the
    test-mode and max-bookings routes, which are registered without
    [requireAdmin], run their handler for it as for an administrator. *)
Theorem settings_open_to_every_account
    jwtVerify authorization user adminKnown enabled value st :
  authenticateToken jwtVerify authorization = Ok user ->
  role user <> Some "admin" -> role user <> Some "manager" ->
  role user <> Some "superadmin" ->
  routeConfigQuotes jwtVerify authorization adminKnown enabled st
    = (st, Failed 403 "Accès refusé. Droits administrateur requis.") /\
  routeConfigTestMode jwtVerify authorization enabled st
    = adminConfigTestMode enabled st /\
  routeConfigMaxBookings jwtVerify authorization value st
    = adminConfigMaxBookings value st.
Proof.
  intros Ha H1 H2 H3.
  unfold routeConfigQuotes, routeConfigTestMode, routeConfigMaxBookings, route.
  rewrite Ha. cbn [fold_left]. split; [|split; reflexivity].
  unfold requireAdmin.
  assert (N : forall s, role user <> Some s -> opt_eqb (role user) s = false).
  { intros s H. destruct (role user) as [x|]; [|reflexivity]. cbn [opt_eqb].
    apply String.eqb_neq. congruence. }
  rewrite (N _ H1), (N _ H2), (N _ H3). reflexivity.
Qed.

(** ** Status changes from the back office *)

Lemma createAuditLogBy_bookings k st a :
  bookings (createAuditLogBy k st a) = bookings st.
Proof. destruct k; reflexivity. Qed.

Lemma createAuditLogBy_services k st a :
  services (createAuditLogBy k st a) = services st.
Proof. destruct k; reflexivity. Qed.

Lemma createAuditLogBy_service_cities k st a :
  service_cities (createAuditLogBy k st a) = service_cities st.
Proof. destruct k; reflexivity. Qed.

Section StatusFacts.
Variable rowidOfParam : string -> JS.number.

Lemma updateBookingStatus_missing st s n :
  getBookingById st n = None ->
  bookings (updateBookingStatus st s n) = bookings st.
Proof.
  unfold getBookingById, updateBookingStatus, set_bookings. cbn [bookings].
  intros H. rewrite <- (map_id (bookings st)) at 2. apply map_ext_in.
  intros b Hin. rewrite (find_none _ _ H b Hin). reflexivity.
Qed.

(** X17.  A status change with a valid status for an id that matches no
    booking is answered as a success with no booking and changes no row.
    When the account of the caller exists (or the token carries no id) it
    still writes an audit entry, whose description reads the former
    status as the text undefined; when the account is gone, the entry
    fails on its foreign key and the audit log is left as it is. *)
Theorem status_change_of_missing_booking adminKnown idParam s st :
  In s validBookingStatuses ->
  getBookingById st (rowidOfParam idParam) = None ->
  let out := adminBookingStatus rowidOfParam adminKnown idParam (Some (JStr s)) st in
  snd out = Ok None /\
  bookings (fst out) = bookings st /\
  audit_logs (fst out)
  = if adminKnown then
      (audit_logs st ++
       [mkAudit "STATUS_CHANGE" "booking" (truthyVal (Some idParam))
          ("Changement de statut de réservation: undefined → " ++ s)])%list
    else audit_logs st.
Proof.
  intros Hs Hg. cbv zeta. unfold adminBookingStatus, createAuditLogBy.
  replace (existsb (String.eqb s) validBookingStatuses) with true.
  2:{ symmetry. apply existsb_exists. exists s. split; [exact Hs | apply String.eqb_refl]. }
  rewrite Hg. pose proof (updateBookingStatus_missing st s _ Hg) as Hb.
  destruct adminKnown;
    cbn [option_map tpl fst snd createAuditLog add_audit bookings audit_logs];
    rewrite (getBookingById_ext st _ _ Hb), Hg;
    (split; [reflexivity|]); (split; [exact Hb | reflexivity]).
Qed.

Lemma insertBooking_taken st params x :
  In x (bookings st) ->
  stored (nth 8 params BNull) = Some (preferred_date x) ->
  stored (nth 9 params BNull) = Some (preferred_time x) ->
  forall st1 rowid, insertBooking st params <> inr (st1, rowid).
Proof.
  intros Hin H8 H9 st1 rowid. unfold insertBooking. rewrite H8, H9.
  replace (existsb _ (bookings st)) with true.
  - repeat match goal with
    | |- (if ?c then _ else _) <> _ => destruct c; [discriminate|]
    | |- match ?c with Some _ => _ | None => _ end <> _ => destruct c; [|discriminate]
    end; discriminate.
  - symmetry. apply existsb_exists. exists x. split; [exact Hin|].
    rewrite !String.eqb_refl. reflexivity.
Qed.

Lemma NoDup_map_injective {A B : Type} (f : A -> B) (l : list A) x y :
  NoDup (map f l) -> In x l -> In y l -> f x = f y -> x = y.
Proof.
  induction l as [|a l IH]; intros Hnd Hx Hy E; [destruct Hx|].
  cbn [map] in Hnd. inversion Hnd as [|? ? Hn Hr]; subst.
  destruct Hx as [->|Hx], Hy as [->|Hy]; [reflexivity | | | auto].
  - exfalso. apply Hn. rewrite E. apply in_map. exact Hy.
  - exfalso. apply Hn. rewrite <- E. apply in_map. exact Hx.
Qed.

(** X18.  A cancelled booking keeps its (date, time) pair.  When the stored
    pairs are distinct and a booking is cancelled from the back office, the
    conflict check of its pair finds nothing, yet a payment confirmed for
    the same pair cannot be stored: the webhook leaves the bookings as they
    are and the verification call the whole store. *)
Theorem cancelled_booking_keeps_its_slot rt adminKnown idParam st b session md :
  NoDup (map slot (bookings st)) ->
  getBookingById st (rowidOfParam idParam) = Some b ->
  bookingPreferredDate md = Some (preferred_date b) ->
  JS.orElse (bookingPreferredTime md) "09:00" = preferred_time b ->
  let st' := fst (adminBookingStatus rowidOfParam adminKnown idParam
                                     (Some (JStr "cancelled")) st) in
  checkBookingConflict st' (preferred_date b) (preferred_time b) = None /\
  bookings (fst (webhookCreate rt st' session md (preferred_date b))) = bookings st' /\
  fst (verifyCreate rt st' session md (preferred_date b)) = st'.
Proof.
  intros Hnd Hg Hd Ht. cbv zeta.
  set (n := rowidOfParam idParam) in *.
  set (f := fun x : Booking => if idIs n x then
         mkBooking (id x) (name x) (email x) (phone x) (city x) (address x)
           (postal_code x) (service_type x) (bin_count x) (preferred_date x)
           (preferred_time x) (message x) "cancelled" (stripe_payment_intent_id x)
           (stripe_session_id x) (payment_status x) (rgpd_consent x)
           (marketing_consent x) (consent_ip x) (variant_id x)
           (subscription_contract_consent x)
       else x).
  assert (Hb : bookings (fst (adminBookingStatus rowidOfParam adminKnown idParam
                                (Some (JStr "cancelled")) st))
               = map f (bookings st))
    by (unfold adminBookingStatus; cbn [existsb validBookingStatuses String.eqb
          Ascii.eqb Bool.eqb orb fst]; rewrite createAuditLogBy_bookings; reflexivity).
  assert (Hin : In b (bookings st) /\ idIs n b = true).
  { unfold getBookingById in Hg. apply find_some in Hg. exact Hg. }
  destruct Hin as [Hin Hid].
  assert (Hfs : forall x, slot (f x) = slot x).
  { intros x. unfold f. destruct (idIs n x); reflexivity. }
  split; [|split].
  - unfold checkBookingConflict. rewrite Hb.
    match goal with |- find ?p _ = None => destruct (find p (map f (bookings st))) as [y|] eqn:F end;
      [|reflexivity].
    exfalso. apply find_some in F. destruct F as [Hy Hp].
    apply in_map_iff in Hy. destruct Hy as (x & <- & Hx).
    rewrite !Bool.andb_true_iff in Hp. destruct Hp as [[P1 P2] P3].
    apply String.eqb_eq in P1. apply String.eqb_eq in P2.
    assert (E : x = b).
    { apply (NoDup_map_injective slot (bookings st)); try assumption.
      rewrite <- (Hfs x). unfold slot. congruence. }
    subst x. unfold f in P3. rewrite Hid in P3. discriminate P3.
  - apply webhookCreate_no_insert.
    apply (insertBooking_taken _ _ (f b)).
    + rewrite Hb. apply in_map. exact Hin.
    + cbn [nth paidBookingParams]. rewrite Hd. unfold f. destruct (idIs n b); reflexivity.
    + cbn [nth paidBookingParams stored]. rewrite Ht. unfold f.
      destruct (idIs n b); reflexivity.
  - apply verifyCreate_no_insert.
    apply (insertBooking_taken _ _ (f b)).
    + rewrite Hb. apply in_map. exact Hin.
    + cbn [nth paidBookingParams]. rewrite Hd. unfold f. destruct (idIs n b); reflexivity.
    + cbn [nth paidBookingParams stored]. rewrite Ht. unfold f.
      destruct (idIs n b); reflexivity.
Qed.

End StatusFacts.

(** ** Cities and services added from the back office *)

Lemma find_app_none {A : Type} (p : A -> bool) (l1 l2 : list A) :
  find p l1 = None -> find p (l1 ++ l2) = find p l2.
Proof.
  induction l1 as [|a l IH]; [reflexivity|]. cbn [find app].
  destruct (p a); [discriminate | exact IH].
Qed.

Lemma no_passage_no_dates rt cfg lo hi start end_ :
  (forall w d, ~ passageOf cfg w d) ->
  DateParse rt lo = JS.Int start -> DateParse rt hi = JS.Int end_ ->
  getDate (LocalTZA rt) start <= 28 ->
  allowedDatesOf rt (Some cfg) lo hi = Some [].
Proof.
  intros Hno Hs He Hdd. unfold allowedDatesOf. rewrite Hs, He.
  set (tza := LocalTZA rt) in *.
  pose proof (local_decomposition tza start) as Hdec.
  destruct (day_of_local_date tza start) as [HD0 Hd1].
  destruct (monthLoop_total tza start end_
              (Z.to_nat ((end_ - start) / (28 * msPerDay) + 2)) cfg start [])
    as [l Hl].
  - intros w d H. destruct (Hno w d H).
  - exact Hdd.
  - apply (fuel_initial tza start end_ (monthStart tza start) (getDate tza start));
      [lia | exact Hdec].
  - unfold monthFuel. rewrite Hl. f_equal.
    destruct (monthLoop_sound tza start end_ _ cfg start [] l Hl)
      as [_ Hsound]; [constructor | intros s [] |].
    destruct l as [|s l]; [reflexivity|]. exfalso.
    destruct (Hsound s (or_introl eq_refl))
      as (date & (year & month & w & d & dates & _ & Hp & _) & _).
    exact (Hno w d Hp).
Qed.

(** X19.  A city created, enabled and under a new name, with passage week 0
    (every week) or passage day 0 (Sunday) and no second passage is stored
    with that column NULL, and so without a passage: the available-dates
    query for the city alone, over a range that starts on a day of the
    month up to the 28th, answers allowedDates null, the answer of a city
    without restriction. *)
Theorem weekly_city_passage_is_lost
    rt adminKnown rowid body st name q lo hi start end_ :
  truthyVal (cb_cityName body) = Some name ->
  (forall c, In c (service_cities st) -> city_name c <> name) ->
  cb_enabled body <> Some false ->
  cb_passage1Week body = Some 0 \/ cb_passage1Day body = Some 0 ->
  cb_passage2Week body = None ->
  q_serviceType q = None -> q_city q = Some name ->
  truthyVal (startDate q) = Some lo -> truthyVal (endDate q) = Some hi ->
  DateParse rt lo = JS.Int start -> DateParse rt hi = JS.Int end_ ->
  getDate (LocalTZA rt) start <= 28 ->
  let st' := fst (adminCitiesPost adminKnown rowid body st) in
  snd (adminCitiesPost adminKnown rowid body st) = Ok tt /\
  availableDates rt st' q =
    Responded 200
      [("ok", JAtom (JBool true));
       ("fullDates", JStrings (fullDatesOf st' q lo hi));
       ("allowedDates", JAtom JNull)].
Proof.
  intros Hname Hfresh Hen Hp1 Hp2 Hsvc Hcity Hlo Hhi Hs He Hdd. cbv zeta.
  assert (Hex : existsb (fun c => String.eqb (city_name c) name) (service_cities st)
                = false).
  { destruct (existsb _ (service_cities st)) eqn:E; [|reflexivity].
    apply existsb_exists in E. destruct E as (c & Hin & E).
    apply String.eqb_eq in E. destruct (Hfresh c Hin E). }
  assert (Hen' : match cb_enabled body with Some b => b | None => true end = true).
  { destruct (cb_enabled body) as [[|]|]; congruence. }
  unfold adminCitiesPost. rewrite Hname. unfold addServiceCity.
  cbn [city_name]. rewrite Hex, Hen'. cbn [fst snd]. split; [reflexivity|].
  unfold availableDates. rewrite Hlo, Hhi.
  set (row := mkCity name (numberOrNull (cb_passage1Week body))
                (numberOrNull (cb_passage1Day body))
                (numberOrNull (cb_passage2Week body))
                (numberOrNull (cb_passage2Day body)) true
                (truthyVal (cb_cutoffDate body))).
  set (st' := createAuditLogBy _ _ _).
  assert (Hres : resolvePassage st' q
                 = Some (mkPassage (c_passage1_week row) (c_passage1_day row)
                                   (c_passage2_week row) (c_passage2_day row))).
  { unfold resolvePassage. rewrite Hsvc, Hcity. cbn [truthyVal JS.truthy].
    destruct (truthyVal_Some _ _ Hname) as [_ Ht].
    assert (Ht' : truthyVal (Some name) = Some name).
    { unfold truthyVal. cbn [JS.truthy].
      unfold truthyVal in Hname. destruct (cb_cityName body) as [x|]; [|discriminate].
      cbn [JS.truthy] in Hname.
      destruct (negb (String.eqb x "")) eqn:X; [|discriminate].
      injection Hname as ->. rewrite X. reflexivity. }
    rewrite Ht'. unfold checkServiceCity. unfold st'.
    rewrite createAuditLogBy_service_cities.
    cbn [set_service_cities service_cities].
    rewrite find_app_none.
    - cbn [find city_name enabled row]. rewrite String.eqb_refl. reflexivity.
    - destruct (find _ (service_cities st)) as [c|] eqn:F; [|reflexivity].
      apply find_some in F. destruct F as [Hin F]. apply andb_prop in F.
      destruct F as [F _]. apply String.eqb_eq in F. destruct (Hfresh c Hin F). }
  rewrite Hres.
  rewrite (no_passage_no_dates rt _ lo hi start end_); [reflexivity | | exact Hs | exact He | exact Hdd].
  intros w d [[A B]|[A B]]; cbn [passage1_week passage1_day passage2_week passage2_day
                                  c_passage1_week c_passage1_day c_passage2_week
                                  c_passage2_day row] in A, B.
  - destruct Hp1 as [E|E]; rewrite E in *; discriminate.
  - rewrite Hp2 in A. discriminate.
Qed.

(** X20.  The creation of a service checks no bound on maxBookingsPerDay:
    a service created with a capacity of zero or less is accepted, and
    from then on every payment confirmed for it in the create-after-payment
    flow is refused as a full date, by the webhook and by the verification
    call, which leaves the store as it is. *)
Theorem service_capacity_is_not_validated
    rt adminKnown rowid body st serviceId name m session md pd :
  truthyVal (sb_serviceId body) = Some serviceId ->
  truthyVal (sb_name body) = Some name ->
  getServiceByServiceId st serviceId = None ->
  sb_maxBookingsPerDay body = Some m -> m <= 0 ->
  bookingServiceType md = Some serviceId ->
  let st' := fst (adminServicesPost adminKnown rowid body st) in
  (exists created, snd (adminServicesPost adminKnown rowid body st) = Ok created) /\
  webhookCreate rt st' session md pd =
    (trySendMail rt st' (dateFullMail rt md),
     Responded 200 (receivedError "Date complète, réservation non créée")) /\
  fst (verifyCreate rt st' session md pd) = st'.
Proof.
  intros Hid Hname Hnone Hm Hle Hsvc. cbv zeta.
  assert (Hex : existsb (fun s => String.eqb (service_id s) serviceId) (services st)
                = false).
  { destruct (existsb _ (services st)) eqn:E; [|reflexivity].
    apply existsb_exists in E. destruct E as (s & Hin & E).
    unfold getServiceByServiceId in Hnone.
    rewrite (find_none _ _ Hnone s Hin) in E. discriminate. }
  unfold adminServicesPost. rewrite Hid, Hname, Hnone.
  unfold insertService. cbn [service_id]. rewrite Hex. cbn [fst snd].
  split; [eexists; reflexivity|].
  set (st' := createAuditLogBy _ _ _).
  assert (Hcap : resolveCapacity st' (bookingServiceType md) = (JS.Int m, true)).
  { unfold resolveCapacity. rewrite Hsvc.
    assert (Ht : truthyVal (Some serviceId) = Some serviceId).
    { unfold truthyVal in *. cbn [JS.truthy] in *.
      destruct (sb_serviceId body) as [x|]; [|discriminate]. cbn [JS.truthy] in Hid.
      destruct (negb (String.eqb x "")) eqn:X; [|discriminate].
      injection Hid as ->. rewrite X. reflexivity. }
    rewrite Ht. unfold getServiceByServiceId, st'.
    rewrite createAuditLogBy_services. cbn [set_services services].
    rewrite find_app_none by exact Hnone.
    cbn [find service_id]. rewrite String.eqb_refl. cbn [max_bookings_per_day].
    rewrite Hm. reflexivity. }
  assert (Hge : forall c, JS.ge (JS.Int (Z.of_nat c)) (JS.Int m) = true).
  { intros c. cbn [JS.ge]. apply Z.leb_le. lia. }
  split.
  - unfold webhookCreate. rewrite Hcap. unfold paidCount. rewrite Hsvc.
    unfold countPaidBookingsByDateAndService. rewrite Hge. reflexivity.
  - unfold verifyCreate. rewrite Hcap. unfold paidCount. rewrite Hsvc.
    unfold countPaidBookingsByDateAndService. rewrite Hge. reflexivity.
Qed.

(** ** From the checkout to the booking row *)








(** X22.  A checkout that succeeds for an existing booking (type booking, no
    booking data) rewrites the payment columns of that booking: the new
    session id, no payment intent, and payment status unpaid, whatever it
    was before, so that the booking no longer counts as paid; its status
    is kept. *)
Theorem new_checkout_marks_booking_unpaid rt env body st st' sid url :
  createCheckoutSession rt env body st = (st', Ok (sid, url)) ->
  ck_type body = Some "booking" ->
  ck_bookingData body = None ->
  exists ident n b,
    truthyAtom (ck_id body) = Some ident /\ boundId env ident = Some n /\
    getBookingById st n = Some b /\
    st' = updateBookingPayment st None sid "unpaid" n /\
    exists b',
      getBookingById st' n = Some b' /\
      payment_status b' = Some "unpaid" /\ isPaid b' = false /\
      stripe_session_id b' = Some sid /\ stripe_payment_intent_id b' = None /\
      status b' = status b.
Proof.
  intros H Hty Hbd. unfold createCheckoutSession in H.
  destruct (stripe rt); [|discriminate].
  rewrite Hty in H. cbn [truthyVal JS.truthy String.eqb Ascii.eqb Bool.eqb negb] in H.
  cbv iota in H.
  destruct (truthyVal (ck_serviceId body)) as [serviceId|]; [|discriminate].
  destruct (getServiceByServiceId st serviceId) as [service|]; [|discriminate].
  destruct (truthyVal (stripe_product_id env service)) as [product|]; [|discriminate].
  match type of H with context [match ?v with Ok _ => _ | Failed _ _ => _ end] =>
    destruct v as [variant|]; [|discriminate] end.
  unfold checkoutCustomer in H.
  cbn [String.eqb Ascii.eqb Bool.eqb] in H. cbv iota in H. rewrite Hbd in H.
  destruct (truthyAtom (ck_id body)) as [ident|] eqn:Ti; [|discriminate].
  destruct (boundId env ident) as [n|] eqn:Bi; [|discriminate].
  destruct (getBookingById st n) as [b|] eqn:G; [|discriminate].
  cbn [checkoutCutoff] in H.
  destruct (pricesList env product) as [[|priceId ?]|]; try discriminate.
  match type of H with context [sessionsCreate env ?c] =>
    destruct (sessionsCreate env c) as [[sessionId u]|]; [|discriminate] end.
  cbn [isSome negb andb] in H. injection H as <- <- <-.
  exists ident, n, b. split; [reflexivity|]. split; [exact Bi|].
  split; [exact G|]. split; [reflexivity|].
  unfold getBookingById, updateBookingPayment, set_bookings in *. cbn [bookings].
  rewrite find_map_same.
  - rewrite G. cbn [option_map]. apply find_some in G. destruct G as [_ G].
    rewrite G. eexists. split; [reflexivity|]. repeat split; reflexivity.
  - intros x. destruct (idIs n x) eqn:E; [|exact E].
    rewrite <- E. apply idIs_same. reflexivity.
Qed.

Lemma checkout_after_cutoff
    rt env body st retrieve serviceId service product bd c pd cityRow cutoff tc tp :
  stripe rt = Some retrieve ->
  ck_type body = Some "booking" ->
  truthyVal (ck_serviceId body) = Some serviceId ->
  getServiceByServiceId st serviceId = Some service ->
  truthyVal (stripe_product_id env service) = Some product ->
  truthyAtom (ck_variantId body) = None ->
  ck_bookingData body = Some bd ->
  truthyVal (bd_city bd) = Some c ->
  truthyVal (bd_preferredDate bd) = Some pd ->
  checkServiceCity st c = Some cityRow ->
  truthyVal (cutoff_date cityRow) = Some cutoff ->
  DateParse rt cutoff = JS.Int tc ->
  DateParse rt pd = JS.Int tp ->
  tc < tp ->
  createCheckoutSession rt env body st =
    (st, Failed 400
           ("Les réservations pour " ++ c ++ " sont fermées au-delà du "
              ++ toLocaleDateString_frFR (LocalTZA rt) tc)).
Proof.
  intros Hs Hty Hsid Hsvc Hprod Hvar Hbd Hc Hpd Hcity Hcut Htc Htp Hlt.
  unfold createCheckoutSession. rewrite Hs, Hty.
  cbn [truthyVal JS.truthy String.eqb Ascii.eqb Bool.eqb negb]. cbv iota.
  rewrite Hsid, Hsvc, Hprod, Hvar.
  unfold checkoutCustomer. cbn [String.eqb Ascii.eqb Bool.eqb]. cbv iota.
  rewrite Hbd. unfold checkoutCutoff. rewrite Hc, Hpd, Hcity, Hcut, Htc, Htp.
  cbn [JS.gt]. destruct (Z.ltb_spec tc tp); [reflexivity | lia].
Qed.

(** X23.  A checkout with booking data for a date after the cutoff date of
    its enabled city, the cutoff being a date-only text (read as midnight
    UTC of that day), is answered 400; no Stripe session is created and
    the store is left as it is.  The message carries the cutoff date,
    printed day/month/year, on a server at or east of UTC, and the date of
    the day before the cutoff on a server west of UTC. *)
Theorem checkout_after_cutoff_rejected
    rt env body st retrieve serviceId service product bd c pd cityRow cutoff
    year month date tp :
  stripe rt = Some retrieve ->
  ck_type body = Some "booking" ->
  truthyVal (ck_serviceId body) = Some serviceId ->
  getServiceByServiceId st serviceId = Some service ->
  truthyVal (stripe_product_id env service) = Some product ->
  truthyAtom (ck_variantId body) = None ->
  ck_bookingData body = Some bd ->
  truthyVal (bd_city bd) = Some c ->
  truthyVal (bd_preferredDate bd) = Some pd ->
  checkServiceCity st c = Some cityRow ->
  truthyVal (cutoff_date cityRow) = Some cutoff ->
  0 <= month <= 11 -> 1 <= date <= DaysInMonth year month ->
  DateParse rt cutoff = JS.Int (MakeDay year month date * msPerDay) ->
  DateParse rt pd = JS.Int tp ->
  MakeDay year month date * msPerDay < tp ->
  zoneOffset (LocalTZA rt) ->
  createCheckoutSession rt env body st =
    (st, Failed 400
           ("Les réservations pour " ++ c ++ " sont fermées au-delà du "
              ++ if 0 <=? LocalTZA rt then frenchDate year month date
                 else frenchDateOfDay (MakeDay year month date - 1))).
Proof.
  intros Hs Hty Hsid Hsvc Hprod Hvar Hbd Hc Hpd Hcity Hcut Hm Hd Htc Htp Hlt Hz.
  rewrite (checkout_after_cutoff rt env body st retrieve serviceId service product
             bd c pd cityRow cutoff _ tp
             Hs Hty Hsid Hsvc Hprod Hvar Hbd Hc Hpd Hcity Hcut Htc Htp Hlt).
  rewrite frFR_of_utc_midnight by assumption. reflexivity.
Qed.

(** ** Erasure of the data of a client *)

(** X24.  The erasure of the data of an e-mail address removes exactly the
    bookings of that address: the rows left are those of the other
    addresses, the answer carries the numbers of bookings and quotes
    removed, the AUTOINCREMENT sequence is kept, and the audit log gets an
    entry that names the address. *)
Theorem erasure_removes_the_bookings env e st :
  truthyVal (Some e) = Some e ->
  let st' := fst (rgpdDelete env (Some e) st) in
  (forall b, In b (bookings st') <-> In b (bookings st) /\ email b <> e) /\
  snd (rgpdDelete env (Some e) st)
  = Ok (Z.of_nat (List.length (bookings st)) - Z.of_nat (List.length (bookings st')),
        Z.of_nat (List.length (quotes st)) - Z.of_nat (List.length (quotes st'))) /\
  bookings_seq st' = bookings_seq st /\
  (exists entry, In entry (audit_logs st') /\ entity_id entry = Some e).
Proof.
  intros Ht. cbv zeta. unfold rgpdDelete. rewrite Ht. cbn [fst snd].
  cbn [createAuditLog add_audit set_quotes set_bookings bookings quotes
       bookings_seq audit_logs].
  assert (L : forall (A : Type) (p : A -> bool) (l : list A),
            Z.of_nat (List.length (filter p l))
            = Z.of_nat (List.length l)
              - Z.of_nat (List.length (filter (fun x => negb (p x)) l))).
  { intros A p l. induction l as [|a l IH]; [reflexivity|]. cbn [filter].
    destruct (p a); cbn [negb List.length]; lia. }
  split; [|split; [|split]].
  - intros b. rewrite filter_In. split.
    + intros [Hin H]. split; [exact Hin|]. intros E. rewrite E, String.eqb_refl in H.
      discriminate.
    + intros [Hin H]. split; [exact Hin|]. apply Bool.negb_true_iff.
      apply String.eqb_neq. exact H.
  - rewrite <- !L. reflexivity.
  - reflexivity.
  - eexists. split; [apply in_or_app; right; left; reflexivity | reflexivity].
Qed.

(** X25.  The creation of a service checks no bound on the passage day: a
    service created with a first passage on a week day outside 0..6 is
    accepted, and from then on the available-dates query for that service
    over a range that is not empty never answers. *)
Theorem service_passage_day_is_not_validated
    rt adminKnown rowid body st serviceId name w d q lo hi start end_ :
  truthyVal (sb_serviceId body) = Some serviceId ->
  truthyVal (sb_name body) = Some name ->
  getServiceByServiceId st serviceId = None ->
  sb_passage1Week body = Some w -> sb_passage1Day body = Some d ->
  d < 0 \/ 6 < d ->
  q_serviceType q = Some serviceId ->
  truthyVal (startDate q) = Some lo -> truthyVal (endDate q) = Some hi ->
  DateParse rt lo = JS.Int start -> DateParse rt hi = JS.Int end_ ->
  start <= end_ ->
  (exists created, snd (adminServicesPost adminKnown rowid body st) = Ok created) /\
  availableDates rt (fst (adminServicesPost adminKnown rowid body st)) q = Diverged.
Proof.
  intros Hid Hname Hnone Hw Hd Hr Hsvc Hlo Hhi Hs He Hle.
  assert (Hex : existsb (fun s => String.eqb (service_id s) serviceId) (services st)
                = false).
  { destruct (existsb _ (services st)) eqn:E; [|reflexivity].
    apply existsb_exists in E. destruct E as (s & Hin & E).
    unfold getServiceByServiceId in Hnone.
    rewrite (find_none _ _ Hnone s Hin) in E. discriminate. }
  unfold adminServicesPost. rewrite Hid, Hname, Hnone.
  unfold insertService. cbn [service_id]. rewrite Hex. cbn [fst snd].
  split; [eexists; reflexivity|].
  set (st' := createAuditLogBy _ _ _).
  assert (Ht : truthyVal (Some serviceId) = Some serviceId).
  { unfold truthyVal in *. cbn [JS.truthy] in *.
    destruct (sb_serviceId body) as [x|]; [|discriminate]. cbn [JS.truthy] in Hid.
    destruct (negb (String.eqb x "")) eqn:X; [|discriminate].
    injection Hid as ->. rewrite X. reflexivity. }
  assert (Hres : resolvePassage st' q
                 = Some (mkPassage (Some w) (Some d) (sb_passage2Week body)
                                   (sb_passage2Day body))).
  { unfold resolvePassage. rewrite Hsvc, Ht. unfold getServiceByServiceId, st'.
    rewrite createAuditLogBy_services. cbn [set_services services].
    rewrite find_app_none by exact Hnone.
    cbn [find service_id]. rewrite String.eqb_refl.
    cbn [s_passage1_week s_passage1_day s_passage2_week s_passage2_day].
    rewrite Hw, Hd. reflexivity. }
  unfold availableDates. rewrite Hlo, Hhi, Hres.
  unfold allowedDatesOf. rewrite Hs, He. unfold monthFuel.
  rewrite monthLoop_unfold.
  destruct (Z.leb_spec start end_); [|lia].
  cbn [passage1_week passage1_day passageStep].
  rewrite (getNth_out_of_range _ _ _ _ _ Hr). reflexivity.
Qed.

(* ================================================================== *)
(** * The further properties at work on sample data *)


(** Week day 7, which the forms of the back office do not offer but its
    routes accept. *)
Lemma weekday_out_of_range_never_found_witness :
  (forall fuel step date, seekWeekday 0 fuel step 7 date = None) /\
  getNthWeekdayOfMonth 0 2025 5 1 7 = None.
Proof. apply (weekday_out_of_range_never_found 0 2025 5 1 7). right. lia. Defined.

(** The third Wednesday of June 2025, one hour east of UTC. *)
Lemma passage_dates_zone_independent_witness :
  zoneOffset 3600000 /\ dateYear 2025 /\
  (exists dates,
     getNthWeekdayOfMonth 3600000 2025 5 3 3 = Some dates /\
     Forall validTime dates) /\
  option_map (map (formatDate 3600000)) (getNthWeekdayOfMonth 3600000 2025 5 3 3)
  = option_map (map (formatDate 0)) (getNthWeekdayOfMonth 0 2025 5 3 3).
Proof.
  assert (Hz : zoneOffset 3600000) by (unfold zoneOffset, ESDate.msPerDay; lia).
  assert (Hy : dateYear 2025) by (unfold dateYear; lia).
  split; [exact Hz|]. split; [exact Hy|].
  apply (passage_dates_zone_independent 3600000 2025 5 3 3 Hz Hy); lia.
Defined.

(** A second paid booking on a day with room for two: the day then counts
    two, and no more. *)
Lemma create_after_payment_within_capacity_witness :
  let rt := Sample.rt Sample.noSession in
  let md := Sample.newBookingMetadata "2025-06-18" None in
  resolveCapacity Examples.roomLeft (Some "cleaning") = (JS.Int 2, true) /\
  paidCount (fst (webhookCreate rt Examples.roomLeft Sample.newSession md "2025-06-18"))
            true "2025-06-18" (Some "cleaning") = 2 /\
  forall d,
    paidCount (fst (webhookCreate rt Examples.roomLeft Sample.newSession md "2025-06-18"))
              true d (Some "cleaning")
      <= Z.max 2 (paidCount Examples.roomLeft true d (Some "cleaning")) /\
    paidCount (fst (verifyCreate rt Examples.roomLeft Sample.newSession md "2025-06-18"))
              true d (Some "cleaning")
      <= Z.max 2 (paidCount Examples.roomLeft true d (Some "cleaning")).
Proof.
  cbv zeta. split; [reflexivity|]. split; [reflexivity|].
  apply (create_after_payment_within_capacity
           (Sample.rt Sample.noSession) Examples.roomLeft Sample.newSession
           (Sample.newBookingMetadata "2025-06-18" None) "2025-06-18" 2 true).
  - intros b [<-|[]]. cbn. lia.
  - reflexivity.
  - reflexivity.
Defined.

(** A test payment while test mode is off. *)
Lemma test_payments_change_nothing_witness :
  let rt := Sample.rt Examples.retrieveTest in
  getConfig (config Sample.fullDay) "test_mode_enabled" = None /\
  fst (webhook rt Sample.fullDay (Some (Sample.completed Examples.testSession)))
    = Sample.fullDay /\
  fst (verifyPayment rt Sample.fullDay (Some "cs_test_1")) = Sample.fullDay.
Proof.
  cbv zeta. split; [reflexivity|].
  destruct (test_payments_change_nothing
              (Sample.rt Examples.retrieveTest) Sample.fullDay
              (Sample.completed Examples.testSession) "cs_test_1"
              Examples.retrieveTest Examples.testSession) as [Hw Hv].
  - discriminate.
  - split.
    + apply Hw. reflexivity.
    + apply Hv; reflexivity.
Defined.

(** A request for Lyon once the city is disabled. *)
Lemma booking_outside_served_cities_witness :
  bookingPost (Sample.rt Sample.noSession) Examples.lyonClosed
              (Sample.request "2025-06-20" None)
  = (Examples.lyonClosed,
     Responded 400 (okFalse "Nous n'intervenons pas encore dans cette ville")).
Proof.
  apply (booking_outside_served_cities (Sample.rt Sample.noSession)
           Examples.lyonClosed (Sample.request "2025-06-20" None) "Lyon").
  - reflexivity.
  - intros row [<-|[]] _. reflexivity.
Defined.

(** A database where only the quotes switch was ever set. *)
Lemma defaults_never_overwrite_witness :
  let cfg := [("quotes_enabled", "true")] in
  getConfig (initializeConfig cfg) "quotes_enabled" = Some "true" /\
  resolveCapacity (Sample.store [] [] [] (initializeConfig cfg)) None
  = (JS.Int 25, false).
Proof.
  cbv zeta.
  destruct (defaults_never_overwrite [("quotes_enabled", "true")]) as (H1 & _ & H3).
  split.
  - apply H1. reflexivity.
  - apply H3; reflexivity.
Defined.


(** June 2025 on a day with a paid booking and one awaiting its payment. *)
Lemma calendar_entries_witness :
  exists entries,
    adminBookingsCalendar Examples.june Sample.fullDay = Ok entries /\
    NoDup (map cal_date entries) /\
    (forall e, In e entries -> 0 <= cal_paidCount e <= cal_count e).
Proof.
  destruct (calendar_entries Examples.june Sample.fullDay "2025-06-01" "2025-06-30"
              eq_refl eq_refl eq_refl eq_refl) as (entries & H1 & H2 & _ & H4).
  exists entries. split; [exact H1|]. split; [exact H2 | exact H4].
Defined.

(** Test mode switched off, then a test payment. *)
Lemma test_mode_switch_witness :
  let st' := fst (adminConfigTestMode (Some (JBool false)) Examples.testModeOn) in
  getConfig (config st') "test_mode_enabled" = Some "false" /\
  fst (webhook (Sample.rt Sample.noSession) st'
               (Some (Sample.completed Examples.testSession))) = st'.
Proof.
  cbv zeta.
  destruct (test_mode_switch (Sample.rt Sample.noSession) (Some (JBool false))
              Examples.testModeOn
              (fst (adminConfigTestMode (Some (JBool false)) Examples.testModeOn))
              (Ok false) (Sample.completed Examples.testSession) eq_refl)
    as (_ & Hc & _ & Hw).
  split; [exact Hc|]. apply Hw; reflexivity.
Defined.

(** An account with the role viewer. *)
Lemma settings_open_to_every_account_witness :
  let auth := Some "Bearer t0k3n" in
  authenticateToken Examples.jwtVerify auth = Ok Examples.viewer /\
  routeConfigQuotes Examples.jwtVerify auth true (Some (JBool true)) Sample.confirmed
    = (Sample.confirmed, Failed 403 "Accès refusé. Droits administrateur requis.") /\
  snd (routeConfigTestMode Examples.jwtVerify auth (Some (JBool true)) Sample.confirmed)
    = Ok true /\
  snd (routeConfigMaxBookings Examples.jwtVerify auth (Whole 1) Sample.confirmed)
    = Ok (Whole 1).
Proof.
  cbv zeta. split; [reflexivity|].
  destruct (settings_open_to_every_account Examples.jwtVerify (Some "Bearer t0k3n")
              Examples.viewer true (Some (JBool true)) (Whole 1)
              Sample.confirmed) as (H1 & H2 & H3);
    [reflexivity | discriminate | discriminate | discriminate |].
  split; [exact H1|]. rewrite H2, H3. split; reflexivity.
Defined.

(** Booking 99 does not exist. *)
Lemma status_change_of_missing_booking_witness :
  let out := adminBookingStatus Examples.rowid true "99" (Some (JStr "cancelled"))
                                Sample.confirmed in
  snd out = Ok None /\
  bookings (fst out) = bookings Sample.confirmed /\
  audit_logs (fst out)
  = (audit_logs Sample.confirmed ++
     [mkAudit "STATUS_CHANGE" "booking" (truthyVal (Some "99"))
        ("Changement de statut de réservation: undefined → " ++ "cancelled")])%list.
Proof.
  apply (status_change_of_missing_booking Examples.rowid true "99" "cancelled"
           Sample.confirmed).
  - right. right. right. left. reflexivity.
  - reflexivity.
Defined.

(** Booking 1 is cancelled; a payment for its date and time follows. *)
Lemma cancelled_booking_keeps_its_slot_witness :
  let rt := Sample.rt Sample.noSession in
  let md := Sample.newBookingMetadata "2025-06-18" (Some "10:00") in
  let session := Sample.paidSession "cs_3" md in
  let st' := fst (adminBookingStatus Examples.rowid true "1" (Some (JStr "cancelled"))
                                     Sample.confirmed) in
  option_map status (getBookingById st' (JS.Int 1)) = Some "cancelled" /\
  checkBookingConflict st' "2025-06-18" "10:00" = None /\
  bookings (fst (webhookCreate rt st' session md "2025-06-18")) = bookings st' /\
  fst (verifyCreate rt st' session md "2025-06-18") = st'.
Proof.
  cbv zeta. split; [reflexivity|].
  apply (cancelled_booking_keeps_its_slot Examples.rowid
           (Sample.rt Sample.noSession) true "1" Sample.confirmed
           (Sample.booking 1 "2025-06-18" "10:00" "cleaning" "pending" "paid")
           (Sample.paidSession "cs_3"
              (Sample.newBookingMetadata "2025-06-18" (Some "10:00")))
           (Sample.newBookingMetadata "2025-06-18" (Some "10:00"))).
  - constructor; [intros [] | constructor].
  - reflexivity.
  - reflexivity.
  - reflexivity.
Defined.

(** Paris, every Wednesday. *)
Lemma weekly_city_passage_is_lost_witness :
  let rt := Sample.rt Sample.noSession in
  let st' := fst (adminCitiesPost true 2 Examples.paris Sample.confirmed) in
  snd (adminCitiesPost true 2 Examples.paris Sample.confirmed) = Ok tt /\
  availableDates rt st' Examples.parisDates =
    Responded 200
      [("ok", JAtom (JBool true));
       ("fullDates",
        JStrings (fullDatesOf st' Examples.parisDates "2025-06-01" "2025-06-30"));
       ("allowedDates", JAtom JNull)].
Proof.
  apply (weekly_city_passage_is_lost (Sample.rt Sample.noSession) true 2 Examples.paris
           Sample.confirmed "Paris" Examples.parisDates "2025-06-01" "2025-06-30"
           1748736000000 1751241600000).
  - reflexivity.
  - intros c [<-|[]]. discriminate.
  - discriminate.
  - left. reflexivity.
  - reflexivity.
  - reflexivity.
  - reflexivity.
  - reflexivity.
  - reflexivity.
  - reflexivity.
  - reflexivity.
  - vm_compute. discriminate.
Defined.

(** A service created with the capacity -3. *)
Lemma service_capacity_is_not_validated_witness :
  let rt := Sample.rt Sample.noSession in
  let body := Examples.windows (Some 3) (Some (-3)) in
  let md := Examples.windowsMetadata in
  let session := Sample.paidSession "cs_4" md in
  let st' := fst (adminServicesPost true 2 body Sample.confirmed) in
  (exists created, snd (adminServicesPost true 2 body Sample.confirmed) = Ok created) /\
  webhookCreate rt st' session md "2025-07-01" =
    (trySendMail rt st' (dateFullMail rt md),
     Responded 200 (receivedError "Date complète, réservation non créée")) /\
  fst (verifyCreate rt st' session md "2025-07-01") = st'.
Proof.
  apply (service_capacity_is_not_validated (Sample.rt Sample.noSession) true 2
           (Examples.windows (Some 3) (Some (-3))) Sample.confirmed
           "windows" "Vitres" (-3)
           (Sample.paidSession "cs_4" Examples.windowsMetadata)
           Examples.windowsMetadata "2025-07-01").
  - reflexivity.
  - reflexivity.
  - reflexivity.
  - reflexivity.
  - lia.
  - reflexivity.
Defined.


(** A new checkout for booking 1, which is paid. *)
Lemma new_checkout_marks_booking_unpaid_witness :
  let out := createCheckoutSession (Sample.rt Sample.noSession) Examples.billing
               (Examples.checkoutOfBooking "1") Sample.confirmed in
  option_map isPaid (getBookingById Sample.confirmed (JS.Int 1)) = Some true /\
  exists ident n b,
    truthyAtom (Some (JStr "1")) = Some ident /\
    boundId Examples.billing ident = Some n /\
    getBookingById Sample.confirmed n = Some b /\
    fst out = updateBookingPayment Sample.confirmed None "cs_new" "unpaid" n /\
    exists b',
      getBookingById (fst out) n = Some b' /\
      payment_status b' = Some "unpaid" /\ isPaid b' = false /\
      stripe_session_id b' = Some "cs_new" /\ stripe_payment_intent_id b' = None /\
      status b' = status b.
Proof.
  cbv zeta. split; [reflexivity|].
  apply (new_checkout_marks_booking_unpaid (Sample.rt Sample.noSession)
           Examples.billing (Examples.checkoutOfBooking "1") Sample.confirmed
           (fst (createCheckoutSession (Sample.rt Sample.noSession) Examples.billing
                   (Examples.checkoutOfBooking "1") Sample.confirmed))
           "cs_new" (Some "https://checkout.stripe.example/cs_new"));
    reflexivity.
Defined.

(** Lyon is closed after 30 June 2025; the form asks for 2 July, on a server
    on UTC and on a server five hours west of it. *)
Lemma checkout_after_cutoff_rejected_witness :
  createCheckoutSession (Examples.rtAt 0) Examples.billing
                        (Examples.checkoutOfForm "2025-07-02") Sample.fullDay
  = (Sample.fullDay,
     Failed 400 "Les réservations pour Lyon sont fermées au-delà du 30/06/2025") /\
  createCheckoutSession (Examples.rtAt (-18000000)) Examples.billing
                        (Examples.checkoutOfForm "2025-07-02") Sample.fullDay
  = (Sample.fullDay,
     Failed 400 "Les réservations pour Lyon sont fermées au-delà du 29/06/2025").
Proof.
  split.
  - rewrite (checkout_after_cutoff_rejected (Examples.rtAt 0) Examples.billing
               (Examples.checkoutOfForm "2025-07-02") Sample.fullDay Sample.noSession
               "cleaning" (Sample.cleaning (Some 1)) "prod_1"
               (Examples.form "2025-07-02") "Lyon" "2025-07-02"
               (Sample.lyon (Some "2025-06-30")) "2025-06-30"
               2025 5 30 1751414400000);
      first [ reflexivity | lia | vm_compute; split; discriminate
            | vm_compute; split; reflexivity ].
  - rewrite (checkout_after_cutoff_rejected (Examples.rtAt (-18000000))
               Examples.billing
               (Examples.checkoutOfForm "2025-07-02") Sample.fullDay Sample.noSession
               "cleaning" (Sample.cleaning (Some 1)) "prod_1"
               (Examples.form "2025-07-02") "Lyon" "2025-07-02"
               (Sample.lyon (Some "2025-06-30")) "2025-06-30"
               2025 5 30 1751414400000);
      first [ reflexivity | lia | vm_compute; split; discriminate
            | vm_compute; split; reflexivity ].
Defined.

(** The two bookings of ada@example.org. *)
Lemma erasure_removes_the_bookings_witness :
  let out := rgpdDelete Examples.billing (Some "ada@example.org") Sample.fullDay in
  bookings (fst out) = [] /\
  (forall b, In b (bookings (fst out))
             <-> In b (bookings Sample.fullDay) /\ email b <> "ada@example.org") /\
  snd out = Ok (2, 0) /\
  bookings_seq (fst out) = 2.
Proof.
  cbv zeta. split; [reflexivity|].
  destruct (erasure_removes_the_bookings Examples.billing "ada@example.org"
              Sample.fullDay eq_refl) as (H1 & H2 & H3 & _).
  split; [exact H1|]. split; [exact H2 | exact H3].
Defined.

(** A service created with a passage on week day 7. *)
Lemma service_passage_day_is_not_validated_witness :
  let body := Examples.windows (Some 7) None in
  (exists created, snd (adminServicesPost true 2 body Sample.confirmed) = Ok created) /\
  availableDates (Sample.rt Sample.noSession)
                 (fst (adminServicesPost true 2 body Sample.confirmed))
                 Examples.windowsDates = Diverged.
Proof.
  apply (service_passage_day_is_not_validated (Sample.rt Sample.noSession) true 2
           (Examples.windows (Some 7) None) Sample.confirmed "windows" "Vitres"
           1 7 Examples.windowsDates "2025-06-01" "2025-06-30"
           1748736000000 1751241600000);
    try reflexivity.
  - right. lia.
  - lia.
Defined.
